(** * Premier League predictor: the prediction scoring engine

    A shallow embedding of [src/lib/prediction-engine.ts] together with the
    parts of [src/lib/database.ts] and of the API client that the engine
    calls, and the properties of the engine stated in the specification;
    then the rest of the in-memory database, the request counter of the
    API client, the routes that read and write predictions, teams and
    standings, the reports of the prediction generator and the selectors
    of the client, with the properties their code shows.

    Conventions of the embedding:
    - a JavaScript [number] holding a derived score is a [num]: an exact
      rational, one of the two infinities, or NaN.  Division by zero, NaN
      propagation, comparisons with NaN and the behaviour of [Math.max],
      [Math.min], [Math.round] and [Math.abs] follow ECMAScript.  Binary
      rounding of IEEE doubles is not modelled, and neither is the sign
      of zero (no division of the program can see a negative zero);
    - identifiers, goal counts, season counters, seasons and parsed dates
      are integers ([Z]); a [null] or missing value is [None];
    - an [async] function that may reject is a computation in the
      [Result] monad, [try { } catch { }] is [try_catch];
    - [Math.exp] is a parameter of the development. *)

From Stdlib Require Import ZArith QArith Qround Qabs List Bool String Lia Lqa.
From Stdlib Require Import Setoid Morphisms Sorted Permutation.
Import ListNotations.

Set Implicit Arguments.

(** ** Computations that may throw *)

Inductive Result (A : Type) : Type :=
| Ok (a : A)
| Err (e : string).

Arguments Ok {A} a.
Arguments Err {A} e.

Definition ret {A} (a : A) : Result A := Ok a.

Definition bind {A B} (m : Result A) (k : A -> Result B) : Result B :=
  match m with
  | Ok a => k a
  | Err e => Err e
  end.

(** [try { body } catch (error) { handler }] *)
Definition try_catch {A} (body : Result A) (handler : string -> Result A)
  : Result A :=
  match body with
  | Ok a => Ok a
  | Err e => handler e
  end.

Notation "x <- m ;; k" := (bind m (fun x => k))
  (at level 61, m at next level, right associativity).

Definition succeeds {A} (m : Result A) : Prop := exists a, m = Ok a.

(** ** JavaScript numbers *)

Module JS.

Inductive num : Type :=
| Fin (q : Q)
| PInf
| NInf
| NaN.

Definition ofZ (z : Z) : num := Fin (inject_Z z).

Definition Qltb (a b : Q) : bool := negb (Qle_bool b a).

(** The infinity carrying the sign of [q]; NaN for zero. *)
Definition signedInf (q : Q) : num :=
  if Qltb 0 q then PInf else if Qltb q 0 then NInf else NaN.

Definition neg (a : num) : num :=
  match a with
  | Fin x => Fin (- x)
  | PInf => NInf
  | NInf => PInf
  | NaN => NaN
  end.

Definition add (a b : num) : num :=
  match a, b with
  | NaN, _ | _, NaN => NaN
  | Fin x, Fin y => Fin (x + y)
  | PInf, NInf | NInf, PInf => NaN
  | PInf, _ | _, PInf => PInf
  | NInf, _ | _, NInf => NInf
  end.

Definition sub (a b : num) : num := add a (neg b).

Definition mul (a b : num) : num :=
  match a, b with
  | NaN, _ | _, NaN => NaN
  | Fin x, Fin y => Fin (x * y)
  | Fin x, PInf | PInf, Fin x => signedInf x
  | Fin x, NInf | NInf, Fin x => signedInf (- x)
  | PInf, PInf | NInf, NInf => PInf
  | PInf, NInf | NInf, PInf => NInf
  end.

Definition div (a b : num) : num :=
  match a, b with
  | NaN, _ | _, NaN => NaN
  | Fin x, Fin y => if Qeq_bool y 0 then signedInf x else Fin (x / y)
  | Fin _, PInf | Fin _, NInf => Fin 0
  | PInf, Fin y => if Qle_bool 0 y then PInf else NInf
  | NInf, Fin y => if Qle_bool 0 y then NInf else PInf
  | _, _ => NaN
  end.

(** [a > b]; false as soon as one side is NaN. *)
Definition gtb (a b : num) : bool :=
  match a, b with
  | Fin x, Fin y => Qltb y x
  | PInf, Fin _ | PInf, NInf | Fin _, NInf => true
  | _, _ => false
  end.

Definition ltb (a b : num) : bool := gtb b a.

(** [a === b] *)
Definition eqb (a b : num) : bool :=
  match a, b with
  | Fin x, Fin y => Qeq_bool x y
  | PInf, PInf | NInf, NInf => true
  | _, _ => false
  end.

(** [Math.max(a, b)] and [Math.min(a, b)] *)
Definition max (a b : num) : num :=
  match a, b with
  | NaN, _ | _, NaN => NaN
  | _, _ => if gtb a b then a else b
  end.

Definition min (a b : num) : num :=
  match a, b with
  | NaN, _ | _, NaN => NaN
  | _, _ => if ltb a b then a else b
  end.

(** [Math.max(a, b, c)] *)
Definition max3 (a b c : num) : num := max (max a b) c.

(** [Math.abs] *)
Definition abs (a : num) : num :=
  match a with
  | Fin x => Fin (Qabs x)
  | PInf | NInf => PInf
  | NaN => NaN
  end.

(** [Math.round]: the nearest integer, halves towards plus infinity. *)
Definition round (a : num) : num :=
  match a with
  | Fin x => Fin (inject_Z (Qfloor (x + (1 # 2))))
  | other => other
  end.

(** Equality of values: rationals up to [Qeq]. *)
Definition eq (a b : num) : Prop :=
  match a, b with
  | Fin x, Fin y => x == y
  | PInf, PInf | NInf, NInf | NaN, NaN => True
  | _, _ => False
  end.

(** [lo <= a <= hi] for a rational value; NaN and the infinities are in
    no range. *)
Definition within (lo hi : Q) (a : num) : Prop :=
  match a with
  | Fin x => lo <= x /\ x <= hi
  | _ => False
  end.

Definition finite (a : num) : Prop :=
  match a with
  | Fin _ => True
  | _ => False
  end.

End JS.

Abbreviation num := JS.num.
Abbreviation Fin := JS.Fin.
Abbreviation NaN := JS.NaN.
Abbreviation PInf := JS.PInf.
Abbreviation NInf := JS.NInf.

Declare Scope num_scope.
Delimit Scope num_scope with num.
Bind Scope num_scope with JS.num.
Infix "+" := JS.add : num_scope.
Infix "-" := JS.sub : num_scope.
Infix "*" := JS.mul : num_scope.
Infix "/" := JS.div : num_scope.
Infix "==" := JS.eq (at level 70, no associativity) : num_scope.

(** A decimal literal of the source, as the rational it denotes. *)
Definition lit (n : Z) (d : positive) : num := Fin (n # d).
Coercion JS.ofZ : Z >-> JS.num.

(** ** Data model ([src/types/index.ts]) *)

Record Team : Type := {
  team_id : Z;
  team_name : string
}.

(** A fixture.  [fx_date] is [new Date(date).getTime()], the parsed date;
    [goals_home] and [goals_away] are [number | null]. *)
Record Fixture : Type := {
  fx_id : Z;
  fx_date : Z;
  status_short : string;
  teams_home : Team;
  teams_away : Team;
  goals_home : option Z;
  goals_away : option Z
}.

Record TeamStatistics : Type := {
  ts_team_id : Z;
  ts_season : Z;
  ts_played : Z;
  ts_wins : Z;
  ts_draws : Z;
  ts_losses : Z;
  ts_goals_for : Z;
  ts_goals_against : Z;
  ts_goal_difference : Z;
  ts_home_wins : Z;
  ts_home_draws : Z;
  ts_home_losses : Z;
  ts_clean_sheets : Z;
  ts_failed_to_score : Z
}.

(** The [Record<string, unknown>] the statistical analyzer reads: the
    keys it looks up, each a number or absent ([undefined]). *)
Record StatsRecord : Type := {
  played : option Z;
  home_wins : option Z;
  home_draws : option Z;
  home_losses : option Z;
  goal_difference : option Z;
  clean_sheets : option Z;
  failed_to_score : option Z;
  goals_for : option Z;
  goals_against : option Z
}.

(** [stats as unknown as Record<string, unknown>] *)
Definition asRecord (s : TeamStatistics) : StatsRecord :=
  {| played := Some (ts_played s);
     home_wins := Some (ts_home_wins s);
     home_draws := Some (ts_home_draws s);
     home_losses := Some (ts_home_losses s);
     goal_difference := Some (ts_goal_difference s);
     clean_sheets := Some (ts_clean_sheets s);
     failed_to_score := Some (ts_failed_to_score s);
     goals_for := Some (ts_goals_for s);
     goals_against := Some (ts_goals_against s) |}.

(** [x || 0] on a number that may be [null] or [undefined] *)
Definition orZero (x : option Z) : Z :=
  match x with
  | Some z => z
  | None => 0
  end.

Inductive Outcome : Type := HOME_WIN | DRAW | AWAY_WIN.

Record PredictionFactors : Type := {
  homeFormScore : num;
  awayFormScore : num;
  headToHeadScore : num;
  pf_homeAdvantage : num;
  goalDifferenceFactor : num
}.

Record PredictionResult : Type := {
  prediction : Outcome;
  confidence : num;
  factors : PredictionFactors
}.

Record FormAnalysis : Type := {
  wins : Z;
  draws : Z;
  losses : Z;
  goalsFor : Z;
  goalsAgainst : Z;
  points : Z;
  formScore : num
}.

Record StatisticalAnalysis : Type := {
  homeAdvantage : num;
  goalDifferential : num;
  cleanSheetRatio : num;
  scoringConsistency : num;
  defensiveStrength : num;
  attackingStrength : num
}.

Record MatchContext : Type := {
  homeTeam : Team;
  awayTeam : Team;
  fixture : Fixture;
  homeForm : FormAnalysis;
  awayForm : FormAnalysis;
  homeStats : StatisticalAnalysis;
  awayStats : StatisticalAnalysis;
  headToHeadRecord : list Fixture;
  ctx_homeAdvantage : num
}.

(** ** The in-memory database ([src/lib/database.ts]) *)

Record MockDatabase : Type := {
  db_fixtures : list Fixture;
  db_teamStatistics : list TeamStatistics
}.

Module Database.

(** [fixture.status.short === 'FT'] *)
Definition completed (f : Fixture) : bool :=
  String.eqb (status_short f) "FT".

(** [.sort((a, b) => new Date(b.date).getTime() - new Date(a.date).getTime())]:
    most recent first; the sort is stable. *)
Fixpoint insertByDate (f : Fixture) (l : list Fixture) : list Fixture :=
  match l with
  | [] => [f]
  | g :: l' =>
      if (fx_date f <? fx_date g)%Z then g :: insertByDate f l'
      else f :: g :: l'
  end.

Definition sortByDateDesc (l : list Fixture) : list Fixture :=
  fold_right insertByDate [] l.

(** [.slice(0, e)] *)
Definition slice0 {A} (l : list A) (e : Z) : list A :=
  if (e <? 0)%Z
  then firstn (Z.to_nat (Z.max (Z.of_nat (List.length l) + e) 0)) l
  else firstn (Z.to_nat e) l.

Definition getTeamRecentForm (db : MockDatabase) (teamId matches : Z)
  : list Fixture :=
  slice0
    (sortByDateDesc
       (filter (fun f =>
                  ((team_id (teams_home f) =? teamId)%Z
                   || (team_id (teams_away f) =? teamId)%Z)
                  && completed f)
               (db_fixtures db)))
    matches.

Definition getHeadToHeadRecords (db : MockDatabase) (team1Id team2Id limit : Z)
  : list Fixture :=
  slice0
    (sortByDateDesc
       (filter (fun f =>
                  (((team_id (teams_home f) =? team1Id)%Z
                    && (team_id (teams_away f) =? team2Id)%Z)
                   || ((team_id (teams_home f) =? team2Id)%Z
                       && (team_id (teams_away f) =? team1Id)%Z))
                  && completed f)
               (db_fixtures db)))
    limit.

(** [mockDB.teamStatistics.find(...) || null] *)
Definition getTeamStatistics (db : MockDatabase) (teamId season : Z)
  : option TeamStatistics :=
  find (fun s => (ts_team_id s =? teamId)%Z && (ts_season s =? season)%Z)
       (db_teamStatistics db).

End Database.

(** ** The API client ([api-football.ts]): seasons and weights *)

(** [getCurrentSeason()], from the year and the month (1 to 12) of
    [new Date()]. *)
Definition getCurrentSeason (currentYear currentMonth : Z) : Z :=
  if (currentMonth >=? 8)%Z then currentYear else (currentYear - 1)%Z.

Record SeasonWeight : Type := {
  sw_season : Z;
  sw_weight : num
}.

Definition getAnalysisSeasons (currentYear currentMonth : Z)
  : list SeasonWeight :=
  let currentSeason := getCurrentSeason currentYear currentMonth in
  [ {| sw_season := currentSeason; sw_weight := lit 5 10 |};
    {| sw_season := (currentSeason - 1)%Z; sw_weight := lit 3 10 |};
    {| sw_season := (currentSeason - 2)%Z; sw_weight := lit 2 10 |} ].

Record SeasonData : Type := {
  sd_season : Z;
  sd_stats : option StatsRecord;
  sd_weight : num
}.

(** ** The collaborators of the engine

    The engine guards every call to the database and to the API client
    with [try]/[catch]; the calls are therefore taken as operations that
    may throw.  [mockSource] below is the implementation the repository
    ships. *)
Record DataSource : Type := {
  nowYear : Z;
  nowMonth : Z;
  db_getTeamRecentForm : Z -> Z -> Result (list Fixture);
  db_getHeadToHeadRecords : Z -> Z -> Z -> Result (list Fixture);
  db_getTeamStatistics : Z -> Z -> Result (option TeamStatistics);
  api_hasApiKey : bool;
  api_getTeamStatistics : Z -> Z -> Result (option StatsRecord)
}.

(** The in-memory database, with no API key configured. *)
Definition mockSource (year month : Z) (db : MockDatabase) : DataSource :=
  {| nowYear := year;
     nowMonth := month;
     db_getTeamRecentForm := fun t n => Ok (Database.getTeamRecentForm db t n);
     db_getHeadToHeadRecords :=
       fun a b n => Ok (Database.getHeadToHeadRecords db a b n);
     db_getTeamStatistics := fun t s => Ok (Database.getTeamStatistics db t s);
     api_hasApiKey := false;
     api_getTeamStatistics :=
       fun _ _ => Err "API_FOOTBALL_KEY not configured" |}.

(** ** The prediction engine ([src/lib/prediction-engine.ts]) *)

Definition HOME_ADVANTAGE_FACTOR : num := lit 15 100.
Definition FORM_WEIGHT : num := lit 4 10.
Definition STATS_WEIGHT : num := lit 35 100.

(** *** Form analyzer *)

(** The five counters of the loop of [analyzeTeamForm]. *)
Record Tally : Type := {
  t_wins : Z;
  t_draws : Z;
  t_losses : Z;
  t_goalsFor : Z;
  t_goalsAgainst : Z
}.

Definition tally0 : Tally :=
  {| t_wins := 0; t_draws := 0; t_losses := 0;
     t_goalsFor := 0; t_goalsAgainst := 0 |}.

(** One iteration of [for (const match of recentMatches)]. *)
Definition formStep (teamId : Z) (t : Tally) (m : Fixture) : Tally :=
  let isHome := (team_id (teams_home m) =? teamId)%Z in
  let teamGoals :=
    if isHome then orZero (goals_home m) else orZero (goals_away m) in
  let opponentGoals :=
    if isHome then orZero (goals_away m) else orZero (goals_home m) in
  let gf := (t_goalsFor t + teamGoals)%Z in
  let ga := (t_goalsAgainst t + opponentGoals)%Z in
  if (teamGoals >? opponentGoals)%Z then
    {| t_wins := t_wins t + 1; t_draws := t_draws t; t_losses := t_losses t;
       t_goalsFor := gf; t_goalsAgainst := ga |}
  else if (teamGoals =? opponentGoals)%Z then
    {| t_wins := t_wins t; t_draws := t_draws t + 1; t_losses := t_losses t;
       t_goalsFor := gf; t_goalsAgainst := ga |}
  else
    {| t_wins := t_wins t; t_draws := t_draws t; t_losses := t_losses t + 1;
       t_goalsFor := gf; t_goalsAgainst := ga |}.

Definition neutralForm : FormAnalysis :=
  {| wins := 0; draws := 0; losses := 0; goalsFor := 0; goalsAgainst := 0;
     points := 0; formScore := 50%Z |}.

(** The [try] block of [analyzeTeamForm], after the database answered. *)
Definition formOf (teamId matches : Z) (recentMatches : list Fixture)
  : FormAnalysis :=
  let t := fold_left (formStep teamId) recentMatches tally0 in
  let points := (t_wins t * 3 + t_draws t)%Z in
  let maxPoints := (matches * 3)%Z in
  let formScore := ((points / maxPoints) * 100%Z)%num in
  {| wins := t_wins t; draws := t_draws t; losses := t_losses t;
     goalsFor := t_goalsFor t; goalsAgainst := t_goalsAgainst t;
     points := points; formScore := formScore |}.

Definition analyzeTeamForm (ds : DataSource) (teamId matches : Z)
  : Result FormAnalysis :=
  try_catch
    (recentMatches <- db_getTeamRecentForm ds teamId matches ;;
     ret (formOf teamId matches recentMatches))
    (fun _ => ret neutralForm).

(** *** Statistical analyzer *)

(** [apiFootball.getMultiSeasonTeamStatistics]: one request per season,
    each in its own [try]/[catch]. *)
Fixpoint apiSeasonData (ds : DataSource) (teamId : Z)
  (seasons : list SeasonWeight) : list SeasonData :=
  match seasons with
  | [] => []
  | sw :: rest =>
      match api_getTeamStatistics ds teamId (sw_season sw) with
      | Ok (Some stats) =>
          {| sd_season := sw_season sw; sd_stats := Some stats;
             sd_weight := sw_weight sw |} :: apiSeasonData ds teamId rest
      | Ok None | Err _ => apiSeasonData ds teamId rest
      end
  end.

Definition getMultiSeasonTeamStatistics (ds : DataSource) (teamId : Z)
  : Result (list SeasonData) :=
  ret (apiSeasonData ds teamId (getAnalysisSeasons (nowYear ds) (nowMonth ds))).

(** The database fallback: the loop over [apiFootball.getAnalysisSeasons()]. *)
Fixpoint dbSeasonData (ds : DataSource) (teamId : Z)
  (seasons : list SeasonWeight) : list SeasonData :=
  match seasons with
  | [] => []
  | sw :: rest =>
      match db_getTeamStatistics ds teamId (sw_season sw) with
      | Ok (Some stats) =>
          {| sd_season := sw_season sw; sd_stats := Some (asRecord stats);
             sd_weight := sw_weight sw |} :: dbSeasonData ds teamId rest
      | Ok None | Err _ => dbSeasonData ds teamId rest
      end
  end.

(** Lines 106 to 129: the season data the analyzer works on. *)
Definition multiSeasonData (ds : DataSource) (teamId : Z) : list SeasonData :=
  let fromApi :=
    try_catch
      (if api_hasApiKey ds then getMultiSeasonTeamStatistics ds teamId
       else ret [])
      (fun _ => ret []) in
  match fromApi with
  | Ok ((_ :: _) as data) => data
  | Ok [] | Err _ =>
      dbSeasonData ds teamId (getAnalysisSeasons (nowYear ds) (nowMonth ds))
  end.

(** The running sums [weightedStats] and [totalWeight]. *)
Record Weighted : Type := {
  weightedStats : StatisticalAnalysis;
  totalWeight : num
}.

Definition weighted0 : Weighted :=
  {| weightedStats :=
       {| homeAdvantage := 0%Z; goalDifferential := 0%Z;
          cleanSheetRatio := 0%Z; scoringConsistency := 0%Z;
          defensiveStrength := 0%Z; attackingStrength := 0%Z |};
     totalWeight := 0%Z |}.

(** The six per-season values computed in the body of the loop. *)
Definition seasonMetrics (stats : StatsRecord) (totalMatches : Z)
  : StatisticalAnalysis :=
  let homeWins := orZero (home_wins stats) in
  let homeDraws := orZero (home_draws stats) in
  let homeLosses := orZero (home_losses stats) in
  let homeAdvantage :=
    (((homeWins * 3 + homeDraws)%Z
      / ((homeWins + homeDraws + homeLosses) * 3)%Z) * 100%Z)%num in
  let goalDifferential := orZero (goal_difference stats) in
  let cleanSheets := orZero (clean_sheets stats) in
  let failedToScore := orZero (failed_to_score stats) in
  let goalsFor := orZero (goals_for stats) in
  let goalsAgainst := orZero (goals_against stats) in
  let cleanSheetRatio := ((cleanSheets / totalMatches) * 100%Z)%num in
  let scoringConsistency :=
    (((totalMatches - failedToScore)%Z / totalMatches) * 100%Z)%num in
  let goalsConceededPerMatch := (goalsAgainst / totalMatches)%num in
  let defensiveStrength :=
    JS.max 0%Z (100%Z - goalsConceededPerMatch * 25%Z)%num in
  let goalsScoredPerMatch := (goalsFor / totalMatches)%num in
  let attackingStrength := JS.min 100%Z (goalsScoredPerMatch * 40%Z)%num in
  {| homeAdvantage := homeAdvantage;
     goalDifferential := goalDifferential;
     cleanSheetRatio := cleanSheetRatio;
     scoringConsistency := scoringConsistency;
     defensiveStrength := defensiveStrength;
     attackingStrength := attackingStrength |}.

(** [weightedStats.x += x * weight] for the six fields, and
    [totalWeight += weight]. *)
Definition contribute (acc : Weighted) (m : StatisticalAnalysis) (weight : num)
  : Weighted :=
  let w := weightedStats acc in
  {| weightedStats :=
       {| homeAdvantage := (homeAdvantage w + homeAdvantage m * weight)%num;
          goalDifferential :=
            (goalDifferential w + goalDifferential m * weight)%num;
          cleanSheetRatio :=
            (cleanSheetRatio w + cleanSheetRatio m * weight)%num;
          scoringConsistency :=
            (scoringConsistency w + scoringConsistency m * weight)%num;
          defensiveStrength :=
            (defensiveStrength w + defensiveStrength m * weight)%num;
          attackingStrength :=
            (attackingStrength w + attackingStrength m * weight)%num |};
     totalWeight := (totalWeight acc + weight)%num |}.

(** One iteration of [for (const { stats, weight } of multiSeasonData)]:
    [if (stats && (stats.played as number) > 0)]. *)
Definition statsStep (acc : Weighted) (d : SeasonData) : Weighted :=
  match sd_stats d with
  | Some stats =>
      match played stats with
      | Some totalMatches =>
          if (totalMatches >? 0)%Z
          then contribute acc (seasonMetrics stats totalMatches) (sd_weight d)
          else acc
      | None => acc
      end
  | None => acc
  end.

Definition neutralStats : StatisticalAnalysis :=
  {| homeAdvantage := 50%Z; goalDifferential := 0%Z; cleanSheetRatio := 0%Z;
     scoringConsistency := 50%Z; defensiveStrength := 50%Z;
     attackingStrength := 50%Z |}.

(** [Math.min(100, Math.max(0, x))] *)
Definition clampStat (x : num) : num := JS.min 100%Z (JS.max 0%Z x).

(** Lines 131 to 199: the blend of the season data. *)
Definition blend (data : list SeasonData) : StatisticalAnalysis :=
  let acc := fold_left statsStep data weighted0 in
  let w := weightedStats acc in
  let tw := totalWeight acc in
  if JS.eqb tw 0%Z then neutralStats
  else
    {| homeAdvantage := clampStat (homeAdvantage w / tw)%num;
       goalDifferential := (goalDifferential w / tw)%num;
       cleanSheetRatio := clampStat (cleanSheetRatio w / tw)%num;
       scoringConsistency := clampStat (scoringConsistency w / tw)%num;
       defensiveStrength := clampStat (defensiveStrength w / tw)%num;
       attackingStrength := clampStat (attackingStrength w / tw)%num |}.

Definition analyzeTeamStatistics (ds : DataSource) (teamId : Z)
  : Result StatisticalAnalysis :=
  try_catch
    (ret (blend (multiSeasonData ds teamId)))
    (fun _ => ret neutralStats).

(** *** Head-to-head analyzer *)

(** One iteration of [for (const match of h2hMatches)]. *)
Definition h2hStep (team1Id : Z) (team1Score : Z) (m : Fixture) : Z :=
  let isTeam1Home := (team_id (teams_home m) =? team1Id)%Z in
  let team1Goals :=
    if isTeam1Home then orZero (goals_home m) else orZero (goals_away m) in
  let team2Goals :=
    if isTeam1Home then orZero (goals_away m) else orZero (goals_home m) in
  if (team1Goals >? team2Goals)%Z then (team1Score + 3)%Z
  else if (team1Goals =? team2Goals)%Z then (team1Score + 1)%Z
  else team1Score.

Definition analyzeHeadToHead (ds : DataSource) (team1Id team2Id : Z)
  : Result num :=
  try_catch
    (h2hMatches <- db_getHeadToHeadRecords ds team1Id team2Id 10 ;;
     if (Z.of_nat (List.length h2hMatches) =? 0)%Z then ret (JS.ofZ 50)
     else
       let team1Score := fold_left (h2hStep team1Id) h2hMatches 0%Z in
       let totalMatches := Z.of_nat (List.length h2hMatches) in
       let maxScore := (totalMatches * 3)%Z in
       ret ((team1Score / maxScore) * 100%Z)%num)
    (fun _ => ret (JS.ofZ 50)).

(** *** Match context *)

(** [generateMatchContext]: [Promise.all] over the four analyses and the
    head-to-head list; it rejects as soon as one of the five rejects. *)
Definition generateMatchContext (ds : DataSource) (fx : Fixture)
  : Result MatchContext :=
  let homeTeam := teams_home fx in
  let awayTeam := teams_away fx in
  homeForm <- analyzeTeamForm ds (team_id homeTeam) 5 ;;
  awayForm <- analyzeTeamForm ds (team_id awayTeam) 5 ;;
  homeStats <- analyzeTeamStatistics ds (team_id homeTeam) ;;
  awayStats <- analyzeTeamStatistics ds (team_id awayTeam) ;;
  headToHead <-
    db_getHeadToHeadRecords ds (team_id homeTeam) (team_id awayTeam) 10 ;;
  ret {| homeTeam := homeTeam;
         awayTeam := awayTeam;
         fixture := fx;
         homeForm := homeForm;
         awayForm := awayForm;
         homeStats := homeStats;
         awayStats := awayStats;
         headToHeadRecord := headToHead;
         ctx_homeAdvantage := (HOME_ADVANTAGE_FACTOR * 100%Z)%num |}.

(** *** Outcome scorer: the factors and the two composite scores *)

(** [Math.max(0, Math.min(100, x))] *)
Definition clampFactor (x : num) : num := JS.max 0%Z (JS.min 100%Z x).

Definition formDifference (context : MatchContext) : num :=
  (formScore (homeForm context) - formScore (awayForm context))%num.

Definition homeFormScoreOf (context : MatchContext) : num :=
  clampFactor (50%Z + formDifference context)%num.

Definition awayFormScoreOf (context : MatchContext) : num :=
  clampFactor (50%Z - formDifference context)%num.

Definition goalDiffFactor (context : MatchContext) : num :=
  clampFactor
    (50%Z + (goalDifferential (homeStats context)
             - goalDifferential (awayStats context)) * 2%Z)%num.

Definition homeScore (context : MatchContext) (headToHeadScore : num) : num :=
  let homeAdvantage := (HOME_ADVANTAGE_FACTOR * 100%Z)%num in
  ((homeFormScoreOf context * FORM_WEIGHT)
   + ((attackingStrength (homeStats context)
       + defensiveStrength (homeStats context)) / 2%Z * STATS_WEIGHT)
   + (headToHeadScore * lit 1 10)
   + (homeAdvantage * lit 15 100))%num.

Definition awayScore (context : MatchContext) (headToHeadScore : num) : num :=
  ((awayFormScoreOf context * FORM_WEIGHT)
   + ((attackingStrength (awayStats context)
       + defensiveStrength (awayStats context)) / 2%Z * STATS_WEIGHT)
   + ((100%Z - headToHeadScore) * lit 1 10))%num.

Record MLProbs : Type := {
  homeWin : num;
  draw : num;
  awayWin : num
}.

Definition fallbackPrediction : PredictionResult :=
  {| prediction := DRAW;
     confidence := 30%Z;
     factors :=
       {| homeFormScore := 50%Z; awayFormScore := 50%Z;
          headToHeadScore := 50%Z; pf_homeAdvantage := 0%Z;
          goalDifferenceFactor := 50%Z |} |}.

(** The decision of [predictMatch] from the score difference and the
    probabilities of the model: the outcome and the confidence before
    rounding. *)
Definition decide (scoreDifference : num) (mlProbs : MLProbs)
  : Outcome * num :=
  if JS.gtb scoreDifference 10%Z then
    (HOME_WIN, JS.min 95%Z (60%Z + scoreDifference / 2%Z)%num)
  else if JS.ltb scoreDifference (-10)%Z then
    (AWAY_WIN, JS.min 95%Z (60%Z + JS.abs scoreDifference / 2%Z)%num)
  else
    let maxProb :=
      JS.max3 (homeWin mlProbs) (draw mlProbs) (awayWin mlProbs) in
    let prediction :=
      if JS.eqb maxProb (homeWin mlProbs) then HOME_WIN
      else if JS.eqb maxProb (awayWin mlProbs) then AWAY_WIN
      else DRAW in
    (prediction, JS.min 75%Z (45%Z + maxProb * 30%Z)%num).

(** The features and the weights of [calculateMLProbability], and the
    logit they give. *)
Definition homeWinLogit (context : MatchContext) : num :=
  let f_homeFormDiff :=
    (formScore (homeForm context) - formScore (awayForm context))%num in
  let f_goalDiff :=
    (goalDifferential (homeStats context)
     - goalDifferential (awayStats context))%num in
  let f_attackDefBalance :=
    (attackingStrength (homeStats context)
     - defensiveStrength (awayStats context))%num in
  let f_cleanSheetDiff :=
    (cleanSheetRatio (homeStats context)
     - cleanSheetRatio (awayStats context))%num in
  let f_homeAdvantage := ctx_homeAdvantage context in
  (f_homeFormDiff * lit 2 100
   + f_goalDiff * lit 1 100
   + f_attackDefBalance * lit 15 1000
   + f_cleanSheetDiff * lit 8 1000
   + f_homeAdvantage * lit 5 10
   + lit 1 10)%num.

Section Scorer.

(** [Math.exp] on rationals. *)
Variable Exp : Q -> Q.

Definition exp (a : num) : num :=
  match a with
  | Fin x => Fin (Exp x)
  | PInf => PInf
  | NInf => Fin 0
  | NaN => NaN
  end.

(** [calculateMLProbability] *)
Definition calculateMLProbability (context : MatchContext) : MLProbs :=
  let homeWinLogit := homeWinLogit context in
  let homeWinProb := (1%Z / (1%Z + exp (JS.neg homeWinLogit)))%num in
  let awayWinLogit := (JS.neg homeWinLogit * lit 8 10)%num in
  let awayWinProb := (1%Z / (1%Z + exp (JS.neg awayWinLogit)))%num in
  let drawProb := (1%Z - homeWinProb - awayWinProb)%num in
  let total := (homeWinProb + drawProb + awayWinProb)%num in
  {| homeWin := (homeWinProb / total)%num;
     draw := JS.max (lit 1 10) (drawProb / total)%num;
     awayWin := (awayWinProb / total)%num |}.

(** The body of the [try] block of [predictMatch] once the context and the
    head-to-head score are known. *)
Definition scoreMatch (context : MatchContext) (headToHeadScore : num)
  : PredictionResult :=
  let homeAdvantage := (HOME_ADVANTAGE_FACTOR * 100%Z)%num in
  let mlProbs := calculateMLProbability context in
  let scoreDifference :=
    (homeScore context headToHeadScore
     - awayScore context headToHeadScore)%num in
  let (prediction, confidence) := decide scoreDifference mlProbs in
  {| prediction := prediction;
     confidence := JS.round confidence;
     factors :=
       {| homeFormScore := homeFormScoreOf context;
          awayFormScore := awayFormScoreOf context;
          headToHeadScore := headToHeadScore;
          pf_homeAdvantage := homeAdvantage;
          goalDifferenceFactor := goalDiffFactor context |} |}.

(** The [try] block of [predictMatch]. *)
Definition predictMatch_try (ds : DataSource) (fx : Fixture)
  : Result PredictionResult :=
  context <- generateMatchContext ds fx ;;
  headToHeadScore <-
    analyzeHeadToHead ds (team_id (homeTeam context))
                      (team_id (awayTeam context)) ;;
  ret (scoreMatch context headToHeadScore).

Definition predictMatch (ds : DataSource) (fx : Fixture)
  : Result PredictionResult :=
  try_catch (predictMatch_try ds fx) (fun _ => ret fallbackPrediction).

End Scorer.

(** A rational stand-in for [Math.exp], to run the scorer: positive,
    increasing, with [pexp (- x) = 1 / pexp x]. *)
Definition pexp (x : Q) : Q :=
  if Qle_bool 0 x then 1 + x else 1 / (1 - x).

(** ** Example data *)

Module Example.

Definition united : Team :=
  {| team_id := 33; team_name := "Manchester United" |}.
Definition newcastle : Team :=
  {| team_id := 34; team_name := "Newcastle United" |}.
Definition fulham : Team := {| team_id := 36; team_name := "Fulham" |}.

(** The fixture to predict: United at home to Newcastle, not started. *)
Definition upcoming : Fixture :=
  {| fx_id := 1001; fx_date := 1000; status_short := "NS";
     teams_home := united; teams_away := newcastle;
     goals_home := None; goals_away := None |}.

(** A completed match: United 2, Fulham 0. *)
Definition unitedBeatFulham : Fixture :=
  {| fx_id := 900; fx_date := 900; status_short := "FT";
     teams_home := united; teams_away := fulham;
     goals_home := Some 2%Z; goals_away := Some 0%Z |}.

Definition emptyDb : MockDatabase :=
  {| db_fixtures := []; db_teamStatistics := [] |}.

Definition oneMatchDb : MockDatabase :=
  {| db_fixtures := [unitedBeatFulham]; db_teamStatistics := [] |}.

(** United after one away win in the season 2025: no home match yet. *)
Definition afterOneAwayMatch : TeamStatistics :=
  {| ts_team_id := 33; ts_season := 2025; ts_played := 1;
     ts_wins := 1; ts_draws := 0; ts_losses := 0;
     ts_goals_for := 2; ts_goals_against := 0; ts_goal_difference := 2;
     ts_home_wins := 0; ts_home_draws := 0; ts_home_losses := 0;
     ts_clean_sheets := 1; ts_failed_to_score := 0 |}.

(** United after a full season 2024 and four matches of 2025. *)
Definition season2024 : TeamStatistics :=
  {| ts_team_id := 33; ts_season := 2024; ts_played := 38;
     ts_wins := 18; ts_draws := 6; ts_losses := 14;
     ts_goals_for := 57; ts_goals_against := 58; ts_goal_difference := -1;
     ts_home_wins := 10; ts_home_draws := 3; ts_home_losses := 6;
     ts_clean_sheets := 9; ts_failed_to_score := 8 |}.

Definition season2025 : TeamStatistics :=
  {| ts_team_id := 33; ts_season := 2025; ts_played := 4;
     ts_wins := 2; ts_draws := 1; ts_losses := 1;
     ts_goals_for := 6; ts_goals_against := 4; ts_goal_difference := 2;
     ts_home_wins := 2; ts_home_draws := 0; ts_home_losses := 0;
     ts_clean_sheets := 1; ts_failed_to_score := 1 |}.

Definition awayOnlyDb : MockDatabase :=
  {| db_fixtures := []; db_teamStatistics := [afterOneAwayMatch] |}.

Definition twoSeasonsDb : MockDatabase :=
  {| db_fixtures := []; db_teamStatistics := [season2024; season2025] |}.

(** September 2025: the current season is 2025. *)
Definition source (db : MockDatabase) : DataSource := mockSource 2025 9 db.

(** The context of [upcoming] over [oneMatchDb]. *)
Definition context : MatchContext :=
  {| homeTeam := united;
     awayTeam := newcastle;
     fixture := upcoming;
     homeForm := formOf 33 5 [unitedBeatFulham];
     awayForm := formOf 34 5 [];
     homeStats := neutralStats;
     awayStats := neutralStats;
     headToHeadRecord := [];
     ctx_homeAdvantage := (HOME_ADVANTAGE_FACTOR * 100%Z)%num |}.

(** A database that answers the head-to-head query only. *)
Definition historylessSource : DataSource :=
  {| nowYear := 2025;
     nowMonth := 9;
     db_getTeamRecentForm := fun _ _ => Err "timeout";
     db_getHeadToHeadRecords := fun _ _ _ => Ok [];
     db_getTeamStatistics := fun _ _ => Err "timeout";
     api_hasApiKey := true;
     api_getTeamStatistics := fun _ _ => Err "Daily API limit reached" |}.

(** A database whose head-to-head query throws. *)
Definition brokenSource : DataSource :=
  {| nowYear := 2025;
     nowMonth := 9;
     db_getTeamRecentForm := fun _ _ => Ok [];
     db_getHeadToHeadRecords := fun _ _ _ => Err "connection lost";
     db_getTeamStatistics := fun _ _ => Ok None;
     api_hasApiKey := false;
     api_getTeamStatistics :=
       fun _ _ => Err "API_FOOTBALL_KEY not configured" |}.

End Example.

(** ** The notions of the specification *)

(** Head-to-head: the points of one meeting for team 1 (3 for a win, 1 for
    a draw, 0 for a loss), its goals being those of the side it played
    on. *)
Definition team1Points (team1Id : Z) (m : Fixture) : Z :=
  let team1WasHome := (team_id (teams_home m) =? team1Id)%Z in
  let goals1 := orZero (if team1WasHome then goals_home m else goals_away m) in
  let goals2 := orZero (if team1WasHome then goals_away m else goals_home m) in
  match (goals1 ?= goals2)%Z with
  | Gt => 3%Z
  | Eq => 1%Z
  | Lt => 0%Z
  end.

Definition pointsEarned (team1Id : Z) (ms : list Fixture) : Z :=
  fold_right Z.add 0%Z (map (team1Points team1Id) ms).

(** [pointsEarned / (matchCount * 3) * 100] *)
Definition headToHeadFormula (team1Id : Z) (ms : list Fixture) : Q :=
  inject_Z (pointsEarned team1Id ms)
  / inject_Z (Z.of_nat (List.length ms) * 3) * 100.

(** A completed meeting of the two teams, either one at home. *)
Definition isMeeting (team1Id team2Id : Z) (m : Fixture) : Prop :=
  ((team_id (teams_home m) = team1Id /\ team_id (teams_away m) = team2Id)
   \/ (team_id (teams_home m) = team2Id /\ team_id (teams_away m) = team1Id))
  /\ status_short m = "FT"%string.

Definition mostRecentFirst : list Fixture -> Prop :=
  StronglySorted (fun a b => (fx_date b <= fx_date a)%Z).

(** [window] holds the last [limit] of the fixtures of [all] that satisfy
    [P] (all of them when there are fewer): together with the fixtures left
    out it lists exactly those fixtures, most recent first. *)
Definition lastOf (limit : nat) (P : Fixture -> Prop)
  (all window : list Fixture) : Prop :=
  exists kept rest,
    (forall m, In m kept -> In m all /\ P m)
    /\ (forall m, In m all -> P m -> In m kept)
    /\ Permutation (window ++ rest) kept
    /\ mostRecentFirst (window ++ rest)
    /\ List.length window = Nat.min limit (List.length kept).

(** Statistics: a season contributes when it has a record with
    [played > 0]. *)
Definition contributes (d : SeasonData) : bool :=
  match sd_stats d with
  | Some stats =>
      match played stats with
      | Some p => (p >? 0)%Z
      | None => false
      end
  | None => false
  end.

Definition contributing (data : list SeasonData) : list SeasonData :=
  filter contributes data.

(** The per-season formulas of the specification, on the counters of a
    record. *)
Module Season.

Definition homeAdvantage (s : StatsRecord) : num :=
  let homeWins : num := orZero (home_wins s) in
  let homeDraws : num := orZero (home_draws s) in
  let homeLosses : num := orZero (home_losses s) in
  ((homeWins * 3%Z + homeDraws)
   / ((homeWins + homeDraws + homeLosses) * 3%Z) * 100%Z)%num.

Definition goalDifferential (s : StatsRecord) : num :=
  orZero (goal_difference s).

Definition cleanSheetRatio (s : StatsRecord) : num :=
  (orZero (clean_sheets s) / orZero (played s) * 100%Z)%num.

Definition scoringConsistency (s : StatsRecord) : num :=
  ((orZero (played s) - orZero (failed_to_score s)) / orZero (played s)
   * 100%Z)%num.

(** [100 - goalsAgainst / played * 25], floored at 0 *)
Definition defensiveStrength (s : StatsRecord) : num :=
  JS.max 0%Z (100%Z - orZero (goals_against s) / orZero (played s) * 25%Z)%num.

(** [goalsFor / played * 40], capped at 100 *)
Definition attackingStrength (s : StatsRecord) : num :=
  JS.min 100%Z (orZero (goals_for s) / orZero (played s) * 40%Z)%num.

End Season.

(** A per-season formula on a season of the list (0 where the season has
    no record: such a season never contributes). *)
Definition onSeason (f : StatsRecord -> num) (d : SeasonData) : num :=
  match sd_stats d with
  | Some stats => f stats
  | None => 0%Z
  end.

(** [init] plus the sum of [metric * weight] over [data], and [init] plus
    the sum of the weights. *)
Definition weightedSum (metric : SeasonData -> num) (data : list SeasonData)
  (init : num) : num :=
  fold_left (fun acc d => (acc + metric d * sd_weight d)%num) data init.

Definition weightSum (data : list SeasonData) (init : num) : num :=
  fold_left (fun acc d => (acc + sd_weight d)%num) data init.

(** The weight-normalized sum over the seasons that contributed. *)
Definition weightedMean (f : StatsRecord -> num) (data : list SeasonData)
  : num :=
  (weightedSum (onSeason f) (contributing data) 0%Z
   / weightSum (contributing data) 0%Z)%num.

(** The counters of a season record are those of a season: none is
    negative, and no more clean sheets or scoreless matches than matches
    played. *)
Definition consistent (s : StatsRecord) : Prop :=
  (0 <= orZero (home_wins s) /\ 0 <= orZero (home_draws s)
   /\ 0 <= orZero (home_losses s)
   /\ 0 <= orZero (clean_sheets s) <= orZero (played s)
   /\ 0 <= orZero (failed_to_score s) <= orZero (played s)
   /\ 0 <= orZero (goals_for s) /\ 0 <= orZero (goals_against s))%Z.

(** Every weight of the list is a positive rational. *)
Definition positiveWeights (data : list SeasonData) : Prop :=
  forall d, In d data -> exists w, sd_weight d = Fin w /\ 0 < w.

Definition nanOrWithin (lo hi : Q) (x : num) : Prop :=
  x = NaN \/ JS.within lo hi x.

(** The values of a context that the scorer reads are rationals. *)
Definition finiteStats (s : StatisticalAnalysis) : Prop :=
  JS.finite (goalDifferential s)
  /\ JS.within 0 100 (cleanSheetRatio s)
  /\ JS.within 0 100 (defensiveStrength s)
  /\ JS.within 0 100 (attackingStrength s).

Definition finiteContext (context : MatchContext) : Prop :=
  JS.finite (formScore (homeForm context))
  /\ JS.finite (formScore (awayForm context))
  /\ finiteStats (homeStats context)
  /\ finiteStats (awayStats context)
  /\ JS.finite (ctx_homeAdvantage context).

(** Outcome scorer: the two composite scores as the specification writes
    them. *)
Definition compositeHome (homeFormScore homeAttack homeDefense h2hScore : num)
  : num :=
  (homeFormScore * lit 40 100
   + (homeAttack + homeDefense) / 2%Z * lit 35 100
   + h2hScore * lit 10 100
   + 15%Z * lit 15 100)%num.

Definition compositeAway (awayFormScore awayAttack awayDefense h2hScore : num)
  : num :=
  (awayFormScore * lit 40 100
   + (awayAttack + awayDefense) / 2%Z * lit 35 100
   + (100%Z - h2hScore) * lit 10 100)%num.

(** The probability the model gives to an outcome, and an outcome no
    other outcome beats. *)
Definition probOf (mlProbs : MLProbs) (o : Outcome) : num :=
  match o with
  | HOME_WIN => homeWin mlProbs
  | DRAW => draw mlProbs
  | AWAY_WIN => awayWin mlProbs
  end.

Definition isArgmax (mlProbs : MLProbs) (o : Outcome) : Prop :=
  forall o', JS.gtb (probOf mlProbs o') (probOf mlProbs o) = false.

(** The logistic function [1 / (1 + e^(-x))] on rationals, for a given
    exponential. *)
Definition sigmoid (Exp : Q -> Q) (x : Q) : Q := 1 / (1 + Exp (- x)).

(** No season gives the team a record with [played > 0], from the
    database or from the API. *)
Definition noQualifyingSeason (ds : DataSource) (teamId : Z) : Prop :=
  forall sw,
    In sw (getAnalysisSeasons (nowYear ds) (nowMonth ds)) ->
    (forall ts, db_getTeamStatistics ds teamId (sw_season sw) = Ok (Some ts) ->
                (ts_played ts <= 0)%Z)
    /\ (forall stats p, api_getTeamStatistics ds teamId (sw_season sw)
                        = Ok (Some stats) ->
                        played stats = Some p -> (p <= 0)%Z).

(** ** The whole in-memory database ([src/lib/database.ts]) *)

(** [arr.findIndex(p)]: the index of the first element that satisfies [p],
    [-1] when there is none. *)
Fixpoint findIndexFrom {A} (p : A -> bool) (i : Z) (l : list A) : Z :=
  match l with
  | [] => (-1)%Z
  | x :: l' => if p x then i else findIndexFrom p (i + 1)%Z l'
  end.

Definition findIndex {A} (p : A -> bool) (l : list A) : Z :=
  findIndexFrom p 0%Z l.

(** [arr[i] = x], for an index of the array (the index below comes from
    [findIndex]). *)
Fixpoint assignAt {A} (i : nat) (x : A) (l : list A) : list A :=
  match l, i with
  | [], _ => []
  | _ :: l', O => x :: l'
  | y :: l', S i' => y :: assignAt i' x l'
  end.

(** The body shared by [saveTeam], [saveFixture], [saveTeamStatistics] and
    [savePrediction]: the first element with the key of [x] is replaced;
    [x] is pushed when there is none. *)
Definition upsert {A} (sameKey : A -> bool) (x : A) (l : list A) : list A :=
  let existingIndex := findIndex sameKey l in
  if (existingIndex >=? 0)%Z then assignAt (Z.to_nat existingIndex) x l
  else l ++ [x].

(** A row of the table; the last four fields are [all.played], [all.win],
    [all.goals.for] and [all.goals.against]. *)
Record Standing : Type := {
  st_rank : Z;
  st_team : Team;
  st_points : Z;
  st_goalsDiff : Z;
  st_played : Z;
  st_win : Z;
  st_goals_for : Z;
  st_goals_against : Z
}.

Record StoredFactors : Type := {
  home_form_score : num;
  away_form_score : num;
  head_to_head_score : num;
  home_advantage : num;
  goal_difference_factor : num
}.

(** A stored prediction.  [created_at] is the time of [new Date()]. *)
Record Prediction : Type := {
  pred_id : string;
  fixture_id : Z;
  home_team_id : Z;
  away_team_id : Z;
  pred_outcome : Outcome;
  pred_confidence : num;
  algorithm_version : string;
  pred_factors : StoredFactors;
  created_at : Z
}.

(** The five arrays of [mockDB]. *)
Record MockDB : Type := {
  teams : list Team;
  fixtures : list Fixture;
  teamStatistics : list TeamStatistics;
  standings : list Standing;
  predictions : list Prediction
}.

(** The two arrays the engine reads. *)
Definition engineView (s : MockDB) : MockDatabase :=
  {| db_fixtures := fixtures s; db_teamStatistics := teamStatistics s |}.

(** The operations of [class Database] on the five arrays; an operation
    that writes returns the new content. *)
Module Db.

Definition getTeamById (s : MockDB) (id : Z) : option Team :=
  find (fun team => (team_id team =? id)%Z) (teams s).

Definition saveTeam (s : MockDB) (team : Team) : MockDB :=
  {| teams := upsert (fun t => (team_id t =? team_id team)%Z) team (teams s);
     fixtures := fixtures s;
     teamStatistics := teamStatistics s;
     standings := standings s;
     predictions := predictions s |}.

Definition saveTeams (s : MockDB) (ts : list Team) : MockDB :=
  fold_left saveTeam ts s.

Definition getFixtures (s : MockDB) : list Fixture := fixtures s.

(** [getUpcomingFixtures(days)] at the time [now] (milliseconds). *)
Definition getUpcomingFixtures (now : Z) (s : MockDB) (days : Z)
  : list Fixture :=
  let future := (now + days * 24 * 60 * 60 * 1000)%Z in
  filter (fun fixture =>
            let fixtureDate := fx_date fixture in
            (fixtureDate >=? now)%Z && (fixtureDate <=? future)%Z)
         (fixtures s).

Definition getFixtureById (s : MockDB) (id : Z) : option Fixture :=
  find (fun fixture => (fx_id fixture =? id)%Z) (fixtures s).

Definition saveFixture (s : MockDB) (fixture : Fixture) : MockDB :=
  {| teams := teams s;
     fixtures :=
       upsert (fun f => (fx_id f =? fx_id fixture)%Z) fixture (fixtures s);
     teamStatistics := teamStatistics s;
     standings := standings s;
     predictions := predictions s |}.

Definition saveFixtures (s : MockDB) (fs : list Fixture) : MockDB :=
  fold_left saveFixture fs s.

Definition getTeamStatistics (s : MockDB) (teamId season : Z)
  : option TeamStatistics :=
  Database.getTeamStatistics (engineView s) teamId season.

Definition saveTeamStatistics (s : MockDB) (stats : TeamStatistics) : MockDB :=
  {| teams := teams s;
     fixtures := fixtures s;
     teamStatistics :=
       upsert (fun st => (ts_team_id st =? ts_team_id stats)%Z
                         && (ts_season st =? ts_season stats)%Z)
              stats (teamStatistics s);
     standings := standings s;
     predictions := predictions s |}.

(** [standing.team.id] as a condition: the identifier is not 0. *)
Definition getStandings (s : MockDB) : list Standing :=
  filter (fun standing => negb (team_id (st_team standing) =? 0)%Z)
         (standings s).

Definition saveStandings (s : MockDB) (new : list Standing) : MockDB :=
  {| teams := teams s;
     fixtures := fixtures s;
     teamStatistics := teamStatistics s;
     standings := [] ++ new;
     predictions := predictions s |}.

Definition getPredictions (s : MockDB) : list Prediction := predictions s.

Definition getPredictionByFixtureId (s : MockDB) (fixtureId : Z)
  : option Prediction :=
  find (fun pred => (fixture_id pred =? fixtureId)%Z) (predictions s).

Definition savePrediction (s : MockDB) (p : Prediction) : MockDB :=
  {| teams := teams s;
     fixtures := fixtures s;
     teamStatistics := teamStatistics s;
     standings := standings s;
     predictions :=
       upsert (fun q => (fixture_id q =? fixture_id p)%Z) p (predictions s) |}.

Definition clearAll (s : MockDB) : MockDB :=
  {| teams := []; fixtures := []; teamStatistics := []; standings := [];
     predictions := [] |}.

Definition getMockTeams : list Team :=
  [ {| team_id := 33; team_name := "Manchester United" |};
    {| team_id := 34; team_name := "Newcastle United" |};
    {| team_id := 35; team_name := "Bournemouth" |};
    {| team_id := 36; team_name := "Fulham" |};
    {| team_id := 37; team_name := "Tottenham" |};
    {| team_id := 38; team_name := "Watford" |};
    {| team_id := 39; team_name := "Wolves" |};
    {| team_id := 40; team_name := "Liverpool" |};
    {| team_id := 41; team_name := "Southampton" |};
    {| team_id := 42; team_name := "Arsenal" |};
    {| team_id := 43; team_name := "Birmingham City" |};
    {| team_id := 44; team_name := "Burnley" |};
    {| team_id := 45; team_name := "Everton" |};
    {| team_id := 46; team_name := "Leicester City" |};
    {| team_id := 47; team_name := "Crystal Palace" |};
    {| team_id := 48; team_name := "West Ham" |};
    {| team_id := 49; team_name := "Chelsea" |};
    {| team_id := 50; team_name := "Manchester City" |};
    {| team_id := 51; team_name := "Brighton" |};
    {| team_id := 52; team_name := "Brentford" |} ].

(** [getTeams()]: [hasApiKey] and [apiTeams] are [apiFootball.hasApiKey()]
    and the outcome of [apiFootball.getTeams()]. *)
Definition getTeams (hasApiKey : bool) (apiTeams : Result (list Team))
  (s : MockDB) : MockDB * list Team :=
  let cached :=
    if (Z.of_nat (List.length (teams s)) >? 0)%Z then teams s
    else getMockTeams in
  if hasApiKey then
    match apiTeams with
    | Ok ts => (saveTeams s ts, ts)
    | Err _ => (s, cached)
    end
  else (s, cached).

End Db.

(** ** The engine: batches, confidence levels and validation *)

(** [a >= b] and [a <= b]; false as soon as one side is NaN. *)
Definition num_geb (a b : num) : bool :=
  match a, b with
  | Fin x, Fin y => Qle_bool y x
  | PInf, Fin _ | PInf, PInf | PInf, NInf => true
  | Fin _, NInf | NInf, NInf => true
  | _, _ => false
  end.

Definition num_leb (a b : num) : bool := num_geb b a.

Definition Outcome_eqb (a b : Outcome) : bool :=
  match a, b with
  | HOME_WIN, HOME_WIN | DRAW, DRAW | AWAY_WIN, AWAY_WIN => true
  | _, _ => false
  end.

Record ConfidenceLevels : Type := {
  high : num;
  medium : num;
  low : num
}.

Definition getConfidenceLevels : ConfidenceLevels :=
  {| high := 75%Z; medium := 50%Z; low := 30%Z |}.

(** [validatePrediction] *)
Definition validatePrediction (p : PredictionResult) : bool :=
  num_geb (confidence p) 0%Z
  && num_leb (confidence p) 100%Z
  && existsb (Outcome_eqb (prediction p)) [HOME_WIN; DRAW; AWAY_WIN]
  && num_geb (homeFormScore (factors p)) 0%Z
  && num_geb (awayFormScore (factors p)) 0%Z.

(** [arr.slice(i, j)] for [0 <= i <= j] *)
Definition slice {A} (l : list A) (i j : nat) : list A :=
  firstn (j - i) (skipn i l).

Record FixturePrediction : Type := {
  fp_fixture : Fixture;
  fp_prediction : PredictionResult
}.

Definition batchSize : nat := 5.

Section Batch.

Variable Exp : Q -> Q.
Variable ds : DataSource.

(** [Database.getUpcomingFixtures], as an operation that may throw. *)
Variable db_getUpcomingFixtures : Z -> Result (list Fixture).

(** [Promise.all(batch.map(async (fixture) => ...))] *)
Fixpoint predictBatch (batch : list Fixture)
  : Result (list FixturePrediction) :=
  match batch with
  | [] => ret []
  | fx :: rest =>
      p <- predictMatch Exp ds fx ;;
      ps <- predictBatch rest ;;
      ret ({| fp_fixture := fx; fp_prediction := p |} :: ps)
  end.

(** [for (let i = 0; i < upcomingFixtures.length; i += batchSize)]: the
    state of the loop is [i] and [predictions]; [fuel] bounds the number
    of iterations left. *)
Fixpoint batchLoop (fuel : nat) (upcomingFixtures : list Fixture) (i : nat)
  (predictions : list FixturePrediction) : Result (list FixturePrediction) :=
  if (i <? List.length upcomingFixtures)%nat then
    match fuel with
    | O => Err "iteration bound reached"
    | S fuel' =>
        let batch := slice upcomingFixtures i (i + batchSize) in
        batchPredictions <- predictBatch batch ;;
        batchLoop fuel' upcomingFixtures (i + batchSize)%nat
                  (predictions ++ batchPredictions)
    end
  else ret predictions.

(** [predictUpcomingMatches(days)]; the loop runs at most once per
    fixture. *)
Definition predictUpcomingMatches (days : Z)
  : Result (list FixturePrediction) :=
  try_catch
    (upcomingFixtures <- db_getUpcomingFixtures days ;;
     batchLoop (List.length upcomingFixtures) upcomingFixtures 0 [])
    (fun _ => ret []).

End Batch.

(** ** The analysis route ([src/app/api/analysis/route.ts]) *)

Record H2HCounters : Type := {
  team1Wins : Z;
  team2Wins : Z;
  h2h_draws : Z;
  team1Goals : Z;
  team2Goals : Z
}.

Definition counters0 : H2HCounters :=
  {| team1Wins := 0; team2Wins := 0; h2h_draws := 0;
     team1Goals := 0; team2Goals := 0 |}.

(** One iteration of the loop of [analyzeHeadToHeadSummary]. *)
Definition summaryStep (team1Id : Z) (c : H2HCounters) (m : Fixture)
  : H2HCounters :=
  let isTeam1Home := (team_id (teams_home m) =? team1Id)%Z in
  let t1Goals :=
    if isTeam1Home then orZero (goals_home m) else orZero (goals_away m) in
  let t2Goals :=
    if isTeam1Home then orZero (goals_away m) else orZero (goals_home m) in
  let g1 := (team1Goals c + t1Goals)%Z in
  let g2 := (team2Goals c + t2Goals)%Z in
  if (t1Goals >? t2Goals)%Z then
    {| team1Wins := team1Wins c + 1; team2Wins := team2Wins c;
       h2h_draws := h2h_draws c; team1Goals := g1; team2Goals := g2 |}
  else if (t2Goals >? t1Goals)%Z then
    {| team1Wins := team1Wins c; team2Wins := team2Wins c + 1;
       h2h_draws := h2h_draws c; team1Goals := g1; team2Goals := g2 |}
  else
    {| team1Wins := team1Wins c; team2Wins := team2Wins c;
       h2h_draws := h2h_draws c + 1; team1Goals := g1; team2Goals := g2 |}.

Inductive Dominant : Type := dominant_team1 | dominant_team2 | balanced.

Record HeadToHeadSummary : Type := {
  hs_totalMatches : Z;
  hs_counters : H2HCounters;
  hs_averageGoalsPerMatch : num;
  hs_dominant : Dominant
}.

Definition analyzeHeadToHeadSummary (team1Id team2Id : Z)
  (matches : list Fixture) : HeadToHeadSummary :=
  let c := fold_left (summaryStep team1Id) matches counters0 in
  let n := Z.of_nat (List.length matches) in
  {| hs_totalMatches := n;
     hs_counters := c;
     hs_averageGoalsPerMatch :=
       if (n >? 0)%Z then ((team1Goals c + team2Goals c)%Z / n)%num
       else 0%Z;
     hs_dominant :=
       if (team1Wins c >? team2Wins c)%Z then dominant_team1
       else if (team2Wins c >? team1Wins c)%Z then dominant_team2
       else balanced |}.

(** ** The reports of [scripts/prediction-generator.ts] *)

(** The three counters of [generateUpcomingPredictions]. *)
Record ConfidenceSummary : Type := {
  highConfidence : Z;
  mediumConfidence : Z;
  lowConfidence : Z
}.

Definition confidenceStep (c : ConfidenceSummary) (fp : FixturePrediction)
  : ConfidenceSummary :=
  let conf := confidence (fp_prediction fp) in
  if num_geb conf 75%Z then
    {| highConfidence := highConfidence c + 1;
       mediumConfidence := mediumConfidence c;
       lowConfidence := lowConfidence c |}
  else if num_geb conf 50%Z then
    {| highConfidence := highConfidence c;
       mediumConfidence := mediumConfidence c + 1;
       lowConfidence := lowConfidence c |}
  else
    {| highConfidence := highConfidence c;
       mediumConfidence := mediumConfidence c;
       lowConfidence := lowConfidence c + 1 |}.

Definition confidenceSummary (predictions : list FixturePrediction)
  : ConfidenceSummary :=
  fold_left confidenceStep predictions
            {| highConfidence := 0; mediumConfidence := 0;
               lowConfidence := 0 |}.

(** [testPredictionAccuracy]: the result of a completed fixture. *)
Definition actualResult (fx : Fixture) : Outcome :=
  let homeGoals := orZero (goals_home fx) in
  let awayGoals := orZero (goals_away fx) in
  if (homeGoals >? awayGoals)%Z then HOME_WIN
  else if (awayGoals >? homeGoals)%Z then AWAY_WIN
  else DRAW.

Definition notNull {A} (x : option A) : bool :=
  match x with
  | Some _ => true
  | None => false
  end.

(** The fixtures [testPredictionAccuracy] replays. *)
Definition completedFixtures (allFixtures : list Fixture) (matches : Z)
  : list Fixture :=
  Database.slice0
    (Database.sortByDateDesc
       (filter (fun f => Database.completed f && notNull (goals_home f)
                         && notNull (goals_away f))
               allFixtures))
    matches.

Record AccuracyCount : Type := {
  correct : Z;
  total : Z
}.

Record AccuracyReport : Type := {
  matchesTested : Z;
  correctPredictions : Z;
  accuracy : num
}.

Section Accuracy.

Variable Exp : Q -> Q.
Variable ds : DataSource.

(** One iteration of [for (const fixture of completedFixtures)], in its
    own [try]/[catch]. *)
Definition accuracyStep (c : AccuracyCount) (fx : Fixture) : AccuracyCount :=
  match predictMatch Exp ds fx with
  | Ok p =>
      let isCorrect := Outcome_eqb (prediction p) (actualResult fx) in
      {| correct := if isCorrect then (correct c + 1)%Z else correct c;
         total := (total c + 1)%Z |}
  | Err _ => c
  end.

(** The three values [testPredictionAccuracy] reports, [None] when it
    stops on ['No completed fixtures found for testing']. *)
Definition testPredictionAccuracy (allFixtures : list Fixture) (matches : Z)
  : option AccuracyReport :=
  let fixtures := completedFixtures allFixtures matches in
  if (Z.of_nat (List.length fixtures) =? 0)%Z then None
  else
    let c := fold_left accuracyStep fixtures {| correct := 0; total := 0 |} in
    Some {| matchesTested := total c;
            correctPredictions := correct c;
            accuracy :=
              if (total c >? 0)%Z
              then ((correct c / total c) * 100%Z)%num
              else 0%Z |}.

End Accuracy.

(** The counters of [getPredictionStats]. *)
Record OutcomeCount : Type := {
  homeWins : Z;
  drawCount : Z;
  awayWins : Z;
  totalConfidence : num
}.

Definition statsCountStep (c : OutcomeCount) (pred : Prediction)
  : OutcomeCount :=
  let tc := (totalConfidence c + pred_confidence pred)%num in
  match pred_outcome pred with
  | HOME_WIN =>
      {| homeWins := homeWins c + 1; drawCount := drawCount c;
         awayWins := awayWins c; totalConfidence := tc |}
  | DRAW =>
      {| homeWins := homeWins c; drawCount := drawCount c + 1;
         awayWins := awayWins c; totalConfidence := tc |}
  | AWAY_WIN =>
      {| homeWins := homeWins c; drawCount := drawCount c;
         awayWins := awayWins c + 1; totalConfidence := tc |}
  end.

(** The counters and the average confidence [getPredictionStats] reports,
    [None] when it stops on ['No predictions found']. *)
Definition getPredictionStats (predictions : list Prediction)
  : option (OutcomeCount * num) :=
  if (Z.of_nat (List.length predictions) =? 0)%Z then None
  else
    let c :=
      fold_left statsCountStep predictions
                {| homeWins := 0; drawCount := 0; awayWins := 0;
                   totalConfidence := 0%Z |} in
    Some (c, (totalConfidence c / Z.of_nat (List.length predictions))%num).

(** ** The request counter of the API client ([api-football.ts]) *)

(** [lastResetDate] is [lastReset.getDate()], the day of the month: the
    only part of the date the limiter reads. *)
Record RateLimiter : Type := {
  requestCount : Z;
  lastResetDate : Z
}.

(** [canMakeRequest()] on a day whose [getDate()] is [nowDate]: the new
    state and the answer. *)
Definition canMakeRequest (nowDate : Z) (r : RateLimiter)
  : RateLimiter * bool :=
  let r' :=
    if negb (nowDate =? lastResetDate r)%Z
    then {| requestCount := 0; lastResetDate := nowDate |}
    else r in
  (r', (requestCount r' <? 100)%Z).

Definition incrementRequest (r : RateLimiter) : RateLimiter :=
  {| requestCount := requestCount r + 1; lastResetDate := lastResetDate r |}.

Definition getRemainingRequests (r : RateLimiter) : Z :=
  Z.max 0 (100 - requestCount r).

Definition getRequestCount (r : RateLimiter) : Z := requestCount r.

(** What [axios.get] does: it throws, or it returns the body of the
    answer, [errors] and [response]. *)
Inductive HttpReply (T : Type) : Type :=
| HttpFailure (message : string)
| HttpBody (errors : list string) (response : T).

Arguments HttpFailure {T} message.
Arguments HttpBody {T} errors response.

(** [makeRequest]: the new state of the limiter and the outcome. *)
Definition makeRequest {T} (apiKey : string) (nowDate : Z)
  (reply : HttpReply T) (r : RateLimiter) : RateLimiter * Result T :=
  if String.eqb apiKey "" then (r, Err "API_FOOTBALL_KEY not configured")
  else
    let (r1, allowed) := canMakeRequest nowDate r in
    if negb allowed then (r1, Err "Daily API limit reached")
    else
      match reply with
      | HttpFailure message => (r1, Err "API request failed")
      | HttpBody errors response =>
          let r2 := incrementRequest r1 in
          if (Z.of_nat (List.length errors) >? 0)%Z
          then (r2, Err "API Error")
          else (r2, Ok response)
      end.

(** A sequence of calls of [makeRequest]: each element is the day of the
    month of the call and what the network answers to it. *)
Fixpoint makeRequests {T} (apiKey : string) (calls : list (Z * HttpReply T))
  (r : RateLimiter) : RateLimiter * list (Result T) :=
  match calls with
  | [] => (r, [])
  | (nowDate, reply) :: rest =>
      let (r1, out) := makeRequest apiKey nowDate reply r in
      let (r2, outs) := makeRequests apiKey rest r1 in
      (r2, out :: outs)
  end.

(** ** The predictions route ([src/app/api/predictions/route.ts]) *)

(** The [Prediction] the route builds from a fixture and the result of the
    engine; [uuid] and [now] are [crypto.randomUUID()] and [new Date()]. *)
Definition toPrediction (uuid : string) (now : Z) (fixture : Fixture)
  (predictionResult : PredictionResult) : Prediction :=
  {| pred_id := uuid;
     fixture_id := fx_id fixture;
     home_team_id := team_id (teams_home fixture);
     away_team_id := team_id (teams_away fixture);
     pred_outcome := prediction predictionResult;
     pred_confidence := confidence predictionResult;
     algorithm_version := "1.0.0";
     pred_factors :=
       {| home_form_score := homeFormScore (factors predictionResult);
          away_form_score := awayFormScore (factors predictionResult);
          head_to_head_score := headToHeadScore (factors predictionResult);
          home_advantage := pf_homeAdvantage (factors predictionResult);
          goal_difference_factor :=
            goalDifferenceFactor (factors predictionResult) |};
     created_at := now |}.

(** The answers of [GET /api/predictions?fixture_id=...]: status 200 with
    source ['cached'] or ['generated'], 404, and 500. *)
Inductive GetResponse : Type :=
| Cached (data : Prediction)
| Generated (data : Prediction)
| FixtureNotFound
| Failed (details : string).

Inductive PostStatus : Type :=
| status_existing
| status_regenerated
| status_generated.

Record PostResult : Type := {
  pr_fixture_id : Z;
  pr_prediction : Prediction;
  pr_status : PostStatus
}.

Record PostError : Type := {
  pe_fixture_id : Z;
  pe_error : string
}.

(** The state of the loop of [POST]: the database, [results] and
    [errors]. *)
Record PostState : Type := {
  post_db : MockDB;
  results : list PostResult;
  errors : list PostError
}.

Record PostStats : Type := {
  processed : Z;
  successful : Z;
  failed : Z
}.

Section Routes.

Variable Exp : Q -> Q.

(** The collaborators of the engine over a content of the database: the
    engine reads the fixtures and the statistics of the same [mockDB]. *)
Variable engine : MockDatabase -> DataSource.

(** The identifier and the date drawn by the [n]-th prediction built
    during one request. *)
Variable fresh : nat -> string * Z.

(** [GET] with a [fixture_id]. *)
Definition GET_fixture (generate : bool) (fixtureId : Z) (s : MockDB)
  : MockDB * GetResponse :=
  let existingPrediction := Db.getPredictionByFixtureId s fixtureId in
  match existingPrediction, generate with
  | Some existing, false => (s, Cached existing)
  | _, _ =>
      match Db.getFixtureById s fixtureId with
      | None => (s, FixtureNotFound)
      | Some fixture =>
          match predictMatch Exp (engine (engineView s)) fixture with
          | Ok predictionResult =>
              let prediction :=
                toPrediction (fst (fresh 0)) (snd (fresh 0)) fixture
                             predictionResult in
              (Db.savePrediction s prediction, Generated prediction)
          | Err e => (s, Failed e)
          end
      end
  end.

(** One iteration of [for (const fixtureId of fixture_ids)]. *)
Definition postStep (regenerate : bool) (st : PostState) (fixtureId : Z)
  : PostState :=
  let s := post_db st in
  let n := (List.length (results st) + List.length (errors st))%nat in
  let existing :=
    if regenerate then None else Db.getPredictionByFixtureId s fixtureId in
  match existing with
  | Some existing =>
      {| post_db := s;
         results :=
           results st ++ [ {| pr_fixture_id := fixtureId;
                              pr_prediction := existing;
                              pr_status := status_existing |} ];
         errors := errors st |}
  | None =>
      match Db.getFixtureById s fixtureId with
      | None =>
          {| post_db := s;
             results := results st;
             errors :=
               errors st ++ [ {| pe_fixture_id := fixtureId;
                                 pe_error := "Fixture not found" |} ] |}
      | Some fixture =>
          match predictMatch Exp (engine (engineView s)) fixture with
          | Ok predictionResult =>
              let prediction :=
                toPrediction (fst (fresh n)) (snd (fresh n)) fixture
                             predictionResult in
              {| post_db := Db.savePrediction s prediction;
                 results :=
                   results st
                   ++ [ {| pr_fixture_id := fixtureId;
                           pr_prediction := prediction;
                           pr_status :=
                             if regenerate then status_regenerated
                             else status_generated |} ];
                 errors := errors st |}
          | Err e =>
              {| post_db := s;
                 results := results st;
                 errors :=
                   errors st ++ [ {| pe_fixture_id := fixtureId;
                                     pe_error := e |} ] |}
          end
      end
  end.

(** [POST] with an array [fixture_ids]: the database after the request,
    the two lists and the three counts of the answer. *)
Definition POST (regenerate : bool) (fixture_ids : list Z) (s : MockDB)
  : PostState * PostStats :=
  let st :=
    fold_left (postStep regenerate) fixture_ids
              {| post_db := s; results := []; errors := [] |} in
  (st,
   {| processed := Z.of_nat (List.length fixture_ids);
      successful := Z.of_nat (List.length (results st));
      failed := Z.of_nat (List.length (errors st)) |}).

End Routes.

(** ** The teams and standings routes *)

(** The answers of a route that lists records: status 200 with the list,
    or status 500 with the details of the failure. *)
Inductive ListResponse (A : Type) : Type :=
| Listed (data : list A)
| ListFailed (details : string).

Arguments Listed {A} data.
Arguments ListFailed {A} details.

(** [GET /api/teams]; [apiTeams] and [apiTeamsAgain] are the outcomes of
    the call of [apiFootball.getTeams()] made by [Database.getTeams] and
    of the one made by the route. *)
Definition GET_teams (hasApiKey : bool)
  (apiTeams apiTeamsAgain : Result (list Team)) (s : MockDB)
  : MockDB * ListResponse Team :=
  let (s1, teams) := Db.getTeams hasApiKey apiTeams s in
  if (Z.of_nat (List.length teams) =? 0)%Z then
    match apiTeamsAgain with
    | Ok fetched => (Db.saveTeams s1 fetched, Listed fetched)
    | Err e => (s1, ListFailed e)
    end
  else (s1, Listed teams).

(** [GET /api/standings]; [apiStandings] is the outcome of
    [apiFootball.getStandings(season)]. *)
Definition GET_standings (apiStandings : Result (list Standing)) (s : MockDB)
  : MockDB * ListResponse Standing :=
  let standings := Db.getStandings s in
  if (Z.of_nat (List.length standings) =? 0)%Z then
    match apiStandings with
    | Ok fetched => (Db.saveStandings s fetched, Listed fetched)
    | Err e => (s, ListFailed e)
    end
  else (s, Listed standings).

(** ** The client store ([src/lib/store.ts]) *)

Inductive ConfidenceFilter : Type :=
| filter_all
| filter_high
| filter_medium
| filter_low.

(** [useFilteredPredictions] *)
Definition useFilteredPredictions (confidenceFilter : ConfidenceFilter)
  (predictions : list Prediction) : list Prediction :=
  match confidenceFilter with
  | filter_all => predictions
  | _ =>
      let minThreshold : num :=
        match confidenceFilter with
        | filter_high => 75%Z
        | filter_medium => 50%Z
        | _ => 30%Z
        end in
      let maxThreshold : num :=
        match confidenceFilter with
        | filter_high => 100%Z
        | filter_medium => 74%Z
        | _ => 49%Z
        end in
      filter (fun pred => num_geb (pred_confidence pred) minThreshold
                          && num_leb (pred_confidence pred) maxThreshold)
             predictions
  end.

(** ** The standings page ([src/app/standings/page.tsx]) *)

(** [arr.reduce(f)] without an initial value; it throws on an empty
    array. *)
Definition reduce1 {A} (f : A -> A -> A) (l : list A) : Result A :=
  match l with
  | [] => Err "Reduce of empty array with no initial value"
  | x :: l' => Ok (fold_left f l' x)
  end.

Record LeagueStats : Type := {
  totalGoals : Z;
  avgGoalsPerMatch : num;
  topScorer : Standing;
  bestDefense : Standing;
  mostWins : Standing
}.

(** [getLeagueStats]; [avgGoalsPerMatch] is the number before
    [toFixed(2)]. *)
Definition getLeagueStats (standings : list Standing)
  : Result (option LeagueStats) :=
  if (Z.of_nat (List.length standings) =? 0)%Z then ret None
  else
    let totalGoals :=
      fold_left (fun sum team => (sum + st_goals_for team)%Z) standings 0%Z in
    let totalMatches :=
      fold_left (fun sum team => (sum + st_played team)%Z) standings 0%Z in
    let avgGoalsPerMatch :=
      if (totalMatches >? 0)%Z
      then (totalGoals / (totalMatches / 2%Z))%num
      else 0%Z in
    topScorer <-
      reduce1 (fun top team =>
                 if (st_goals_for team >? st_goals_for top)%Z then team
                 else top) standings ;;
    bestDefense <-
      reduce1 (fun best team =>
                 if (st_goals_against team <? st_goals_against best)%Z
                 then team else best) standings ;;
    mostWins <-
      reduce1 (fun most team =>
                 if (st_win team >? st_win most)%Z then team else most)
              standings ;;
    ret (Some {| totalGoals := totalGoals;
                 avgGoalsPerMatch := avgGoalsPerMatch;
                 topScorer := topScorer;
                 bestDefense := bestDefense;
                 mostWins := mostWins |}).

(** ** Notions used to state the properties of this code *)

(** Each entry of a list pairs a fixture with what [predictMatch] returns
    for it. *)
Definition predictedBy (Exp : Q -> Q) (ds : DataSource)
  (ps : list FixturePrediction) : Prop :=
  Forall (fun fp => predictMatch Exp ds (fp_fixture fp)
                    = Ok (fp_prediction fp)) ps.

(** The prediction [predictMatch] returns for a fixture is its result. *)
Definition predictedRight (Exp : Q -> Q) (ds : DataSource) (fx : Fixture)
  : bool :=
  match predictMatch Exp ds fx with
  | Ok p => Outcome_eqb (prediction p) (actualResult fx)
  | Err _ => false
  end.

(** A match that ended level, a missing goal count being 0. *)
Definition drawn (m : Fixture) : bool :=
  (orZero (goals_home m) =? orZero (goals_away m))%Z.

(** The counters of a summary, seen from the other team. *)
Definition mirror (c : H2HCounters) : H2HCounters :=
  {| team1Wins := team2Wins c; team2Wins := team1Wins c;
     h2h_draws := h2h_draws c;
     team1Goals := team2Goals c; team2Goals := team1Goals c |}.

(** A completed match of the team, at home or away. *)
Definition isMatchOf (teamId : Z) (m : Fixture) : Prop :=
  (team_id (teams_home m) = teamId \/ team_id (teams_away m) = teamId)
  /\ status_short m = "FT"%string.

Definition isOk {A} (r : Result A) : bool :=
  match r with
  | Ok _ => true
  | Err _ => false
  end.

(** No two stored predictions are for the same fixture. *)
Definition onePredictionPerFixture (s : MockDB) : Prop :=
  NoDup (map fixture_id (predictions s)).

(** What the loop of [POST] keeps true: [st] is the state after the
    identifiers [done], from the database [s0]. *)
Definition postInvariant (s0 : MockDB) (done : list Z) (st : PostState)
  : Prop :=
  engineView (post_db st) = engineView s0
  /\ Permutation (map pr_fixture_id (results st)
                  ++ map pe_fixture_id (errors st)) done
  /\ (forall r, In r (results st) ->
                exists p,
                  Db.getPredictionByFixtureId (post_db st) (pr_fixture_id r)
                  = Some p
                  /\ fixture_id p = pr_fixture_id r)
  /\ (forall e, In e (errors st) ->
                pe_error e = "Fixture not found"%string
                /\ Db.getFixtureById s0 (pe_fixture_id e) = None)
  /\ (onePredictionPerFixture s0 -> onePredictionPerFixture (post_db st)).

(** More example data: a third season for United, and a database with a
    record for each of the three seasons analysed in September 2025. *)
Module Sample.

Definition season2023 : TeamStatistics :=
  {| ts_team_id := 33; ts_season := 2023; ts_played := 38;
     ts_wins := 23; ts_draws := 6; ts_losses := 9;
     ts_goals_for := 58; ts_goals_against := 43; ts_goal_difference := 15;
     ts_home_wins := 15; ts_home_draws := 3; ts_home_losses := 1;
     ts_clean_sheets := 17; ts_failed_to_score := 7 |}.

Definition threeSeasonsDb : MockDatabase :=
  {| db_fixtures := [];
     db_teamStatistics :=
       [season2023; Example.season2024; Example.season2025] |}.

Definition oneSeasonStore : MockDB :=
  {| teams := []; fixtures := [];
     teamStatistics := [Example.season2024];
     standings := []; predictions := [] |}.

Definition emptyStore : MockDB :=
  {| teams := []; fixtures := []; teamStatistics := []; standings := [];
     predictions := [] |}.

End Sample.

(** * Properties *)

(** ** Numbers *)

Lemma Qltb_true (a b : Q) : JS.Qltb a b = true <-> a < b.
Proof.
  unfold JS.Qltb. rewrite negb_true_iff. split; intro H.
  - apply Qnot_le_lt. intro Hle. apply Qle_bool_iff in Hle. congruence.
  - destruct (Qle_bool b a) eqn:E; [|reflexivity].
    apply Qle_bool_iff in E. exfalso. apply (Qlt_not_le _ _ H E).
Qed.

Lemma Qltb_false (a b : Q) : JS.Qltb a b = false <-> b <= a.
Proof.
  unfold JS.Qltb. rewrite negb_false_iff. apply Qle_bool_iff.
Qed.

Lemma Qeq_bool_false (a b : Q) : ~ a == b -> Qeq_bool a b = false.
Proof.
  intro H. destruct (Qeq_bool a b) eqn:E; [|reflexivity].
  apply Qeq_bool_iff in E. contradiction.
Qed.

Lemma div_Fin (x y : Q) : ~ y == 0 -> (Fin x / Fin y)%num = Fin (x / y).
Proof.
  intro H. unfold JS.div. now rewrite (Qeq_bool_false H).
Qed.

Lemma num_eq_refl (a : num) : (a == a)%num.
Proof. destruct a; simpl; auto. reflexivity. Qed.

Lemma num_eq_sym (a b : num) : (a == b)%num -> (b == a)%num.
Proof. destruct a, b; simpl; auto. intro H. now symmetry. Qed.

Lemma num_eq_trans (a b c : num) :
  (a == b)%num -> (b == c)%num -> (a == c)%num.
Proof.
  destruct a, b, c; simpl; auto; try contradiction.
  intros H1 H2. now rewrite H1.
Qed.

#[export] Instance num_eq_Equivalence : Equivalence JS.eq.
Proof.
  split; [exact num_eq_refl | exact num_eq_sym | exact num_eq_trans].
Qed.

Lemma max_Fin (a b : Q) :
  JS.max (Fin a) (Fin b) = Fin (if JS.Qltb b a then a else b).
Proof. unfold JS.max, JS.gtb. now destruct (JS.Qltb b a). Qed.

Lemma min_Fin (a b : Q) :
  JS.min (Fin a) (Fin b) = Fin (if JS.Qltb a b then a else b).
Proof. unfold JS.min, JS.ltb, JS.gtb. now destruct (JS.Qltb a b). Qed.

Lemma within_weaken (lo hi lo' hi' : Q) (a : num) :
  JS.within lo hi a -> lo' <= lo -> hi <= hi' -> JS.within lo' hi' a.
Proof.
  destruct a; simpl; try contradiction. intros [H1 H2] H3 H4.
  split; eapply Qle_trans; eauto.
Qed.

Lemma within_finite (lo hi : Q) (a : num) :
  JS.within lo hi a -> exists q, a = Fin q /\ lo <= q /\ q <= hi.
Proof.
  destruct a; simpl; try contradiction. intro H. eauto.
Qed.

(** A ratio of integers [p / d] with [0 <= p <= d] and [0 < d], as a
    percentage. *)
Lemma percentage_within (p d : Z) :
  (0 <= p <= d)%Z -> (0 < d)%Z ->
  exists q, ((JS.ofZ p / JS.ofZ d) * JS.ofZ 100)%num = Fin q
            /\ q == inject_Z p / inject_Z d * 100
            /\ 0 <= q /\ q <= 100.
Proof.
  intros [Hp Hpd] Hd. unfold JS.ofZ.
  assert (Hd' : inject_Z 0 < inject_Z d) by (rewrite <- Zlt_Qlt; exact Hd).
  change (inject_Z 0) with 0 in Hd'.
  rewrite div_Fin by (intro E; rewrite E in Hd'; revert Hd'; apply Qlt_irrefl).
  simpl JS.mul. eexists; split; [reflexivity|].
  assert (H0 : 0 <= inject_Z p / inject_Z d).
  { apply Qle_shift_div_l; [exact Hd'|].
    rewrite Qmult_0_l. change 0 with (inject_Z 0).
    rewrite <- Zle_Qle. exact Hp. }
  assert (H1 : inject_Z p / inject_Z d <= 1).
  { apply Qle_shift_div_r; [exact Hd'|].
    rewrite Qmult_1_l. rewrite <- Zle_Qle. exact Hpd. }
  change (inject_Z 100) with 100. split; [reflexivity|].
  set (r := inject_Z p / inject_Z d) in *. clearbody r. split; lra.
Qed.

(** ** Form analyzer *)

Lemma formStep_tally (teamId : Z) (t : Tally) (m : Fixture) :
  let t' := formStep teamId t m in
  (t_wins t <= t_wins t' /\ t_draws t <= t_draws t'
   /\ t_losses t <= t_losses t'
   /\ t_wins t' + t_draws t' + t_losses t'
      = t_wins t + t_draws t + t_losses t + 1)%Z.
Proof.
  unfold formStep.
  destruct (team_id (teams_home m) =? teamId)%Z;
    destruct (_ >? _)%Z; simpl; try lia;
    destruct (_ =? _)%Z; simpl; lia.
Qed.

Lemma form_fold_tally (teamId : Z) (ms : list Fixture) (t : Tally) :
  let t' := fold_left (formStep teamId) ms t in
  (t_wins t <= t_wins t' /\ t_draws t <= t_draws t'
   /\ t_losses t <= t_losses t'
   /\ t_wins t' + t_draws t' + t_losses t'
      = t_wins t + t_draws t + t_losses t + Z.of_nat (List.length ms))%Z.
Proof.
  revert t. induction ms as [|m ms IH]; intro t; simpl.
  - lia.
  - specialize (IH (formStep teamId t m)).
    pose proof (formStep_tally teamId t m) as Hs. simpl in IH, Hs. lia.
Qed.

(** With at most [matches] matches in the window the points are at most
    [3 * matches]. *)
Lemma formOf_within (teamId matches : Z) (ms : list Fixture) :
  (0 < matches)%Z -> (Z.of_nat (List.length ms) <= matches)%Z ->
  JS.within 0 100 (formScore (formOf teamId matches ms)).
Proof.
  intros Hm Hlen. unfold formOf. cbn [formScore].
  pose proof (form_fold_tally teamId ms tally0) as H. simpl in H.
  destruct (percentage_within
              (p := (t_wins (fold_left (formStep teamId) ms tally0) * 3
                     + t_draws (fold_left (formStep teamId) ms tally0))%Z)
              (d := (matches * 3)%Z)) as (q & Hq & _ & Hr); [lia | lia |].
  rewrite Hq. exact Hr.
Qed.

Lemma slice0_length {A} (l : list A) (e : Z) :
  (0 <= e)%Z -> (Z.of_nat (List.length (Database.slice0 l e)) <= e)%Z.
Proof.
  intro He. unfold Database.slice0.
  destruct (e <? 0)%Z eqn:E; [lia|].
  pose proof (firstn_le_length (Z.to_nat e) l). lia.
Qed.

Lemma analyzeTeamForm_succeeds (ds : DataSource) (teamId matches : Z) :
  succeeds (analyzeTeamForm ds teamId matches).
Proof.
  unfold analyzeTeamForm, succeeds.
  destruct (db_getTeamRecentForm ds teamId matches); simpl; eauto.
Qed.

(** When the database throws, the form is the neutral one. *)
Lemma analyzeTeamForm_on_error (ds : DataSource) (teamId matches : Z) e :
  db_getTeamRecentForm ds teamId matches = Err e ->
  analyzeTeamForm ds teamId matches = Ok neutralForm.
Proof.
  intro H. unfold analyzeTeamForm. now rewrite H.
Qed.

(** C2.  [analyzeTeamForm] over the in-memory database, for a window of
    [matches > 0] matches: it returns a form whose [formScore] lies in
    [0, 100]; and for a team with no completed match in the database all
    the counts are 0 and the form score is 0 (not the neutral 50, which
    only the [catch] branch returns). *)
Theorem analyzeTeamForm_no_history_scores_zero :
  forall (year month : Z) (db : MockDatabase) (teamId matches : Z),
    (0 < matches)%Z ->
    exists fa,
      analyzeTeamForm (mockSource year month db) teamId matches = Ok fa
      /\ JS.within 0 100 (formScore fa)
      /\ (Database.getTeamRecentForm db teamId matches = [] ->
          wins fa = 0%Z /\ draws fa = 0%Z /\ losses fa = 0%Z
          /\ goalsFor fa = 0%Z /\ goalsAgainst fa = 0%Z
          /\ (formScore fa == 0%Z)%num
          /\ ~ (formScore fa == 50%Z)%num).
Proof.
  intros year month db teamId matches Hm.
  unfold analyzeTeamForm. simpl.
  eexists; split; [reflexivity|]. split.
  - apply formOf_within; [exact Hm|].
    unfold Database.getTeamRecentForm. apply slice0_length. lia.
  - intro Hnil. rewrite Hnil.
    repeat (split; [reflexivity|]).
    change (formScore (formOf teamId matches []))
      with ((JS.ofZ 0 / JS.ofZ (matches * 3)) * JS.ofZ 100)%num.
    destruct (percentage_within (p := 0) (d := matches * 3))
      as (q & Hq & Hv & _); [lia | lia |].
    rewrite Hq. simpl.
    assert (H0 : q == 0).
    { rewrite Hv. change (inject_Z 0) with 0. unfold Qdiv.
      now rewrite !Qmult_0_l. }
    split; [exact H0|]. rewrite H0. discriminate.
Qed.

Lemma analyzeTeamForm_no_history_scores_zero_witness :
  exists fa,
    analyzeTeamForm
      (mockSource 2025 9 {| db_fixtures := []; db_teamStatistics := [] |})
      33 5 = Ok fa
    /\ JS.within 0 100 (formScore fa)
    /\ (Database.getTeamRecentForm
          {| db_fixtures := []; db_teamStatistics := [] |} 33 5 = [] ->
        wins fa = 0%Z /\ draws fa = 0%Z /\ losses fa = 0%Z
        /\ goalsFor fa = 0%Z /\ goalsAgainst fa = 0%Z
        /\ (formScore fa == 0%Z)%num
        /\ ~ (formScore fa == 50%Z)%num).
Proof.
  apply (@analyzeTeamForm_no_history_scores_zero 2025 9
           {| db_fixtures := []; db_teamStatistics := [] |} 33 5).
  reflexivity.
Defined.

(** ** Sorting by date *)

Lemma insertByDate_perm (f : Fixture) (l : list Fixture) :
  Permutation (Database.insertByDate f l) (f :: l).
Proof.
  induction l as [|g l IH]; simpl.
  - apply Permutation_refl.
  - destruct (fx_date f <? fx_date g)%Z.
    + eapply perm_trans; [apply perm_skip, IH | apply perm_swap].
    + apply Permutation_refl.
Qed.

Lemma sortByDateDesc_perm (l : list Fixture) :
  Permutation (Database.sortByDateDesc l) l.
Proof.
  induction l as [|f l IH]; simpl.
  - apply perm_nil.
  - eapply perm_trans; [apply insertByDate_perm | apply perm_skip, IH].
Qed.

Lemma insertByDate_sorted (f : Fixture) (l : list Fixture) :
  mostRecentFirst l -> mostRecentFirst (Database.insertByDate f l).
Proof.
  unfold mostRecentFirst. induction l as [|g l IH]; intro Hs; simpl.
  - constructor; constructor.
  - apply StronglySorted_inv in Hs. destruct Hs as [Hl Hg].
    destruct (fx_date f <? fx_date g)%Z eqn:E.
    + constructor; [apply IH; exact Hl|].
      apply (Permutation_Forall (Permutation_sym (insertByDate_perm f l))).
      constructor; [lia | exact Hg].
    + constructor; [constructor; assumption|].
      constructor; [lia|].
      eapply Forall_impl; [|exact Hg]. simpl. intros a Ha. lia.
Qed.

Lemma sortByDateDesc_sorted (l : list Fixture) :
  mostRecentFirst (Database.sortByDateDesc l).
Proof.
  induction l as [|f l IH]; simpl.
  - constructor.
  - apply insertByDate_sorted, IH.
Qed.

Lemma slice0_firstn {A} (l : list A) (n : nat) :
  Database.slice0 l (Z.of_nat n) = firstn n l.
Proof.
  unfold Database.slice0.
  destruct (Z.of_nat n <? 0)%Z eqn:E; [apply Z.ltb_lt in E; lia|].
  now rewrite Nat2Z.id.
Qed.

(** The head-to-head records of the in-memory database are the last 10
    completed meetings of the two teams. *)
Lemma getHeadToHeadRecords_last (db : MockDatabase) (team1Id team2Id : Z) :
  lastOf 10 (isMeeting team1Id team2Id) (db_fixtures db)
         (Database.getHeadToHeadRecords db team1Id team2Id 10).
Proof.
  unfold Database.getHeadToHeadRecords.
  change 10%Z with (Z.of_nat 10). rewrite slice0_firstn.
  match goal with
  | |- context [filter ?p _] => set (keep := p)
  end.
  set (sorted := Database.sortByDateDesc (filter keep (db_fixtures db))).
  assert (Hkeep : forall m, keep m = true <-> isMeeting team1Id team2Id m).
  { intro m. unfold keep, isMeeting, Database.completed.
    rewrite andb_true_iff, orb_true_iff, !andb_true_iff, !Z.eqb_eq.
    now rewrite String.eqb_eq. }
  exists (filter keep (db_fixtures db)), (skipn 10 sorted).
  split; [|split; [|split; [|split]]].
  - intros m Hm. apply filter_In in Hm. destruct Hm as [Hin Hk].
    split; [exact Hin | now apply Hkeep].
  - intros m Hin HP. apply filter_In. split; [exact Hin | now apply Hkeep].
  - rewrite firstn_skipn. apply sortByDateDesc_perm.
  - rewrite firstn_skipn. apply sortByDateDesc_sorted.
  - rewrite length_firstn. unfold sorted.
    now rewrite (Permutation_length (sortByDateDesc_perm _)).
Qed.

(** ** Head-to-head analyzer *)

Lemma team1Points_bounds (team1Id : Z) (m : Fixture) :
  (0 <= team1Points team1Id m <= 3)%Z.
Proof.
  unfold team1Points. destruct (_ ?= _)%Z; lia.
Qed.

Lemma pointsEarned_bounds (team1Id : Z) (ms : list Fixture) :
  (0 <= pointsEarned team1Id ms <= Z.of_nat (List.length ms) * 3)%Z.
Proof.
  unfold pointsEarned. induction ms as [|m ms IH]; simpl List.length; simpl.
  - lia.
  - pose proof (team1Points_bounds team1Id m). lia.
Qed.

Lemma h2hStep_points (team1Id score : Z) (m : Fixture) :
  h2hStep team1Id score m = (score + team1Points team1Id m)%Z.
Proof.
  unfold h2hStep, team1Points.
  destruct (team_id (teams_home m) =? team1Id)%Z;
    match goal with
    | |- context [(?a ?= ?b)%Z] =>
        destruct (Z.compare_spec a b) as [H|H|H];
        [ rewrite H, Z.eqb_refl;
          replace (b >? b)%Z with false by lia; reflexivity
        | replace (a >? b)%Z with false by lia;
          replace (a =? b)%Z with false by lia; lia
        | replace (a >? b)%Z with true by lia; reflexivity ]
    end.
Qed.

Lemma h2h_fold_points (team1Id : Z) (ms : list Fixture) (score : Z) :
  fold_left (h2hStep team1Id) ms score
  = (score + pointsEarned team1Id ms)%Z.
Proof.
  revert score. induction ms as [|m ms IH]; intro score; simpl.
  - unfold pointsEarned. simpl. lia.
  - rewrite IH, h2hStep_points. unfold pointsEarned. simpl. lia.
Qed.

(** The value computed by the [try] block on a non-empty list. *)
Lemma h2h_score_within (team1Id : Z) (ms : list Fixture) :
  ms <> [] ->
  exists q,
    ((fold_left (h2hStep team1Id) ms 0%Z
      / (Z.of_nat (List.length ms) * 3)%Z) * 100%Z)%num = Fin q
    /\ q == headToHeadFormula team1Id ms /\ 0 <= q /\ q <= 100.
Proof.
  intro Hne. rewrite h2h_fold_points. simpl Z.add.
  pose proof (pointsEarned_bounds team1Id ms) as Hb.
  assert (Hlen : (0 < Z.of_nat (List.length ms))%Z)
    by (destruct ms; [contradiction | simpl; lia]).
  apply percentage_within; lia.
Qed.

(** The value of [analyzeHeadToHead], by the answer of the database. *)
Lemma analyzeHeadToHead_value (ds : DataSource) (team1Id team2Id : Z) :
  exists v,
    analyzeHeadToHead ds team1Id team2Id = Ok v
    /\ JS.within 0 100 v
    /\ match db_getHeadToHeadRecords ds team1Id team2Id 10 with
       | Ok [] => v = Fin 50
       | Ok ms => (v == Fin (headToHeadFormula team1Id ms))%num
       | Err _ => v = Fin 50
       end.
Proof.
  unfold analyzeHeadToHead.
  destruct (db_getHeadToHeadRecords ds team1Id team2Id 10) as [ms|e];
    unfold bind, try_catch.
  - destruct ms as [|m ms].
    + simpl. exists (Fin 50). repeat split; simpl; lra.
    + assert (Hne : m :: ms <> []) by discriminate.
      destruct (h2h_score_within team1Id Hne) as (q & Hq & Hv & Hr).
      destruct (Z.eqb_spec (Z.of_nat (List.length (m :: ms))) 0)
        as [E|_]; [simpl List.length in E; lia|].
      unfold ret. rewrite Hq. exists (Fin q).
      split; [reflexivity|]. split; [exact Hr | exact Hv].
  - exists (Fin 50). repeat split; simpl; lra.
Qed.


(** ** Statistical analyzer: the loop *)

(** The values of the loop body are the formulas of the specification. *)
Lemma seasonMetrics_formulas (stats : StatsRecord) (p : Z) :
  played stats = Some p ->
  seasonMetrics stats p
  = {| homeAdvantage := Season.homeAdvantage stats;
       goalDifferential := Season.goalDifferential stats;
       cleanSheetRatio := Season.cleanSheetRatio stats;
       scoringConsistency := Season.scoringConsistency stats;
       defensiveStrength := Season.defensiveStrength stats;
       attackingStrength := Season.attackingStrength stats |}.
Proof.
  intro Hp.
  unfold seasonMetrics, Season.homeAdvantage, Season.goalDifferential,
    Season.cleanSheetRatio, Season.scoringConsistency,
    Season.defensiveStrength, Season.attackingStrength.
  rewrite Hp. cbn [orZero]. unfold JS.ofZ, JS.sub. cbn [JS.add JS.mul JS.neg].
  unfold Z.sub.
  repeat first [ rewrite inject_Z_plus | rewrite inject_Z_mult
               | rewrite inject_Z_opp ].
  reflexivity.
Qed.

Lemma statsStep_contributes (acc : Weighted) (d : SeasonData) :
  contributes d = true ->
  statsStep acc d
  = {| weightedStats :=
         {| homeAdvantage :=
              (homeAdvantage (weightedStats acc)
               + onSeason Season.homeAdvantage d * sd_weight d)%num;
            goalDifferential :=
              (goalDifferential (weightedStats acc)
               + onSeason Season.goalDifferential d * sd_weight d)%num;
            cleanSheetRatio :=
              (cleanSheetRatio (weightedStats acc)
               + onSeason Season.cleanSheetRatio d * sd_weight d)%num;
            scoringConsistency :=
              (scoringConsistency (weightedStats acc)
               + onSeason Season.scoringConsistency d * sd_weight d)%num;
            defensiveStrength :=
              (defensiveStrength (weightedStats acc)
               + onSeason Season.defensiveStrength d * sd_weight d)%num;
            attackingStrength :=
              (attackingStrength (weightedStats acc)
               + onSeason Season.attackingStrength d * sd_weight d)%num |};
       totalWeight := (totalWeight acc + sd_weight d)%num |}.
Proof.
  unfold contributes, statsStep, onSeason.
  destruct (sd_stats d) as [stats|]; [|discriminate].
  destruct (played stats) as [p|] eqn:Hp; [|discriminate].
  intro H. rewrite H, (seasonMetrics_formulas stats Hp). reflexivity.
Qed.

Lemma statsStep_skips (acc : Weighted) (d : SeasonData) :
  contributes d = false -> statsStep acc d = acc.
Proof.
  unfold contributes, statsStep.
  destruct (sd_stats d) as [stats|]; [|reflexivity].
  destruct (played stats) as [p|]; [|reflexivity].
  now intros ->.
Qed.

(** The loop adds up the contributing seasons only. *)
Lemma stats_fold (data : list SeasonData) (acc : Weighted) :
  let c := contributing data in
  let w := weightedStats acc in
  fold_left statsStep data acc
  = {| weightedStats :=
         {| homeAdvantage :=
              weightedSum (onSeason Season.homeAdvantage) c (homeAdvantage w);
            goalDifferential :=
              weightedSum (onSeason Season.goalDifferential) c
                          (goalDifferential w);
            cleanSheetRatio :=
              weightedSum (onSeason Season.cleanSheetRatio) c
                          (cleanSheetRatio w);
            scoringConsistency :=
              weightedSum (onSeason Season.scoringConsistency) c
                          (scoringConsistency w);
            defensiveStrength :=
              weightedSum (onSeason Season.defensiveStrength) c
                          (defensiveStrength w);
            attackingStrength :=
              weightedSum (onSeason Season.attackingStrength) c
                          (attackingStrength w) |};
       totalWeight := weightSum c (totalWeight acc) |}.
Proof.
  revert acc. induction data as [|d data IH]; intro acc; simpl.
  - now destruct acc as [[] ?].
  - rewrite IH. unfold contributing. simpl filter.
    destruct (contributes d) eqn:Hc.
    + rewrite (statsStep_contributes acc d Hc). reflexivity.
    + rewrite (statsStep_skips acc d Hc). reflexivity.
Qed.

(** What [blend] returns, for every list of seasons: the neutral values
    when the weights received add up to 0, and otherwise the
    weight-normalized sums over the contributing seasons, the five scores
    clamped to [0, 100]. *)
Lemma blend_means (data : list SeasonData) :
  blend data
  = if JS.eqb (weightSum (contributing data) 0%Z) 0%Z then neutralStats
    else
      {| homeAdvantage := clampStat (weightedMean Season.homeAdvantage data);
         goalDifferential := weightedMean Season.goalDifferential data;
         cleanSheetRatio :=
           clampStat (weightedMean Season.cleanSheetRatio data);
         scoringConsistency :=
           clampStat (weightedMean Season.scoringConsistency data);
         defensiveStrength :=
           clampStat (weightedMean Season.defensiveStrength data);
         attackingStrength :=
           clampStat (weightedMean Season.attackingStrength data) |}.
Proof.
  unfold blend. rewrite stats_fold. reflexivity.
Qed.

Lemma analyzeTeamStatistics_blend (ds : DataSource) (teamId : Z) :
  analyzeTeamStatistics ds teamId = Ok (blend (multiSeasonData ds teamId)).
Proof. reflexivity. Qed.

(** The weights of the seasons analysed are the three configured ones. *)
Lemma getAnalysisSeasons_weights (year month : Z) (sw : SeasonWeight) :
  In sw (getAnalysisSeasons year month) ->
  exists w, sw_weight sw = Fin w /\ 0 < w.
Proof.
  unfold getAnalysisSeasons. simpl.
  intros [<-|[<-|[<-|[]]]]; simpl; eexists; (split; [reflexivity|]);
    reflexivity.
Qed.

Lemma apiSeasonData_weights ds teamId seasons d :
  In d (apiSeasonData ds teamId seasons) ->
  exists sw, In sw seasons /\ sd_weight d = sw_weight sw
             /\ sd_season d = sw_season sw
             /\ exists stats, sd_stats d = Some stats
                  /\ api_getTeamStatistics ds teamId (sw_season sw)
                     = Ok (Some stats).
Proof.
  induction seasons as [|sw rest IH]; simpl; [contradiction|].
  destruct (api_getTeamStatistics ds teamId (sw_season sw))
    as [[stats|]|e] eqn:E.
  - intros [<-|Hin].
    + exists sw. simpl. eauto 10.
    + destruct (IH Hin) as (sw' & H1 & H2). exists sw'. auto.
  - intro Hin. destruct (IH Hin) as (sw' & H1 & H2). exists sw'. auto.
  - intro Hin. destruct (IH Hin) as (sw' & H1 & H2). exists sw'. auto.
Qed.

Lemma dbSeasonData_weights ds teamId seasons d :
  In d (dbSeasonData ds teamId seasons) ->
  exists sw, In sw seasons /\ sd_weight d = sw_weight sw
             /\ sd_season d = sw_season sw
             /\ exists ts, sd_stats d = Some (asRecord ts)
                  /\ db_getTeamStatistics ds teamId (sw_season sw)
                     = Ok (Some ts).
Proof.
  induction seasons as [|sw rest IH]; simpl; [contradiction|].
  destruct (db_getTeamStatistics ds teamId (sw_season sw))
    as [[ts|]|e] eqn:E.
  - intros [<-|Hin].
    + exists sw. simpl. eauto 10.
    + destruct (IH Hin) as (sw' & H1 & H2). exists sw'. auto.
  - intro Hin. destruct (IH Hin) as (sw' & H1 & H2). exists sw'. auto.
  - intro Hin. destruct (IH Hin) as (sw' & H1 & H2). exists sw'. auto.
Qed.

(** Where a season of [multiSeasonData] comes from. *)
Lemma multiSeasonData_origin (ds : DataSource) (teamId : Z) (d : SeasonData) :
  In d (multiSeasonData ds teamId) ->
  exists sw,
    In sw (getAnalysisSeasons (nowYear ds) (nowMonth ds))
    /\ sd_weight d = sw_weight sw
    /\ ((exists stats, sd_stats d = Some stats
           /\ api_getTeamStatistics ds teamId (sw_season sw)
              = Ok (Some stats))
        \/ (exists ts, sd_stats d = Some (asRecord ts)
              /\ db_getTeamStatistics ds teamId (sw_season sw)
                 = Ok (Some ts))).
Proof.
  unfold multiSeasonData, getMultiSeasonTeamStatistics, try_catch, ret.
  destruct (api_hasApiKey ds).
  - destruct (apiSeasonData ds teamId _) as [|d0 l] eqn:E.
    + intro Hin. apply dbSeasonData_weights in Hin.
      destruct Hin as (sw & H1 & H2 & _ & H3). exists sw. auto.
    + intro Hin. change (In d (d0 :: l)) in Hin.
      rewrite <- E in Hin. apply apiSeasonData_weights in Hin.
      destruct Hin as (sw & H1 & H2 & _ & H3). exists sw. auto.
  - intro Hin. apply dbSeasonData_weights in Hin.
    destruct Hin as (sw & H1 & H2 & _ & H3). exists sw. auto.
Qed.

Lemma multiSeasonData_weights (ds : DataSource) (teamId : Z) (d : SeasonData) :
  In d (multiSeasonData ds teamId) ->
  exists w, sd_weight d = Fin w /\ 0 < w.
Proof.
  intro Hin. destruct (multiSeasonData_origin ds teamId d Hin)
    as (sw & Hsw & Hw & _).
  rewrite Hw. eapply getAnalysisSeasons_weights; eauto.
Qed.

(** ** Statistical analyzer: sums and means *)

Lemma positiveWeights_tail d data :
  positiveWeights (d :: data) -> positiveWeights data.
Proof. intros H x Hx. apply H. now right. Qed.

Lemma positiveWeights_contributing data :
  positiveWeights data -> positiveWeights (contributing data).
Proof.
  intros H d Hd. apply filter_In in Hd. apply H. tauto.
Qed.

Lemma weightSum_positive (data : list SeasonData) :
  positiveWeights data ->
  forall w0, exists w,
    weightSum data (Fin w0) = Fin w /\ w0 <= w /\ (data <> [] -> w0 < w).
Proof.
  unfold weightSum. induction data as [|d data IH]; intros Hw w0; simpl.
  - exists w0. split; [reflexivity|]. split; [lra | congruence].
  - destruct (Hw d (or_introl Logic.eq_refl)) as (wd & Hwd & Hpos).
    rewrite Hwd. cbn [JS.add].
    destruct (IH (positiveWeights_tail Hw) (w0 + wd)) as (w & Hs & Hle & _).
    exists w. split; [exact Hs|]. split; [lra | intros _; lra].
Qed.

Lemma weightedSum_NaN (f : SeasonData -> num) (data : list SeasonData) :
  weightedSum f data NaN = NaN.
Proof.
  unfold weightedSum. induction data as [|d data IH]; simpl; auto.
Qed.

Lemma add_NaN_r (a : num) : (a + NaN)%num = NaN.
Proof. now destruct a. Qed.

Lemma mul_NaN_l (a : num) : (NaN * a)%num = NaN.
Proof. reflexivity. Qed.

(** A season whose value is NaN makes the whole sum NaN. *)
Lemma weightedSum_NaN_term (f : SeasonData -> num) (data : list SeasonData)
  (d : SeasonData) (init : num) :
  In d data -> f d = NaN -> weightedSum f data init = NaN.
Proof.
  unfold weightedSum. revert init.
  induction data as [|x data IH]; intros init Hin Hf; simpl.
  - contradiction.
  - destruct Hin as [->|Hin].
    + rewrite Hf, mul_NaN_l, add_NaN_r. apply weightedSum_NaN.
    + now apply IH.
Qed.

(** Sums of finite values are finite. *)
Lemma weightedSum_finite (f : SeasonData -> num) (data : list SeasonData) :
  positiveWeights data ->
  (forall d, In d data -> JS.finite (f d)) ->
  forall s0, JS.finite (weightedSum f data (Fin s0)).
Proof.
  unfold weightedSum. induction data as [|d data IH]; intros Hw Hf s0; simpl.
  - exact I.
  - destruct (Hw d (or_introl Logic.eq_refl)) as (wd & Hwd & _).
    pose proof (Hf d (or_introl Logic.eq_refl)) as Hfd.
    destruct (f d) as [q| | |]; try contradiction.
    rewrite Hwd. cbn [JS.add JS.mul].
    apply IH; [exact (positiveWeights_tail Hw)|].
    intros x Hx. apply Hf. now right.
Qed.

(** Sums of values of [0, 100]: at most 100 times the weights. *)
Lemma weightedSum_bounds (f : SeasonData -> num) (data : list SeasonData) :
  positiveWeights data ->
  (forall d, In d data -> nanOrWithin 0 100 (f d)) ->
  forall s0 w0, exists w,
    weightSum data (Fin w0) = Fin w /\ w0 <= w
    /\ (weightedSum f data (Fin s0) = NaN
        \/ exists s, weightedSum f data (Fin s0) = Fin s
                     /\ s0 <= s /\ s - s0 <= 100 * (w - w0)).
Proof.
  induction data as [|d data IH]; intros Hw Hf s0 w0.
  - exists w0. split; [reflexivity|]. split; [lra|].
    right. exists s0. split; [reflexivity|]. split; lra.
  - destruct (Hw d (or_introl Logic.eq_refl)) as (wd & Hwd & Hpos).
    unfold weightSum, weightedSum. simpl fold_left. rewrite Hwd.
    destruct (Hf d (or_introl Logic.eq_refl)) as [Hnan|Hin].
    + destruct (@weightSum_positive data (positiveWeights_tail Hw)
                  (w0 + wd)) as (w & Hs & Hle & _).
      exists w. split; [exact Hs|]. split; [lra|]. left.
      rewrite Hnan. cbn [JS.mul JS.add]. apply weightedSum_NaN.
    + destruct (f d) as [q| | |]; try contradiction. destruct Hin as [Hq0 Hq1].
      cbn [JS.add JS.mul].
      destruct (IH (positiveWeights_tail Hw)
                   (fun x Hx => Hf x (or_intror Hx))
                   (s0 + q * wd) (w0 + wd)) as (w & Hs & Hle & Hsum).
      exists w. split; [exact Hs|]. split; [lra|].
      assert (Hq0w : 0 <= q * wd) by (apply Qmult_le_0_compat; lra).
      assert (Hq1w : q * wd <= 100 * wd)
        by (apply Qmult_le_compat_r; lra).
      destruct Hsum as [Hn|(s & Hs' & H1 & H2)]; [left; exact Hn|].
      right. exists s. split; [exact Hs'|]. split; lra.
Qed.

Lemma clampStat_id (x : num) : nanOrWithin 0 100 x -> clampStat x = x.
Proof.
  intros [->|H]; [reflexivity|].
  destruct x as [q| | |]; try contradiction. destruct H as [H0 H1].
  unfold clampStat. change (JS.ofZ 0) with (Fin 0).
  change (JS.ofZ 100) with (Fin 100). rewrite max_Fin.
  destruct (JS.Qltb q 0) eqn:E; [apply Qltb_true in E; lra|].
  rewrite min_Fin.
  destruct (JS.Qltb 100 q) eqn:E'; [apply Qltb_true in E'; lra|].
  reflexivity.
Qed.

(** Clamping brings every number into [0, 100]. *)
Lemma clampStat_within (x : num) : x <> NaN -> JS.within 0 100 (clampStat x).
Proof.
  intro Hx. unfold clampStat. change (JS.ofZ 0) with (Fin 0).
  change (JS.ofZ 100) with (Fin 100).
  destruct x as [q| | |]; [| | |contradiction].
  - rewrite max_Fin. destruct (JS.Qltb q 0) eqn:E; rewrite min_Fin.
    + simpl. split; lra.
    + apply Qltb_false in E.
      destruct (JS.Qltb 100 q) eqn:E'; simpl; [lra|].
      apply Qltb_false in E'. lra.
  - simpl. split; lra.
  - simpl. split; lra.
Qed.

(** The mean of values of [0, 100] (or NaN) lies in [0, 100] (or is NaN). *)
Lemma weightedMean_range (f : StatsRecord -> num) (data : list SeasonData) :
  positiveWeights data ->
  contributing data <> [] ->
  (forall d, In d (contributing data) -> nanOrWithin 0 100 (onSeason f d)) ->
  nanOrWithin 0 100 (weightedMean f data).
Proof.
  intros Hw Hne Hf. unfold weightedMean. change (JS.ofZ 0) with (Fin 0).
  pose proof (positiveWeights_contributing Hw) as Hwc.
  destruct (weightSum_positive Hwc 0) as (w' & Hs' & _ & Hlt).
  specialize (Hlt Hne).
  destruct (weightedSum_bounds (onSeason f) Hwc Hf 0 0)
    as (w & Hs & Hle & Hsum).
  rewrite Hs' in Hs. injection Hs as <-. rewrite Hs'.
  destruct Hsum as [Hn|(s & Hsv & H1 & H2)].
  - rewrite Hn. left. reflexivity.
  - rewrite Hsv. right. rewrite div_Fin by lra. simpl. split.
    + apply Qle_shift_div_l; lra.
    + apply Qle_shift_div_r; lra.
Qed.

Lemma weightedMean_finite (f : StatsRecord -> num) (data : list SeasonData) :
  positiveWeights data ->
  contributing data <> [] ->
  (forall d, In d (contributing data) -> JS.finite (onSeason f d)) ->
  JS.finite (weightedMean f data).
Proof.
  intros Hw Hne Hf. unfold weightedMean. change (JS.ofZ 0) with (Fin 0).
  pose proof (positiveWeights_contributing Hw) as Hwc.
  destruct (weightSum_positive Hwc 0) as (w' & Hs' & _ & Hlt).
  specialize (Hlt Hne). rewrite Hs'.
  pose proof (weightedSum_finite (onSeason f) Hwc Hf 0) as Hfin.
  destruct (weightedSum _ _ _) as [s| | |]; try contradiction.
  rewrite div_Fin by lra. exact I.
Qed.

Lemma weightSum_nonzero (data : list SeasonData) :
  positiveWeights data -> contributing data <> [] ->
  JS.eqb (weightSum (contributing data) 0%Z) 0%Z = false.
Proof.
  intros Hw Hne. change (JS.ofZ 0) with (Fin 0).
  destruct (weightSum_positive (positiveWeights_contributing Hw) 0)
    as (w & Hs & _ & Hlt).
  rewrite Hs. simpl. apply Qeq_bool_false. specialize (Hlt Hne). lra.
Qed.

(** ** Statistical analyzer: the values of one season *)

Lemma contributes_inv (d : SeasonData) :
  contributes d = true ->
  exists stats p,
    sd_stats d = Some stats /\ played stats = Some p /\ (0 < p)%Z.
Proof.
  unfold contributes. destruct (sd_stats d) as [stats|]; [|discriminate].
  destruct (played stats) as [p|] eqn:Hp; [|discriminate].
  intro H. exists stats, p. split; [reflexivity|]. split; [exact Hp|].
  apply Z.gtb_lt in H. exact H.
Qed.

Lemma inject_Z_pos (p : Z) : (0 < p)%Z -> 0 < inject_Z p.
Proof.
  intro H. change 0 with (inject_Z 0). rewrite <- Zlt_Qlt. exact H.
Qed.

Lemma inject_Z_nonneg (p : Z) : (0 <= p)%Z -> 0 <= inject_Z p.
Proof.
  intro H. change 0 with (inject_Z 0). rewrite <- Zle_Qle. exact H.
Qed.

Lemma inject_Z_le (a b : Z) : (a <= b)%Z -> inject_Z a <= inject_Z b.
Proof. intro H. rewrite <- Zle_Qle. exact H. Qed.

Lemma Q_ratio_bounds (a d c : Q) :
  0 <= a -> a <= d -> 0 < d -> 0 <= c ->
  0 <= a / d * c /\ a / d * c <= c.
Proof.
  intros Ha Hd Hpos Hc.
  assert (H0 : 0 <= a / d) by (apply Qle_shift_div_l; lra).
  assert (H1 : a / d <= 1) by (apply Qle_shift_div_r; lra).
  set (r := a / d) in *. clearbody r. split.
  - apply Qmult_le_0_compat; assumption.
  - setoid_replace c with (1 * c) at 2 by ring.
    apply Qmult_le_compat_r; assumption.
Qed.

Section OneSeason.

Variable stats : StatsRecord.
Variable p : Z.
Hypothesis Hplayed : played stats = Some p.
Hypothesis Hpos : (0 < p)%Z.

Let p_nonzero : ~ inject_Z p == 0.
Proof. pose proof (inject_Z_pos Hpos). lra. Qed.

Lemma season_goalDifferential_finite :
  JS.finite (Season.goalDifferential stats).
Proof. exact I. Qed.

Lemma season_cleanSheetRatio_finite :
  JS.finite (Season.cleanSheetRatio stats).
Proof.
  unfold Season.cleanSheetRatio. rewrite Hplayed. cbn [orZero].
  unfold JS.ofZ. rewrite (div_Fin _ p_nonzero). exact I.
Qed.

Lemma season_scoringConsistency_finite :
  JS.finite (Season.scoringConsistency stats).
Proof.
  unfold Season.scoringConsistency. rewrite Hplayed. cbn [orZero].
  unfold JS.ofZ, JS.sub. cbn [JS.neg JS.add].
  rewrite (div_Fin _ p_nonzero). exact I.
Qed.

Lemma season_defensiveStrength_finite :
  JS.finite (Season.defensiveStrength stats).
Proof.
  unfold Season.defensiveStrength. rewrite Hplayed. cbn [orZero].
  unfold JS.ofZ, JS.sub. rewrite (div_Fin _ p_nonzero).
  cbn [JS.mul JS.neg JS.add]. rewrite max_Fin. exact I.
Qed.

Lemma season_attackingStrength_finite :
  JS.finite (Season.attackingStrength stats).
Proof.
  unfold Season.attackingStrength. rewrite Hplayed. cbn [orZero].
  unfold JS.ofZ. rewrite (div_Fin _ p_nonzero).
  cbn [JS.mul]. rewrite min_Fin. exact I.
Qed.

(** With no home match the home advantage of the season is [0 / 0]. *)
Lemma season_homeAdvantage_NaN :
  orZero (home_wins stats) = 0%Z -> orZero (home_draws stats) = 0%Z ->
  orZero (home_losses stats) = 0%Z ->
  Season.homeAdvantage stats = NaN.
Proof.
  intros Hw Hd Hl. unfold Season.homeAdvantage. rewrite Hw, Hd, Hl.
  reflexivity.
Qed.

Hypothesis Hcons : consistent stats.

Lemma season_cleanSheetRatio_within :
  JS.within 0 100 (Season.cleanSheetRatio stats).
Proof.
  destruct Hcons as (_ & _ & _ & Hcs & _). revert Hcs.
  unfold Season.cleanSheetRatio. rewrite Hplayed. cbn [orZero]. intros Hcs.
  unfold JS.ofZ. rewrite (div_Fin _ p_nonzero). cbn [JS.mul JS.within].
  change (inject_Z 100) with 100. apply Q_ratio_bounds;
    [apply inject_Z_nonneg | apply inject_Z_le | apply inject_Z_pos | lra];
    lia.
Qed.

Lemma season_scoringConsistency_within :
  JS.within 0 100 (Season.scoringConsistency stats).
Proof.
  destruct Hcons as (_ & _ & _ & _ & Hfs & _). revert Hfs.
  unfold Season.scoringConsistency. rewrite Hplayed. cbn [orZero]. intros Hfs.
  unfold JS.ofZ, JS.sub. cbn [JS.neg JS.add].
  rewrite (div_Fin _ p_nonzero). cbn [JS.mul JS.within].
  change (inject_Z 100) with 100.
  pose proof (inject_Z_nonneg (proj1 Hfs)).
  pose proof (inject_Z_le (proj2 Hfs)).
  pose proof (inject_Z_pos Hpos).
  apply Q_ratio_bounds; lra.
Qed.

Lemma season_defensiveStrength_within :
  JS.within 0 100 (Season.defensiveStrength stats).
Proof.
  destruct Hcons as (_ & _ & _ & _ & _ & _ & Hga).
  unfold Season.defensiveStrength. rewrite Hplayed. cbn [orZero].
  unfold JS.ofZ, JS.sub. rewrite (div_Fin _ p_nonzero).
  cbn [JS.mul JS.neg JS.add]. rewrite max_Fin.
  change (inject_Z 100) with 100. change (inject_Z 0) with 0.
  change (inject_Z 25) with 25.
  assert (H0 : 0 <= inject_Z (orZero (goals_against stats)) / inject_Z p).
  { apply Qle_shift_div_l; [apply inject_Z_pos; exact Hpos|].
    rewrite Qmult_0_l. apply inject_Z_nonneg. exact Hga. }
  set (r := inject_Z (orZero (goals_against stats)) / inject_Z p) in *.
  clearbody r.
  destruct (JS.Qltb (100 + - (r * 25)) 0) eqn:E; simpl.
  - lra.
  - apply Qltb_false in E. lra.
Qed.

Lemma season_attackingStrength_within :
  JS.within 0 100 (Season.attackingStrength stats).
Proof.
  destruct Hcons as (_ & _ & _ & _ & _ & Hgf & _).
  unfold Season.attackingStrength. rewrite Hplayed. cbn [orZero].
  unfold JS.ofZ. rewrite (div_Fin _ p_nonzero).
  cbn [JS.mul]. rewrite min_Fin.
  change (inject_Z 100) with 100. change (inject_Z 40) with 40.
  assert (H0 : 0 <= inject_Z (orZero (goals_for stats)) / inject_Z p).
  { apply Qle_shift_div_l; [apply inject_Z_pos; exact Hpos|].
    rewrite Qmult_0_l. apply inject_Z_nonneg. exact Hgf. }
  set (r := inject_Z (orZero (goals_for stats)) / inject_Z p) in *.
  clearbody r.
  destruct (JS.Qltb 100 (r * 40)) eqn:E; simpl.
  - lra.
  - apply Qltb_false in E. lra.
Qed.

Lemma season_homeAdvantage_range :
  nanOrWithin 0 100 (Season.homeAdvantage stats).
Proof.
  destruct Hcons as (Hw & Hd & Hl & _).
  unfold Season.homeAdvantage, JS.ofZ. cbn [JS.add JS.mul].
  change (inject_Z 3) with 3. change (inject_Z 100) with 100.
  pose proof (inject_Z_nonneg Hw) as Hw'.
  pose proof (inject_Z_nonneg Hd) as Hd'.
  pose proof (inject_Z_nonneg Hl) as Hl'.
  set (hw := inject_Z (orZero (home_wins stats))) in *.
  set (hd := inject_Z (orZero (home_draws stats))) in *.
  set (hl := inject_Z (orZero (home_losses stats))) in *.
  clearbody hw hd hl. unfold JS.div.
  destruct (Qeq_bool ((hw + hd + hl) * 3) 0) eqn:E.
  - apply Qeq_bool_iff in E. left. unfold JS.signedInf.
    replace (JS.Qltb 0 (hw * 3 + hd)) with false
      by (symmetry; apply Qltb_false; lra).
    replace (JS.Qltb (hw * 3 + hd) 0) with false
      by (symmetry; apply Qltb_false; lra).
    reflexivity.
  - apply Qeq_bool_neq in E. right. cbn [JS.mul JS.within].
    apply Q_ratio_bounds; lra.
Qed.

End OneSeason.

(** ** Statistical analyzer: the result *)

Lemma contributing_nil (data : list SeasonData) :
  (forall d, In d data -> contributes d = false) -> contributing data = [].
Proof.
  unfold contributing. induction data as [|d data IH]; intro H; simpl.
  - reflexivity.
  - rewrite (H d (or_introl Logic.eq_refl)). apply IH.
    intros x Hx. apply H. now right.
Qed.

Lemma blend_no_contribution (data : list SeasonData) :
  contributing data = [] -> blend data = neutralStats.
Proof.
  intro H. rewrite blend_means, H. reflexivity.
Qed.

Lemma noQualifyingSeason_contributing (ds : DataSource) (teamId : Z) :
  noQualifyingSeason ds teamId ->
  contributing (multiSeasonData ds teamId) = [].
Proof.
  intro Hno. apply contributing_nil. intros d Hd.
  destruct (multiSeasonData_origin ds teamId d Hd) as (sw & Hsw & _ & Hsrc).
  destruct (Hno sw Hsw) as [Hdb Hapi].
  unfold contributes.
  destruct Hsrc as [(stats & Hst & Hcall)|(ts & Hst & Hcall)]; rewrite Hst.
  - destruct (played stats) as [p|] eqn:Hp; [|reflexivity].
    specialize (Hapi stats p Hcall Hp).
    rewrite Z.gtb_ltb. apply Z.ltb_ge. exact Hapi.
  - simpl. specialize (Hdb ts Hcall).
    rewrite Z.gtb_ltb. apply Z.ltb_ge. exact Hdb.
Qed.

(** C5.  When no configured season gives the team a record with
    [played > 0] (from the database, or from the API when a key is
    configured), [analyzeTeamStatistics] returns, and returns exactly the
    neutral statistics: homeAdvantage 50, goalDifferential 0,
    cleanSheetRatio 0, scoringConsistency 50, defensiveStrength 50,
    attackingStrength 50. *)
Theorem analyzeTeamStatistics_neutral :
  forall (ds : DataSource) (teamId : Z),
    noQualifyingSeason ds teamId ->
    analyzeTeamStatistics ds teamId
    = Ok {| homeAdvantage := Fin 50;
            goalDifferential := Fin 0;
            cleanSheetRatio := Fin 0;
            scoringConsistency := Fin 50;
            defensiveStrength := Fin 50;
            attackingStrength := Fin 50 |}.
Proof.
  intros ds teamId Hno. rewrite analyzeTeamStatistics_blend.
  rewrite blend_no_contribution
    by (apply noQualifyingSeason_contributing; exact Hno).
  reflexivity.
Qed.

(** The result of [analyzeTeamStatistics] for every team and every state
    of the collaborators: four of the five scores lie in [0, 100], the goal
    differential is a rational, and the home advantage lies in [0, 100] or
    is NaN. *)
Lemma analyzeTeamStatistics_ranges (ds : DataSource) (teamId : Z) :
  exists r,
    analyzeTeamStatistics ds teamId = Ok r
    /\ nanOrWithin 0 100 (homeAdvantage r)
    /\ JS.finite (goalDifferential r)
    /\ JS.within 0 100 (cleanSheetRatio r)
    /\ JS.within 0 100 (scoringConsistency r)
    /\ JS.within 0 100 (defensiveStrength r)
    /\ JS.within 0 100 (attackingStrength r).
Proof.
  rewrite analyzeTeamStatistics_blend. eexists; split; [reflexivity|].
  set (data := multiSeasonData ds teamId).
  assert (Hw : positiveWeights data)
    by (intros d Hd; eapply multiSeasonData_weights; exact Hd).
  destruct (contributing data) as [|d0 c] eqn:Hc.
  - rewrite (blend_no_contribution data Hc). unfold nanOrWithin. simpl.
    unfold inject_Z. split; [right; split; lra|]. repeat split; lra.
  - assert (Hne : contributing data <> []) by (rewrite Hc; discriminate).
    rewrite blend_means, (weightSum_nonzero Hw Hne).
    cbn [homeAdvantage goalDifferential cleanSheetRatio scoringConsistency
         defensiveStrength attackingStrength].
    assert (Hfin : forall f,
               (forall stats p, played stats = Some p -> (0 < p)%Z ->
                                JS.finite (f stats)) ->
               JS.finite (weightedMean f data)).
    { intros f Hf. apply weightedMean_finite; [exact Hw | exact Hne |].
      intros d Hd. apply filter_In in Hd. destruct Hd as [_ Hd].
      destruct (contributes_inv d Hd) as (stats & p & Hst & Hp & Hpos).
      unfold onSeason. rewrite Hst. eapply Hf; eauto. }
    assert (Hcl : forall x, JS.finite x -> JS.within 0 100 (clampStat x)).
    { intros x Hx. apply clampStat_within. intros ->. exact Hx. }
    split; [|split; [|repeat split]].
    + destruct (weightedMean Season.homeAdvantage data) eqn:E;
        try (right; apply clampStat_within; discriminate).
      left. reflexivity.
    + apply Hfin. intros. exact I.
    + apply Hcl, Hfin, season_cleanSheetRatio_finite.
    + apply Hcl, Hfin, season_scoringConsistency_finite.
    + apply Hcl, Hfin, season_defensiveStrength_finite.
    + apply Hcl, Hfin, season_attackingStrength_finite.
Qed.


(** C7.  A contributing season in which the team played no home match
    (its first matches of a season were away) makes the home advantage of
    the result NaN, which lies in no range: the guard of the loop is
    [played > 0] while the division is by the number of home matches.  The
    four other scores of the result lie in [0, 100]. *)
Theorem analyzeTeamStatistics_homeAdvantage_NaN :
  forall (ds : DataSource) (teamId : Z) (d : SeasonData)
         (stats : StatsRecord) (p : Z),
    In d (multiSeasonData ds teamId) ->
    sd_stats d = Some stats ->
    played stats = Some p -> (0 < p)%Z ->
    orZero (home_wins stats) = 0%Z ->
    orZero (home_draws stats) = 0%Z ->
    orZero (home_losses stats) = 0%Z ->
    exists r,
      analyzeTeamStatistics ds teamId = Ok r
      /\ homeAdvantage r = NaN
      /\ ~ JS.within 0 100 (homeAdvantage r)
      /\ JS.within 0 100 (cleanSheetRatio r)
      /\ JS.within 0 100 (scoringConsistency r)
      /\ JS.within 0 100 (defensiveStrength r)
      /\ JS.within 0 100 (attackingStrength r).
Proof.
  intros ds teamId d stats p Hin Hst Hp Hpos Hw0 Hd0 Hl0.
  destruct (analyzeTeamStatistics_ranges ds teamId)
    as (r & Hr & _ & _ & H1 & H2 & H3 & H4).
  exists r. split; [exact Hr|].
  assert (Hna : homeAdvantage r = NaN).
  { rewrite analyzeTeamStatistics_blend in Hr. injection Hr as <-.
    set (data := multiSeasonData ds teamId) in *.
    assert (Hw : positiveWeights data)
      by (intros x Hx; eapply multiSeasonData_weights; exact Hx).
    assert (Hc : In d (contributing data)).
    { apply filter_In. split; [exact Hin|]. unfold contributes.
      rewrite Hst, Hp. now apply Z.gtb_lt. }
    assert (Hne : contributing data <> [])
      by (intro E; rewrite E in Hc; contradiction).
    rewrite blend_means, (weightSum_nonzero Hw Hne).
    cbn [homeAdvantage]. unfold weightedMean.
    rewrite (@weightedSum_NaN_term (onSeason Season.homeAdvantage)
               (contributing data) d 0%Z Hc).
    - reflexivity.
    - unfold onSeason. rewrite Hst.
      now apply season_homeAdvantage_NaN. }
  rewrite Hna. repeat split; auto.
Qed.

Lemma analyzeTeamStatistics_neutral_witness :
  analyzeTeamStatistics (Example.source Example.emptyDb) 33
  = Ok {| homeAdvantage := Fin 50;
          goalDifferential := Fin 0;
          cleanSheetRatio := Fin 0;
          scoringConsistency := Fin 50;
          defensiveStrength := Fin 50;
          attackingStrength := Fin 50 |}.
Proof.
  apply analyzeTeamStatistics_neutral.
  intros sw _. split.
  - intros ts H. discriminate H.
  - intros stats p H. discriminate H.
Defined.


Lemma analyzeTeamStatistics_homeAdvantage_NaN_witness :
  exists r,
    analyzeTeamStatistics (Example.source Example.awayOnlyDb) 33 = Ok r
    /\ homeAdvantage r = NaN
    /\ ~ JS.within 0 100 (homeAdvantage r)
    /\ JS.within 0 100 (cleanSheetRatio r)
    /\ JS.within 0 100 (scoringConsistency r)
    /\ JS.within 0 100 (defensiveStrength r)
    /\ JS.within 0 100 (attackingStrength r).
Proof.
  apply (@analyzeTeamStatistics_homeAdvantage_NaN
           (Example.source Example.awayOnlyDb) 33
           {| sd_season := 2025;
              sd_stats := Some (asRecord Example.afterOneAwayMatch);
              sd_weight := lit 5 10 |}
           (asRecord Example.afterOneAwayMatch) 1).
  - vm_compute. left. reflexivity.
  - reflexivity.
  - reflexivity.
  - lia.
  - reflexivity.
  - reflexivity.
  - reflexivity.
Defined.

(** ** Equal numbers give equal results *)

Lemma Qltb_compat (a a' b b' : Q) :
  a == a' -> b == b' -> JS.Qltb a b = JS.Qltb a' b'.
Proof.
  intros Ha Hb.
  destruct (JS.Qltb a b) eqn:E, (JS.Qltb a' b') eqn:E'; try reflexivity.
  - apply Qltb_true in E. apply Qltb_false in E'. lra.
  - apply Qltb_false in E. apply Qltb_true in E'. lra.
Qed.

Lemma signedInf_compat (a a' : Q) :
  a == a' -> JS.signedInf a = JS.signedInf a'.
Proof.
  intro H. unfold JS.signedInf.
  rewrite (@Qltb_compat 0 0 a a'), (@Qltb_compat a a' 0 0);
    try reflexivity; exact H.
Qed.

#[export] Instance add_compat : Proper (JS.eq ==> JS.eq ==> JS.eq) JS.add.
Proof.
  intros a a' Ha b b' Hb.
  destruct a, a'; try contradiction; destruct b, b'; try contradiction;
    simpl in *; auto. now rewrite Ha, Hb.
Qed.

#[export] Instance neg_compat : Proper (JS.eq ==> JS.eq) JS.neg.
Proof.
  intros a a' Ha. destruct a, a'; try contradiction; simpl in *; auto.
  now rewrite Ha.
Qed.

#[export] Instance sub_compat : Proper (JS.eq ==> JS.eq ==> JS.eq) JS.sub.
Proof.
  intros a a' Ha b b' Hb. unfold JS.sub. now rewrite Ha, Hb.
Qed.

#[export] Instance mul_compat : Proper (JS.eq ==> JS.eq ==> JS.eq) JS.mul.
Proof.
  intros a a' Ha b b' Hb.
  destruct a as [x| | |], a' as [x'| | |]; try contradiction;
    destruct b as [y| | |], b' as [y'| | |]; try contradiction;
    simpl in *; auto.
  - now rewrite Ha, Hb.
  - rewrite (signedInf_compat Ha). reflexivity.
  - rewrite (@signedInf_compat (- x) (- x')) by (now rewrite Ha). reflexivity.
  - rewrite (signedInf_compat Hb). reflexivity.
  - rewrite (@signedInf_compat (- y) (- y')) by (now rewrite Hb). reflexivity.
Qed.

(** ** Outcome scorer: the factors *)

Lemma clampFactor_Fin (x : Q) :
  clampFactor (Fin x)
  = Fin (if JS.Qltb 100 x then 100 else if JS.Qltb x 0 then 0 else x).
Proof.
  unfold clampFactor. change (JS.ofZ 0) with (Fin 0).
  change (JS.ofZ 100) with (Fin 100). rewrite min_Fin.
  destruct (JS.Qltb 100 x); rewrite max_Fin; [reflexivity|].
  now destruct (JS.Qltb x 0).
Qed.

Lemma clampFactor_within (x : num) :
  x <> NaN -> JS.within 0 100 (clampFactor x).
Proof.
  intro Hx. destruct x as [q| | |]; [| | |contradiction].
  - rewrite clampFactor_Fin.
    destruct (JS.Qltb 100 q) eqn:E; simpl; [lra|].
    apply Qltb_false in E.
    destruct (JS.Qltb q 0) eqn:E'; [lra|]. apply Qltb_false in E'. lra.
  - vm_compute. split; discriminate.
  - vm_compute. split; discriminate.
Qed.

(** [clamp(50 + d) + clamp(50 - d) = 100] for every number [d]. *)
Lemma clampFactor_complement (d : num) :
  d <> NaN ->
  (clampFactor (50%Z + d) + clampFactor (50%Z - d) == 100%Z)%num.
Proof.
  intro Hd. destruct d as [q| | |]; [| | |contradiction].
  - unfold JS.sub, JS.ofZ. cbn [JS.neg JS.add].
    rewrite !clampFactor_Fin. change (inject_Z 50) with 50.
    change (inject_Z 100) with 100.
    destruct (JS.Qltb 100 (50 + q)) eqn:E1;
      [apply Qltb_true in E1 | apply Qltb_false in E1];
      destruct (JS.Qltb 100 (50 + - q)) eqn:E2;
      [apply Qltb_true in E2 | apply Qltb_false in E2
      |apply Qltb_true in E2 | apply Qltb_false in E2];
      destruct (JS.Qltb (50 + q) 0) eqn:E3;
      [apply Qltb_true in E3 | apply Qltb_false in E3
      |apply Qltb_true in E3 | apply Qltb_false in E3
      |apply Qltb_true in E3 | apply Qltb_false in E3
      |apply Qltb_true in E3 | apply Qltb_false in E3];
      destruct (JS.Qltb (50 + - q) 0) eqn:E4;
      [apply Qltb_true in E4 | apply Qltb_false in E4
      |apply Qltb_true in E4 | apply Qltb_false in E4
      |apply Qltb_true in E4 | apply Qltb_false in E4
      |apply Qltb_true in E4 | apply Qltb_false in E4
      |apply Qltb_true in E4 | apply Qltb_false in E4
      |apply Qltb_true in E4 | apply Qltb_false in E4
      |apply Qltb_true in E4 | apply Qltb_false in E4
      |apply Qltb_true in E4 | apply Qltb_false in E4];
      simpl; lra.
  - reflexivity.
  - reflexivity.
Qed.

(** The form score of [analyzeTeamForm] over five matches is a rational. *)
Lemma analyzeTeamForm_finite (ds : DataSource) (teamId : Z) :
  exists fa,
    analyzeTeamForm ds teamId 5 = Ok fa /\ JS.finite (formScore fa).
Proof.
  unfold analyzeTeamForm.
  destruct (db_getTeamRecentForm ds teamId 5) as [ms|e];
    cbn [bind try_catch ret].
  - eexists; split; [reflexivity|]. unfold formOf. cbn [formScore].
    unfold JS.ofZ. rewrite div_Fin by (vm_compute; discriminate). exact I.
  - eexists; split; [reflexivity|]. exact I.
Qed.

(** What [generateMatchContext] builds, when it does not throw. *)
Lemma generateMatchContext_inv (ds : DataSource) (fx : Fixture)
  (context : MatchContext) :
  generateMatchContext ds fx = Ok context ->
  homeTeam context = teams_home fx
  /\ awayTeam context = teams_away fx
  /\ JS.finite (formScore (homeForm context))
  /\ JS.finite (formScore (awayForm context))
  /\ analyzeTeamStatistics ds (team_id (teams_home fx))
     = Ok (homeStats context)
  /\ analyzeTeamStatistics ds (team_id (teams_away fx))
     = Ok (awayStats context)
  /\ db_getHeadToHeadRecords ds (team_id (teams_home fx))
                             (team_id (teams_away fx)) 10
     = Ok (headToHeadRecord context)
  /\ ctx_homeAdvantage context = (HOME_ADVANTAGE_FACTOR * 100%Z)%num.
Proof.
  unfold generateMatchContext.
  destruct (analyzeTeamForm_finite ds (team_id (teams_home fx)))
    as (hf & -> & Hhf).
  destruct (analyzeTeamForm_finite ds (team_id (teams_away fx)))
    as (af & -> & Haf).
  rewrite !analyzeTeamStatistics_blend. cbn [bind].
  destruct (db_getHeadToHeadRecords ds _ _ 10) as [h2h|e]; cbn [bind ret];
    [|discriminate].
  intro H. injection H as <-. cbn. repeat split; assumption.
Qed.

(** The context fails to build exactly when the head-to-head query of the
    database throws. *)
Lemma generateMatchContext_fails (ds : DataSource) (fx : Fixture) (e : string) :
  generateMatchContext ds fx = Err e <->
  db_getHeadToHeadRecords ds (team_id (teams_home fx))
                          (team_id (teams_away fx)) 10 = Err e.
Proof.
  unfold generateMatchContext.
  destruct (analyzeTeamForm_finite ds (team_id (teams_home fx)))
    as (hf & -> & _).
  destruct (analyzeTeamForm_finite ds (team_id (teams_away fx)))
    as (af & -> & _).
  rewrite !analyzeTeamStatistics_blend. cbn [bind].
  destruct (db_getHeadToHeadRecords ds _ _ 10) as [h2h|e']; cbn [bind ret].
  - split; discriminate.
  - split; intro H; injection H as ->; reflexivity.
Qed.

Lemma generateMatchContext_formDifference (ds : DataSource) (fx : Fixture)
  (context : MatchContext) :
  generateMatchContext ds fx = Ok context ->
  JS.finite (formDifference context).
Proof.
  intro H. destruct (generateMatchContext_inv ds fx H)
    as (_ & _ & Hh & Ha & _).
  unfold formDifference.
  destruct (formScore (homeForm context)); try contradiction.
  destruct (formScore (awayForm context)); try contradiction.
  exact I.
Qed.


Lemma example_context_generated :
  generateMatchContext (Example.source Example.oneMatchDb) Example.upcoming
  = Ok Example.context.
Proof. reflexivity. Qed.


(** ** Outcome scorer: the composite scores *)


(** ** Outcome scorer: totality *)

Lemma predictMatch_try_fails (Exp : Q -> Q) (ds : DataSource) (fx : Fixture)
  (e : string) :
  predictMatch_try Exp ds fx = Err e <-> generateMatchContext ds fx = Err e.
Proof.
  unfold predictMatch_try.
  destruct (generateMatchContext ds fx) as [context|e'] eqn:Hc; cbn [bind].
  - destruct (analyzeHeadToHead_value ds (team_id (homeTeam context))
                (team_id (awayTeam context))) as (v & -> & _).
    cbn [bind ret]. split; discriminate.
  - split; intro H; injection H as ->; reflexivity.
Qed.


(** A failure inside an analyzer does not reach [predictMatch]: with every
    form and statistics query failing, the analyses are the neutral ones
    and the prediction is computed from them (its home-advantage factor is
    15, where the fallback has 0). *)
Lemma analyzer_failures_are_absorbed (Exp : Q -> Q) :
  exists r,
    analyzeTeamForm Example.historylessSource 33 5 = Ok neutralForm
    /\ analyzeTeamStatistics Example.historylessSource 33 = Ok neutralStats
    /\ predictMatch Exp Example.historylessSource Example.upcoming = Ok r
    /\ (homeFormScore (factors r) == 50%Z)%num
    /\ (awayFormScore (factors r) == 50%Z)%num
    /\ (headToHeadScore (factors r) == 50%Z)%num
    /\ (pf_homeAdvantage (factors r) == 15%Z)%num
    /\ (goalDifferenceFactor (factors r) == 50%Z)%num.
Proof.
  unfold predictMatch, predictMatch_try. cbn [bind ret try_catch].
  eexists. split; [reflexivity|]. split; [reflexivity|].
  split; [reflexivity|]. unfold scoreMatch.
  destruct (decide _ _) as [o c]. cbn [factors homeFormScore awayFormScore
    headToHeadScore pf_homeAdvantage goalDifferenceFactor].
  repeat split; vm_compute; reflexivity.
Qed.

(** The fallback of [predictMatch], when the head-to-head query of the
    context throws. *)
Lemma predictMatch_fallback_example (Exp : Q -> Q) :
  predictMatch Exp Example.brokenSource Example.upcoming
  = Ok fallbackPrediction.
Proof. reflexivity. Qed.

(** The two form factors of every prediction add up to 100. *)
Lemma predictMatch_form_factors (Exp : Q -> Q) (ds : DataSource)
  (fx : Fixture) :
  exists r,
    predictMatch Exp ds fx = Ok r
    /\ (homeFormScore (factors r) + awayFormScore (factors r)
        == 100%Z)%num.
Proof.
  unfold predictMatch, predictMatch_try.
  destruct (generateMatchContext ds fx) as [context|e] eqn:Hc; cbn [bind].
  - destruct (analyzeHeadToHead_value ds (team_id (homeTeam context))
                (team_id (awayTeam context))) as (v & -> & _).
    cbn [bind ret try_catch]. eexists. split; [reflexivity|].
    unfold scoreMatch. destruct (decide _ _) as [o c].
    cbn [factors homeFormScore awayFormScore].
    apply clampFactor_complement. intro E.
    pose proof (generateMatchContext_formDifference ds fx Hc) as Hf.
    rewrite E in Hf. exact Hf.
  - eexists. split; [reflexivity|]. vm_compute. reflexivity.
Qed.

(** ** Outcome scorer: the values the decision reads *)

Lemma round_within (lo hi : Z) (x : Q) :
  inject_Z lo <= x -> x <= inject_Z hi ->
  JS.within (inject_Z lo) (inject_Z hi) (JS.round (Fin x)).
Proof.
  intros Hlo Hhi. cbn [JS.round JS.within]. split.
  - apply inject_Z_le. rewrite <- (Qfloor_Z lo). apply Qfloor_resp_le. lra.
  - pose proof (Qfloor_le (x + (1 # 2))) as Hf.
    assert (H : inject_Z (Qfloor (x + (1 # 2))) < inject_Z (hi + 1)).
    { rewrite inject_Z_plus. change (inject_Z 1) with 1. lra. }
    rewrite <- Zlt_Qlt in H. apply inject_Z_le. lia.
Qed.

Lemma generateMatchContext_finite (ds : DataSource) (fx : Fixture)
  (context : MatchContext) :
  generateMatchContext ds fx = Ok context -> finiteContext context.
Proof.
  intro H.
  destruct (generateMatchContext_inv ds fx H)
    as (_ & _ & Hh & Ha & Hhs & Has & _ & Hadv).
  destruct (analyzeTeamStatistics_ranges ds (team_id (teams_home fx)))
    as (rh & Hrh & _ & H1 & H2 & _ & H3 & H4).
  destruct (analyzeTeamStatistics_ranges ds (team_id (teams_away fx)))
    as (ra & Hra & _ & H5 & H6 & _ & H7 & H8).
  rewrite Hhs in Hrh. injection Hrh as <-.
  rewrite Has in Hra. injection Hra as <-.
  unfold finiteContext, finiteStats. rewrite Hadv.
  repeat split; assumption.
Qed.

Ltac as_Fin :=
  repeat match goal with
    | H : JS.finite ?x |- _ =>
        let q := fresh "q" in
        destruct x as [q| | |]; [clear H | contradiction H ..]
    | H : JS.within _ _ ?x |- _ =>
        let q := fresh "q" in
        destruct x as [q| | |]; [simpl in H | contradiction H ..]
    end.

Lemma homeWinLogit_finite (context : MatchContext) :
  finiteContext context -> exists x, homeWinLogit context = Fin x.
Proof.
  unfold finiteContext, finiteStats, homeWinLogit.
  intros (H1 & H2 & (H3 & H4 & H5 & H6) & (H7 & H8 & H9 & H10) & H11).
  as_Fin. eexists. reflexivity.
Qed.

Lemma scoreDifference_finite (context : MatchContext) (h2hScore : num) :
  finiteContext context -> JS.finite h2hScore ->
  exists d,
    (homeScore context h2hScore - awayScore context h2hScore)%num = Fin d.
Proof.
  unfold finiteContext, finiteStats, homeScore, awayScore, homeFormScoreOf,
    awayFormScoreOf, formDifference.
  intros (H1 & H2 & (H3 & H4 & H5 & H6) & (H7 & H8 & H9 & H10) & H11) Hh.
  as_Fin. unfold JS.sub, JS.ofZ. cbn [JS.neg JS.add].
  rewrite !clampFactor_Fin. unfold FORM_WEIGHT, STATS_WEIGHT, lit,
    HOME_ADVANTAGE_FACTOR.
  cbn [JS.neg JS.add JS.mul].
  rewrite !div_Fin by (vm_compute; discriminate).
  cbn [JS.neg JS.add JS.mul]. eexists. reflexivity.
Qed.

Lemma max_Fin_spec (a b : Q) :
  exists m, JS.max (Fin a) (Fin b) = Fin m
            /\ a <= m /\ b <= m /\ (m = a \/ m = b).
Proof.
  rewrite max_Fin. destruct (JS.Qltb b a) eqn:E.
  - apply Qltb_true in E. exists a. repeat split; auto; lra.
  - apply Qltb_false in E. exists b. repeat split; auto; lra.
Qed.

Lemma div_one (q t : Q) : t == 1 -> q / t == q.
Proof.
  intro H. rewrite H. unfold Qdiv. change (/ 1) with 1. ring.
Qed.

Section Scorer_facts.

Variable Exp : Q -> Q.
Hypothesis Exp_pos : forall x, 0 < Exp x.

Lemma sigmoid_bounds (x : Q) : 0 < sigmoid Exp x /\ sigmoid Exp x < 1.
Proof.
  unfold sigmoid. pose proof (Exp_pos (- x)) as He. split.
  - apply Qlt_shift_div_l; lra.
  - apply Qlt_shift_div_r; lra.
Qed.

(** The three values of [calculateMLProbability], from the logit [x]: the
    total of the three probabilities is 1 by construction, so that the
    division by it changes nothing, and the floor of 0.1 is applied to
    the draw value after that division. *)
Lemma calculateMLProbability_values (context : MatchContext) (x : Q) :
  homeWinLogit context = Fin x ->
  exists hw dr aw,
    calculateMLProbability Exp context
    = {| homeWin := Fin hw; draw := Fin dr; awayWin := Fin aw |}
    /\ hw == sigmoid Exp x
    /\ aw == sigmoid Exp (- x * (8 # 10))
    /\ (1 - sigmoid Exp x - sigmoid Exp (- x * (8 # 10)) < 1 # 10 ->
        dr = 1 # 10)
    /\ (1 # 10 <= 1 - sigmoid Exp x - sigmoid Exp (- x * (8 # 10)) ->
        dr == 1 - sigmoid Exp x - sigmoid Exp (- x * (8 # 10))).
Proof.
  intro Hx. unfold calculateMLProbability. rewrite Hx.
  unfold lit. cbn [JS.neg exp JS.mul]. change (JS.ofZ 1) with (Fin 1).
  cbn [JS.add].
  pose proof (Exp_pos (- x)) as He1.
  pose proof (Exp_pos (- (- x * (8 # 10)))) as He2.
  rewrite !div_Fin by lra.
  change (1 / (1 + Exp (- x))) with (sigmoid Exp x).
  change (1 / (1 + Exp (- (- x * (8 # 10)))))
    with (sigmoid Exp (- x * (8 # 10))).
  set (h := sigmoid Exp x). set (a := sigmoid Exp (- x * (8 # 10))).
  unfold JS.sub. cbn [JS.neg JS.add].
  assert (Ht : h + (1 + - h + - a) + a == 1) by ring.
  rewrite !div_Fin by lra. rewrite max_Fin.
  eexists _, _, _. split; [reflexivity|].
  split; [apply div_one, Ht|]. split; [apply div_one, Ht|].
  assert (Hd : (1 + - h + - a) / (h + (1 + - h + - a) + a)
               == 1 - h - a).
  { rewrite (div_one _ Ht). ring. }
  split; intro Hc.
  - replace (JS.Qltb ((1 + - h + - a) / (h + (1 + - h + - a) + a)) (1 # 10))
      with true; [reflexivity|].
    symmetry. apply Qltb_true. rewrite Hd. exact Hc.
  - replace (JS.Qltb ((1 + - h + - a) / (h + (1 + - h + - a) + a)) (1 # 10))
      with false; [exact Hd|].
    symmetry. apply Qltb_false. rewrite Hd. exact Hc.
Qed.

End Scorer_facts.

(** ** Outcome scorer: the decision *)

Lemma decide_home (d : Q) (mlProbs : MLProbs) :
  10 < d ->
  decide (Fin d) mlProbs
  = (HOME_WIN, JS.min 95%Z (60%Z + Fin d / 2%Z)%num).
Proof.
  intro H. unfold decide. cbn [JS.gtb JS.ofZ].
  change (inject_Z 10) with 10.
  now rewrite (proj2 (Qltb_true 10 d) H).
Qed.

Lemma decide_away (d : Q) (mlProbs : MLProbs) :
  d < -10 ->
  decide (Fin d) mlProbs
  = (AWAY_WIN, JS.min 95%Z (60%Z + JS.abs (Fin d) / 2%Z)%num).
Proof.
  intro H. unfold decide, JS.ltb. cbn [JS.gtb JS.ofZ].
  change (inject_Z 10) with 10. change (inject_Z (-10)) with (-10).
  rewrite (proj2 (Qltb_false 10 d)) by lra.
  now rewrite (proj2 (Qltb_true d (-10)) H).
Qed.

Lemma decide_close (d : Q) (mlProbs : MLProbs) :
  -10 <= d -> d <= 10 ->
  decide (Fin d) mlProbs
  = let maxProb :=
      JS.max3 (homeWin mlProbs) (draw mlProbs) (awayWin mlProbs) in
    (if JS.eqb maxProb (homeWin mlProbs) then HOME_WIN
     else if JS.eqb maxProb (awayWin mlProbs) then AWAY_WIN
     else DRAW,
     JS.min 75%Z (45%Z + maxProb * 30%Z)%num).
Proof.
  intros H1 H2. unfold decide, JS.ltb. cbn [JS.gtb JS.ofZ].
  change (inject_Z 10) with 10. change (inject_Z (-10)) with (-10).
  rewrite (proj2 (Qltb_false 10 d)) by lra.
  now rewrite (proj2 (Qltb_false d (-10))) by lra.
Qed.

Lemma confidence_home_within (d : Q) :
  10 < d ->
  JS.within 30 95 (JS.round (JS.min 95%Z (60%Z + Fin d / 2%Z)%num)).
Proof.
  intro H. unfold JS.ofZ. rewrite div_Fin by (vm_compute; discriminate).
  cbn [JS.add]. rewrite min_Fin.
  change (inject_Z 95) with 95. change (inject_Z 60) with 60.
  change (inject_Z 2) with 2.
  assert (Hh : 5 < d / 2) by (apply Qlt_shift_div_l; lra).
  set (half := d / 2) in *. clearbody half.
  apply (@round_within 30 95).
  - change (inject_Z 30) with 30.
    destruct (JS.Qltb 95 (60 + half)); lra.
  - change (inject_Z 95) with 95.
    destruct (JS.Qltb 95 (60 + half)) eqn:E; [lra|].
    apply Qltb_false in E. exact E.
Qed.

Lemma confidence_away_within (d : Q) :
  d < -10 ->
  JS.within 30 95
            (JS.round (JS.min 95%Z (60%Z + JS.abs (Fin d) / 2%Z)%num)).
Proof.
  intro H. unfold JS.ofZ. cbn [JS.abs].
  rewrite div_Fin by (vm_compute; discriminate).
  cbn [JS.add]. rewrite min_Fin.
  change (inject_Z 95) with 95. change (inject_Z 60) with 60.
  change (inject_Z 2) with 2.
  assert (Ha : Qabs d == - d) by (apply Qabs_neg; lra).
  assert (Hh : 5 < Qabs d / 2)
    by (apply Qlt_shift_div_l; [lra | rewrite Ha; lra]).
  set (half := Qabs d / 2) in *. clearbody half.
  apply (@round_within 30 95).
  - change (inject_Z 30) with 30.
    destruct (JS.Qltb 95 (60 + half)); lra.
  - change (inject_Z 95) with 95.
    destruct (JS.Qltb 95 (60 + half)) eqn:E; [lra|].
    apply Qltb_false in E. exact E.
Qed.

(** The close-match branch, for three rational probabilities of which the
    draw one is at least 0.1. *)
Lemma close_match (hw dr aw : Q) :
  1 # 10 <= dr ->
  let mlProbs := {| homeWin := Fin hw; draw := Fin dr; awayWin := Fin aw |} in
  let maxProb := JS.max3 (Fin hw) (Fin dr) (Fin aw) in
  let o := if JS.eqb maxProb (Fin hw) then HOME_WIN
           else if JS.eqb maxProb (Fin aw) then AWAY_WIN
           else DRAW in
  isArgmax mlProbs o
  /\ JS.eqb maxProb (probOf mlProbs o) = true
  /\ JS.within 30 95 (JS.round (JS.min 75%Z (45%Z + maxProb * 30%Z)%num)).
Proof.
  intros Hdr mlProbs maxProb o. subst maxProb o. unfold JS.max3.
  destruct (max_Fin_spec hw dr) as (m1 & -> & Hm1a & Hm1b & Hm1c).
  destruct (max_Fin_spec m1 aw) as (m & -> & Hma & Hmb & Hmc).
  cbn [JS.eqb].
  assert (Harg : forall o', probOf mlProbs o' = Fin hw
                            \/ probOf mlProbs o' = Fin dr
                            \/ probOf mlProbs o' = Fin aw)
    by (intros []; simpl; auto).
  assert (Hle : forall o', exists q, probOf mlProbs o' = Fin q /\ q <= m).
  { intros []; simpl; eexists; (split; [reflexivity|]); lra. }
  assert (Hkey : forall o, (exists q, probOf mlProbs o = Fin q /\ q == m) ->
                 isArgmax mlProbs o
                 /\ JS.eqb (Fin m) (probOf mlProbs o) = true).
  { intros o0 (q & Hq & Hqm). split.
    - intro o'. destruct (Hle o') as (q' & Hq' & Hq'm).
      rewrite Hq, Hq'. cbn [JS.gtb]. apply Qltb_false. lra.
    - rewrite Hq. cbn [JS.eqb]. apply Qeq_bool_iff. now symmetry. }
  split; [|split].
  - destruct (Qeq_bool m hw) eqn:E1.
    + apply Hkey. exists hw. split; [reflexivity|].
      apply Qeq_bool_iff in E1. now symmetry.
    + destruct (Qeq_bool m aw) eqn:E2.
      * apply Hkey. exists aw. split; [reflexivity|].
        apply Qeq_bool_iff in E2. now symmetry.
      * apply Hkey. exists dr. split; [reflexivity|].
        apply Qeq_bool_neq in E1. apply Qeq_bool_neq in E2.
        destruct Hmc as [->| ->]; [|exfalso; apply E2; reflexivity].
        destruct Hm1c as [->| ->]; [exfalso; apply E1|]; reflexivity.
  - destruct (Qeq_bool m hw) eqn:E1.
    + apply Hkey. exists hw. split; [reflexivity|].
      apply Qeq_bool_iff in E1. now symmetry.
    + destruct (Qeq_bool m aw) eqn:E2.
      * apply Hkey. exists aw. split; [reflexivity|].
        apply Qeq_bool_iff in E2. now symmetry.
      * apply Hkey. exists dr. split; [reflexivity|].
        apply Qeq_bool_neq in E1. apply Qeq_bool_neq in E2.
        destruct Hmc as [->| ->]; [|exfalso; apply E2; reflexivity].
        destruct Hm1c as [->| ->]; [exfalso; apply E1|]; reflexivity.
  - unfold JS.ofZ. cbn [JS.mul JS.add]. rewrite min_Fin.
    change (inject_Z 75) with 75. change (inject_Z 45) with 45.
    change (inject_Z 30) with 30.
    apply (@round_within 30 95).
    + change (inject_Z 30) with 30.
      destruct (JS.Qltb 75 (45 + m * 30)); lra.
    + change (inject_Z 95) with 95.
      destruct (JS.Qltb 75 (45 + m * 30)) eqn:E; [lra|].
      apply Qltb_false in E. lra.
Qed.

Section Decision.

Variable Exp : Q -> Q.
Hypothesis Exp_pos : forall x, 0 < Exp x.

(** The probabilities of the model are rationals, the draw one at least
    0.1. *)
Lemma calculateMLProbability_finite (context : MatchContext) :
  finiteContext context ->
  exists hw dr aw,
    calculateMLProbability Exp context
    = {| homeWin := Fin hw; draw := Fin dr; awayWin := Fin aw |}
    /\ 0 <= hw /\ 1 # 10 <= dr /\ 0 <= aw.
Proof.
  intro Hf. destruct (homeWinLogit_finite Hf) as (x & Hx).
  destruct (@calculateMLProbability_values Exp Exp_pos context x Hx)
    as (hw & dr & aw & Hml & Hhw & Haw & Hfloor & Hkeep).
  exists hw, dr, aw. split; [exact Hml|].
  pose proof (@sigmoid_bounds Exp Exp_pos x) as [Hh _].
  pose proof (@sigmoid_bounds Exp Exp_pos (- x * (8 # 10))) as [Ha _].
  split; [lra|]. split; [|lra].
  destruct (Qlt_le_dec (1 - sigmoid Exp x - sigmoid Exp (- x * (8 # 10)))
                       (1 # 10)) as [Hc|Hc].
  - rewrite (Hfloor Hc). lra.
  - rewrite (Hkeep Hc). exact Hc.
Qed.


End Decision.

(** ** The stand-in exponential *)

Lemma Qle_bool_false (a b : Q) : Qle_bool a b = false -> b < a.
Proof.
  intro H. apply Qnot_le_lt. intro Hle. apply Qle_bool_iff in Hle.
  congruence.
Qed.

Lemma pexp_pos (x : Q) : 0 < pexp x.
Proof.
  unfold pexp. destruct (Qle_bool 0 x) eqn:E.
  - apply Qle_bool_iff in E. lra.
  - apply Qle_bool_false in E. apply Qlt_shift_div_l; lra.
Qed.

Lemma pexp_opp (x : Q) : pexp (- x) == / pexp x.
Proof.
  unfold pexp.
  destruct (Qle_bool 0 x) eqn:E1; destruct (Qle_bool 0 (- x)) eqn:E2.
  - apply Qle_bool_iff in E1. apply Qle_bool_iff in E2.
    assert (Hx : x == 0) by lra. rewrite Hx. reflexivity.
  - apply Qle_bool_iff in E1. apply Qle_bool_false in E2.
    field. lra.
  - apply Qle_bool_false in E1. apply Qle_bool_iff in E2.
    field. lra.
  - apply Qle_bool_false in E1. apply Qle_bool_false in E2. lra.
Qed.

Lemma pexp_mono (x y : Q) : x < y -> pexp x < pexp y.
Proof.
  intro H. unfold pexp.
  destruct (Qle_bool 0 x) eqn:E1; destruct (Qle_bool 0 y) eqn:E2.
  - lra.
  - apply Qle_bool_iff in E1. apply Qle_bool_false in E2. lra.
  - apply Qle_bool_false in E1. apply Qle_bool_iff in E2.
    apply Qlt_le_trans with 1; [|lra].
    apply Qlt_shift_div_r; lra.
  - apply Qle_bool_false in E1. apply Qle_bool_false in E2.
    apply Qlt_shift_div_r; [lra|].
    setoid_replace (1 / (1 - y) * (1 - x)) with ((1 - x) / (1 - y))
      by (field; lra).
    apply Qlt_shift_div_l; lra.
Qed.



(** ** Outcome scorer: the probabilities of the model *)

Section Probabilities.

Variable Exp : Q -> Q.
Hypothesis Exp_pos : forall x, 0 < Exp x.
Hypothesis Exp_opp : forall x, Exp (- x) == / Exp x.
Hypothesis Exp_mono : forall x y, x < y -> Exp x < Exp y.

(** For a positive logit the two win probabilities already exceed 1. *)
Lemma sigmoids_exceed_one (x : Q) :
  0 < x -> 1 < sigmoid Exp x + sigmoid Exp (- x * (8 # 10)).
Proof.
  intro Hx. unfold sigmoid.
  pose proof (Exp_pos x) as HE.
  pose proof (Exp_pos (- x)) as Hu.
  pose proof (Exp_pos (- (- x * (8 # 10)))) as Hv.
  assert (Hvlt : Exp (- (- x * (8 # 10))) < Exp x)
    by (apply Exp_mono; lra).
  assert (HuE : Exp (- x) * Exp x == 1).
  { rewrite Exp_opp. rewrite Qmult_comm. apply Qmult_inv_r. lra. }
  set (u := Exp (- x)) in *. set (v := Exp (- (- x * (8 # 10)))) in *.
  set (E := Exp x) in *. clearbody u v E.
  assert (Huv : u * v < 1).
  { rewrite <- HuE. apply Qmult_lt_l; assumption. }
  assert (Hpos : 0 < (1 + u) * (1 + v))
    by (apply Qmult_lt_0_compat; lra).
  assert (Heq : 1 / (1 + u) + 1 / (1 + v) - 1
                == (1 - u * v) / ((1 + u) * (1 + v)))
    by (field; split; lra).
  assert (Hgt : 0 < (1 - u * v) / ((1 + u) * (1 + v)))
    by (apply Qlt_shift_div_l; lra).
  lra.
Qed.

(** C3.  The three values returned by [calculateMLProbability] are not
    negative, and the draw value is at least 0.1; but the floor is applied
    after the division by the total, and nothing is divided again: the
    three values add up to 1 only when the draw probability left by the
    two others is at least 0.1, and to more than 1 otherwise.  For a
    positive logit (the home advantage alone contributes 7.6 to it) the
    draw probability left is negative, the draw value is the floor 0.1,
    and the sum exceeds 1.1. *)
Theorem calculateMLProbability_sum :
  forall (context : MatchContext) (x : Q),
    homeWinLogit context = Fin x ->
    exists hw dr aw,
      calculateMLProbability Exp context
      = {| homeWin := Fin hw; draw := Fin dr; awayWin := Fin aw |}
      /\ 0 <= hw /\ 1 # 10 <= dr /\ 0 <= aw
      /\ 1 <= hw + dr + aw
      /\ (hw + dr + aw == 1 <->
          1 # 10 <= 1 - sigmoid Exp x - sigmoid Exp (- x * (8 # 10)))
      /\ (0 < x -> dr = 1 # 10 /\ 11 # 10 < hw + dr + aw).
Proof.
  intros context x Hx.
  destruct (@calculateMLProbability_values Exp Exp_pos context x Hx)
    as (hw & dr & aw & Hml & Hhw & Haw & Hfloor & Hkeep).
  exists hw, dr, aw. split; [exact Hml|].
  pose proof (@sigmoid_bounds Exp Exp_pos x) as [Hh _].
  pose proof (@sigmoid_bounds Exp Exp_pos (- x * (8 # 10))) as [Ha _].
  set (h := sigmoid Exp x) in *.
  set (a := sigmoid Exp (- x * (8 # 10))) in *.
  destruct (Qlt_le_dec (1 - h - a) (1 # 10)) as [Hc|Hc].
  - pose proof (Hfloor Hc) as Hdr. rewrite Hdr.
    split; [lra|]. split; [lra|]. split; [lra|]. split; [lra|].
    split; [split; intro; lra|].
    intro Hpos. split; [reflexivity|].
    pose proof (sigmoids_exceed_one Hpos) as Hs. fold h a in Hs. lra.
  - pose proof (Hkeep Hc) as Hdr.
    split; [lra|]. split; [lra|]. split; [lra|]. split; [lra|].
    split; [split; intro; lra|].
    intro Hpos.
    pose proof (sigmoids_exceed_one Hpos) as Hs. fold h a in Hs. lra.
Qed.

End Probabilities.

Lemma calculateMLProbability_sum_witness :
  exists hw dr aw,
    calculateMLProbability pexp Example.context
    = {| homeWin := Fin hw; draw := Fin dr; awayWin := Fin aw |}
    /\ dr = 1 # 10 /\ 11 # 10 < hw + dr + aw.
Proof.
  destruct (@calculateMLProbability_sum pexp pexp_pos pexp_opp pexp_mono
              Example.context _ Logic.eq_refl)
    as (hw & dr & aw & Hml & _ & _ & _ & _ & _ & Hpos).
  exists hw, dr, aw. split; [exact Hml|]. apply Hpos.
  vm_compute. reflexivity.
Defined.

(** * Properties of the database, the routes and the reports *)

(** ** Arrays: [findIndex] and the replace-or-push of the [save] operations *)

Lemma findIndexFrom_offset {A} (p : A -> bool) (l : list A) :
  (forall j, findIndexFrom p j l = (-1)%Z)
  \/ (exists k : nat, forall j, findIndexFrom p j l = (j + Z.of_nat k)%Z).
Proof.
  induction l as [|x l IH]; [left; reflexivity|]. cbn [findIndexFrom].
  destruct (p x).
  - right. exists 0%nat. intro j. cbn. lia.
  - destruct IH as [IH|(k & IH)].
    + left. intro j. apply IH.
    + right. exists (S k). intro j. rewrite IH. lia.
Qed.

Lemma upsert_nil {A} (p : A -> bool) (x : A) : upsert p x [] = [x].
Proof. reflexivity. Qed.

Lemma upsert_cons {A} (p : A -> bool) (x y : A) (l : list A) :
  upsert p x (y :: l) = if p y then x :: l else y :: upsert p x l.
Proof.
  unfold upsert, findIndex. cbn [findIndexFrom]. destruct (p y).
  - reflexivity.
  - destruct (findIndexFrom_offset p l) as [H|(k & H)].
    + rewrite !H. reflexivity.
    + rewrite !H.
      rewrite (proj2 (Z.geb_le (0 + 1 + Z.of_nat k) 0)) by lia.
      rewrite (proj2 (Z.geb_le (0 + Z.of_nat k) 0)) by lia.
      replace (Z.to_nat (0 + 1 + Z.of_nat k)) with (S k) by lia.
      replace (Z.to_nat (0 + Z.of_nat k)) with k by lia.
      reflexivity.
Qed.

Lemma find_upsert_same {A} (p : A -> bool) (x : A) (l : list A) :
  p x = true -> find p (upsert p x l) = Some x.
Proof.
  intro Hx. induction l as [|y l IH].
  - cbn. now rewrite Hx.
  - rewrite upsert_cons. destruct (p y) eqn:E; cbn [find].
    + now rewrite Hx.
    + now rewrite E.
Qed.

Lemma find_upsert_other {A} (p q : A -> bool) (x : A) (l : list A) :
  q x = false -> (forall y, p y = true -> q y = false) ->
  find q (upsert p x l) = find q l.
Proof.
  intros Hx Hpq. induction l as [|y l IH].
  - cbn. now rewrite Hx.
  - rewrite upsert_cons. destruct (p y) eqn:E; cbn [find].
    + now rewrite Hx, (Hpq y E).
    + destruct (q y); [reflexivity | exact IH].
Qed.

Lemma length_upsert {A} (p : A -> bool) (x : A) (l : list A) :
  List.length (upsert p x l)
  = if existsb p l then List.length l else S (List.length l).
Proof.
  induction l as [|y l IH]; [reflexivity|].
  rewrite upsert_cons. cbn [existsb]. destruct (p y); cbn [orb List.length].
  - reflexivity.
  - rewrite IH. now destruct (existsb p l).
Qed.

Lemma In_upsert {A} (p : A -> bool) (x z : A) (l : list A) :
  In z (upsert p x l) -> z = x \/ In z l.
Proof.
  induction l as [|y l IH].
  - cbn. intros [->|[]]. now left.
  - rewrite upsert_cons. destruct (p y); cbn [In].
    + intros [->|H]; auto.
    + intros [->|H]; auto. destruct (IH H); auto.
Qed.

(** The keys of the array after a save: unchanged when the key was there,
    one more at the end otherwise. *)
Lemma map_key_upsert {A} (key : A -> Z) (x : A) (l : list A) :
  map key (upsert (fun y => (key y =? key x)%Z) x l)
  = if existsb (fun y => (key y =? key x)%Z) l then map key l
    else map key l ++ [key x].
Proof.
  induction l as [|y l IH]; [reflexivity|].
  rewrite upsert_cons. cbn [existsb map].
  destruct (key y =? key x)%Z eqn:E; cbn [orb map].
  - apply Z.eqb_eq in E. now rewrite E.
  - rewrite IH. now destruct (existsb _ l).
Qed.

Lemma existsb_key_In {A} (key : A -> Z) (k : Z) (l : list A) :
  existsb (fun y => (key y =? k)%Z) l = true <-> In k (map key l).
Proof.
  rewrite existsb_exists, in_map_iff. split.
  - intros (y & Hy & E). apply Z.eqb_eq in E. eauto.
  - intros (y & E & Hy). exists y. split; [exact Hy|]. now apply Z.eqb_eq.
Qed.

Lemma NoDup_snoc {A} (l : list A) (x : A) :
  NoDup l -> ~ In x l -> NoDup (l ++ [x]).
Proof.
  intros Hl Hx. apply NoDup_app; [exact Hl | repeat constructor; intros [] | ].
  intros y Hy [<-|[]]. exact (Hx Hy).
Qed.

Lemma NoDup_key_upsert {A} (key : A -> Z) (x : A) (l : list A) :
  NoDup (map key l) ->
  NoDup (map key (upsert (fun y => (key y =? key x)%Z) x l)).
Proof.
  intro H. rewrite map_key_upsert.
  destruct (existsb _ l) eqn:E; [exact H|].
  apply NoDup_snoc; [exact H|].
  intro Hin. apply existsb_key_In in Hin. congruence.
Qed.

Lemma find_some_existsb {A} (p : A -> bool) (l : list A) :
  existsb p l = notNull (find p l).
Proof.
  induction l as [|y l IH]; [reflexivity|]. cbn. now destruct (p y).
Qed.

(** ** The database: predictions *)

Lemma getPredictionByFixtureId_savePrediction (s : MockDB) (p : Prediction)
  (fixtureId : Z) :
  Db.getPredictionByFixtureId (Db.savePrediction s p) fixtureId
  = if (fixture_id p =? fixtureId)%Z then Some p
    else Db.getPredictionByFixtureId s fixtureId.
Proof.
  unfold Db.getPredictionByFixtureId, Db.savePrediction. cbn [predictions].
  destruct (fixture_id p =? fixtureId)%Z eqn:E.
  - apply Z.eqb_eq in E. subst fixtureId.
    apply (find_upsert_same (fun q => (fixture_id q =? fixture_id p)%Z)).
    apply Z.eqb_refl.
  - apply find_upsert_other; [exact E|].
    intros y Hy. apply Z.eqb_eq in Hy. now rewrite Hy.
Qed.

Lemma find_key_upsert {A} (key : A -> Z) (x : A) (l : list A) (k : Z) :
  find (fun y => (key y =? k)%Z) (upsert (fun y => (key y =? key x)%Z) x l)
  = if (key x =? k)%Z then Some x else find (fun y => (key y =? k)%Z) l.
Proof.
  destruct (key x =? k)%Z eqn:E.
  - apply Z.eqb_eq in E. subst k.
    apply (find_upsert_same (fun y => (key y =? key x)%Z)). apply Z.eqb_refl.
  - apply find_upsert_other; [exact E|].
    intros y Hy. apply Z.eqb_eq in Hy. now rewrite Hy.
Qed.

Lemma find_snoc {A} (p : A -> bool) (l : list A) (x : A) :
  find p (l ++ [x])
  = match find p l with
    | Some y => Some y
    | None => if p x then Some x else None
    end.
Proof.
  induction l as [|y l IH]; [reflexivity|]. cbn. now destruct (p y).
Qed.

(** A batch of saves: the last element of the batch with the key wins. *)
Lemma find_key_fold_upsert {A} (key : A -> Z) (xs l : list A) (k : Z) :
  find (fun y => (key y =? k)%Z)
       (fold_left (fun l x => upsert (fun y => (key y =? key x)%Z) x l) xs l)
  = match find (fun y => (key y =? k)%Z) (rev xs) with
    | Some x => Some x
    | None => find (fun y => (key y =? k)%Z) l
    end.
Proof.
  revert l. induction xs as [|x xs IH]; intro l; [reflexivity|].
  cbn [fold_left rev]. rewrite IH, find_snoc, find_key_upsert.
  destruct (find _ (rev xs)); [reflexivity|].
  now destruct (key x =? k)%Z.
Qed.

Lemma fixtures_saveFixtures (s : MockDB) (fs : list Fixture) :
  fixtures (Db.saveFixtures s fs)
  = fold_left (fun l x => upsert (fun y => (fx_id y =? fx_id x)%Z) x l)
              fs (fixtures s).
Proof.
  unfold Db.saveFixtures. revert s.
  induction fs as [|f fs IH]; intro s; [reflexivity|].
  cbn [fold_left]. now rewrite IH.
Qed.

Lemma saveFixtures_frame (s : MockDB) (fs : list Fixture) :
  teams (Db.saveFixtures s fs) = teams s
  /\ teamStatistics (Db.saveFixtures s fs) = teamStatistics s
  /\ standings (Db.saveFixtures s fs) = standings s
  /\ predictions (Db.saveFixtures s fs) = predictions s.
Proof.
  unfold Db.saveFixtures. revert s.
  induction fs as [|f fs IH]; intro s; [repeat split|].
  cbn [fold_left]. destruct (IH (Db.saveFixture s f)) as (H1 & H2 & H3 & H4).
  rewrite H1, H2, H3, H4. repeat split.
Qed.

Lemma teams_saveTeams (s : MockDB) (ts : list Team) :
  teams (Db.saveTeams s ts)
  = fold_left (fun l x => upsert (fun y => (team_id y =? team_id x)%Z) x l)
              ts (teams s).
Proof.
  unfold Db.saveTeams. revert s.
  induction ts as [|t ts IH]; intro s; [reflexivity|].
  cbn [fold_left]. now rewrite IH.
Qed.

(** X1.  [saveFixtures] then [getFixtureById]: after a batch of fixtures
    is saved, the fixture found under an identifier is the last fixture of
    the batch with that identifier, and the one the database held before
    when the batch has none; the four other arrays are unchanged. *)
Theorem saveFixtures_last_wins :
  forall (s : MockDB) (fs : list Fixture) (id : Z),
    Db.getFixtureById (Db.saveFixtures s fs) id
    = match find (fun f => (fx_id f =? id)%Z) (rev fs) with
      | Some f => Some f
      | None => Db.getFixtureById s id
      end
    /\ teams (Db.saveFixtures s fs) = teams s
    /\ teamStatistics (Db.saveFixtures s fs) = teamStatistics s
    /\ standings (Db.saveFixtures s fs) = standings s
    /\ predictions (Db.saveFixtures s fs) = predictions s.
Proof.
  intros s fs id. split; [|apply saveFixtures_frame].
  unfold Db.getFixtureById. rewrite fixtures_saveFixtures.
  apply (find_key_fold_upsert fx_id).
Qed.

Lemma mock_teams_nonempty : Db.getMockTeams <> [].
Proof. discriminate. Qed.

(** X2.  [getTeams]: when the API key is configured and the API answers,
    the teams returned are those of the API, and each is then found in the
    cache under its identifier (the last of the answer where an identifier
    is repeated, the cached team for an identifier the answer does not
    have).  Without a key, or when the call throws, the database is
    unchanged and the list returned is never empty: the cached teams, or
    the twenty built-in teams when the cache is empty. *)
Theorem getTeams_synced_or_cached :
  forall (hasApiKey : bool) (apiTeams : Result (list Team)) (s : MockDB),
    (forall ts,
        hasApiKey = true -> apiTeams = Ok ts ->
        snd (Db.getTeams hasApiKey apiTeams s) = ts
        /\ forall id,
            Db.getTeamById (fst (Db.getTeams hasApiKey apiTeams s)) id
            = match find (fun t => (team_id t =? id)%Z) (rev ts) with
              | Some t => Some t
              | None => Db.getTeamById s id
              end)
    /\ (hasApiKey = false \/ (exists e, apiTeams = Err e) ->
        fst (Db.getTeams hasApiKey apiTeams s) = s
        /\ snd (Db.getTeams hasApiKey apiTeams s) <> []
        /\ (teams s <> [] ->
            snd (Db.getTeams hasApiKey apiTeams s) = teams s)
        /\ (teams s = [] ->
            snd (Db.getTeams hasApiKey apiTeams s) = Db.getMockTeams)).
Proof.
  intros hasApiKey apiTeams s. split.
  - intros ts -> ->. cbn [Db.getTeams fst snd]. split; [reflexivity|].
    intro id. unfold Db.getTeamById. rewrite teams_saveTeams.
    apply (find_key_fold_upsert team_id).
  - intro H.
    assert (E : Db.getTeams hasApiKey apiTeams s
                = (s, if (Z.of_nat (List.length (teams s)) >? 0)%Z
                      then teams s else Db.getMockTeams)).
    { unfold Db.getTeams. destruct H as [->|(e & ->)]; [reflexivity|].
      now destruct hasApiKey. }
    rewrite E. cbn [fst snd]. split; [reflexivity|].
    destruct (teams s) as [|t l] eqn:Et.
    + cbn. split; [discriminate|]. split; [congruence | reflexivity].
    + replace (Z.of_nat (List.length (t :: l)) >? 0)%Z with true.
      * split; [discriminate|]. split; [reflexivity | discriminate].
      * symmetry. apply Z.gtb_lt. cbn [List.length]. lia.
Qed.

Lemma getTeamStatistics_saveTeamStatistics_same (s : MockDB)
  (stats : TeamStatistics) :
  Db.getTeamStatistics (Db.saveTeamStatistics s stats)
                       (ts_team_id stats) (ts_season stats) = Some stats.
Proof.
  unfold Db.getTeamStatistics, Database.getTeamStatistics,
    Db.saveTeamStatistics, engineView. cbn [db_teamStatistics teamStatistics].
  apply (find_upsert_same
           (fun st => (ts_team_id st =? ts_team_id stats)%Z
                      && (ts_season st =? ts_season stats)%Z)).
  now rewrite !Z.eqb_refl.
Qed.

Lemma getTeamStatistics_saveTeamStatistics_other (s : MockDB)
  (stats : TeamStatistics) (teamId season : Z) :
  (teamId, season) <> (ts_team_id stats, ts_season stats) ->
  Db.getTeamStatistics (Db.saveTeamStatistics s stats) teamId season
  = Db.getTeamStatistics s teamId season.
Proof.
  intro Hne.
  unfold Db.getTeamStatistics, Database.getTeamStatistics,
    Db.saveTeamStatistics, engineView. cbn [db_teamStatistics teamStatistics].
  assert (Hk : forall y,
             (ts_team_id y =? ts_team_id stats)%Z
             && (ts_season y =? ts_season stats)%Z = true ->
             (ts_team_id y =? teamId)%Z && (ts_season y =? season)%Z = false).
  { intros y Hy. apply andb_true_iff in Hy. destruct Hy as [H1 H2].
    apply Z.eqb_eq in H1. apply Z.eqb_eq in H2. rewrite H1, H2.
    apply andb_false_iff.
    destruct (Z.eqb_spec (ts_team_id stats) teamId) as [E1|E1];
      [|now left].
    destruct (Z.eqb_spec (ts_season stats) season) as [E2|E2];
      [|now right].
    exfalso. apply Hne. now rewrite E1, E2. }
  apply find_upsert_other; [|exact Hk].
  apply Hk. now rewrite !Z.eqb_refl.
Qed.

Lemma dbSeasonData_complete (ds : DataSource) (teamId : Z)
  (seasons : list SeasonWeight) (sw : SeasonWeight) (ts : TeamStatistics) :
  In sw seasons ->
  db_getTeamStatistics ds teamId (sw_season sw) = Ok (Some ts) ->
  In {| sd_season := sw_season sw; sd_stats := Some (asRecord ts);
        sd_weight := sw_weight sw |}
     (dbSeasonData ds teamId seasons).
Proof.
  intros Hin Hdb. induction seasons as [|x seasons IH]; [contradiction|].
  cbn [dbSeasonData]. destruct Hin as [->|Hin].
  - rewrite Hdb. now left.
  - specialize (IH Hin).
    destruct (db_getTeamStatistics ds teamId (sw_season x)) as [[t|]|e];
      [right|..]; exact IH.
Qed.

Lemma multiSeasonData_mockSource (year month : Z) (db : MockDatabase)
  (teamId : Z) :
  multiSeasonData (mockSource year month db) teamId
  = dbSeasonData (mockSource year month db) teamId
                 (getAnalysisSeasons year month).
Proof. reflexivity. Qed.



(** ** The engine: every prediction *)

Lemma predictMatch_succeeds (Exp : Q -> Q) (ds : DataSource) (fx : Fixture) :
  exists r, predictMatch Exp ds fx = Ok r.
Proof.
  unfold predictMatch. destruct (predictMatch_try Exp ds fx); cbn; eauto.
Qed.

Lemma factors_scoreMatch (Exp : Q -> Q) (context : MatchContext) (v : num) :
  factors (scoreMatch Exp context v)
  = {| homeFormScore := homeFormScoreOf context;
       awayFormScore := awayFormScoreOf context;
       headToHeadScore := v;
       pf_homeAdvantage := (HOME_ADVANTAGE_FACTOR * 100%Z)%num;
       goalDifferenceFactor := goalDiffFactor context |}.
Proof. unfold scoreMatch. now destruct (decide _ _). Qed.

(** The two ways [predictMatch] returns: the fallback when the context
    cannot be built, the scored prediction otherwise. *)
Lemma predictMatch_cases (Exp : Q -> Q) (ds : DataSource) (fx : Fixture) :
  ((exists e, generateMatchContext ds fx = Err e)
   /\ predictMatch Exp ds fx = Ok fallbackPrediction)
  \/ exists context v,
      generateMatchContext ds fx = Ok context
      /\ finiteContext context
      /\ JS.finite (formDifference context)
      /\ analyzeHeadToHead ds (team_id (teams_home fx))
                           (team_id (teams_away fx)) = Ok v
      /\ JS.within 0 100 v
      /\ predictMatch Exp ds fx = Ok (scoreMatch Exp context v).
Proof.
  unfold predictMatch, predictMatch_try.
  destruct (generateMatchContext ds fx) as [context|e] eqn:Hc; cbn [bind].
  - right.
    destruct (generateMatchContext_inv ds fx Hc) as (Hhome & Haway & _).
    destruct (analyzeHeadToHead_value ds (team_id (teams_home fx))
                (team_id (teams_away fx))) as (v & Hv & Hvr & _).
    exists context, v. rewrite Hhome, Haway, Hv. cbn [bind ret try_catch].
    split; [reflexivity|].
    split; [exact (generateMatchContext_finite ds fx Hc)|].
    split; [exact (generateMatchContext_formDifference ds fx Hc)|].
    repeat split; assumption.
  - left. split; [eauto | reflexivity].
Qed.

Lemma form_factors_within (context : MatchContext) :
  JS.finite (formDifference context) ->
  JS.within 0 100 (homeFormScoreOf context)
  /\ JS.within 0 100 (awayFormScoreOf context).
Proof.
  unfold homeFormScoreOf, awayFormScoreOf. intro H.
  destruct (formDifference context) as [q| | |]; try contradiction.
  split; apply clampFactor_within; discriminate.
Qed.

Lemma goalDiffFactor_within (context : MatchContext) :
  finiteContext context -> JS.within 0 100 (goalDiffFactor context).
Proof.
  unfold finiteContext, finiteStats, goalDiffFactor.
  intros (_ & _ & (H1 & _) & (H2 & _) & _).
  destruct (goalDifferential (homeStats context)) as [a| | |];
    try contradiction.
  destruct (goalDifferential (awayStats context)) as [b| | |];
    try contradiction.
  apply clampFactor_within. discriminate.
Qed.

(** X4.  The factors of every prediction returned by [predictMatch],
    whatever the database and the API do: the two form scores, the
    head-to-head score and the goal-difference factor lie in [0, 100]; the
    home advantage is 0 on the fallback and 15 otherwise. *)
Theorem predictMatch_factors_in_range :
  forall (Exp : Q -> Q) (ds : DataSource) (fx : Fixture),
  exists r,
    predictMatch Exp ds fx = Ok r
    /\ JS.within 0 100 (homeFormScore (factors r))
    /\ JS.within 0 100 (awayFormScore (factors r))
    /\ JS.within 0 100 (headToHeadScore (factors r))
    /\ JS.within 0 100 (goalDifferenceFactor (factors r))
    /\ ((exists e, generateMatchContext ds fx = Err e)
        /\ pf_homeAdvantage (factors r) = Fin 0
        \/ (exists context, generateMatchContext ds fx = Ok context)
           /\ (pf_homeAdvantage (factors r) == 15%Z)%num).
Proof.
  intros Exp ds fx.
  destruct (predictMatch_cases Exp ds fx)
    as [(He & ->)|(context & v & Hc & Hfin & Hfd & _ & Hv & ->)];
    eexists; (split; [reflexivity|]).
  - assert (H50 : JS.within 0 100 (Fin 50))
      by (vm_compute; split; discriminate).
    cbn [fallbackPrediction factors homeFormScore awayFormScore
         headToHeadScore goalDifferenceFactor pf_homeAdvantage].
    change (JS.ofZ 50) with (Fin 50).
    do 4 (split; [exact H50|]).
    left. split; [exact He | reflexivity].
  - rewrite factors_scoreMatch.
    cbn [homeFormScore awayFormScore headToHeadScore goalDifferenceFactor
         pf_homeAdvantage].
    destruct (@form_factors_within context Hfd) as [Hh Ha].
    split; [exact Hh|]. split; [exact Ha|]. split; [exact Hv|].
    split; [exact (@goalDiffFactor_within context Hfin)|].
    right. split; [eauto | reflexivity].
Qed.

Lemma within_num_geb (lo hi b : Q) (x : num) :
  JS.within lo hi x -> b <= lo -> num_geb x (Fin b) = true.
Proof.
  destruct x as [q| | |]; cbn; try contradiction.
  intros [H _] Hb. apply Qle_bool_iff. lra.
Qed.

Lemma within_num_leb (lo hi b : Q) (x : num) :
  JS.within lo hi x -> hi <= b -> num_leb x (Fin b) = true.
Proof.
  destruct x as [q| | |]; cbn; try contradiction.
  intros [_ H] Hb. apply Qle_bool_iff. lra.
Qed.

Lemma confidence_home_range (d : Q) :
  10 < d ->
  JS.within 65 95 (JS.round (JS.min 95%Z (60%Z + Fin d / 2%Z)%num)).
Proof.
  intro H. unfold JS.ofZ. rewrite div_Fin by (vm_compute; discriminate).
  cbn [JS.add]. rewrite min_Fin.
  change (inject_Z 95) with 95. change (inject_Z 60) with 60.
  change (inject_Z 2) with 2.
  assert (Hh : 5 < d / 2) by (apply Qlt_shift_div_l; lra).
  set (half := d / 2) in *. clearbody half.
  apply (@round_within 65 95).
  - change (inject_Z 65) with 65.
    destruct (JS.Qltb 95 (60 + half)); lra.
  - change (inject_Z 95) with 95.
    destruct (JS.Qltb 95 (60 + half)) eqn:E; [lra|].
    apply Qltb_false in E. exact E.
Qed.

Lemma confidence_away_range (d : Q) :
  d < -10 ->
  JS.within 65 95
            (JS.round (JS.min 95%Z (60%Z + JS.abs (Fin d) / 2%Z)%num)).
Proof.
  intro H. unfold JS.ofZ. cbn [JS.abs].
  rewrite div_Fin by (vm_compute; discriminate).
  cbn [JS.add]. rewrite min_Fin.
  change (inject_Z 95) with 95. change (inject_Z 60) with 60.
  change (inject_Z 2) with 2.
  assert (Ha : Qabs d == - d) by (apply Qabs_neg; lra).
  assert (Hh : 5 < Qabs d / 2)
    by (apply Qlt_shift_div_l; [lra | rewrite Ha; lra]).
  set (half := Qabs d / 2) in *. clearbody half.
  apply (@round_within 65 95).
  - change (inject_Z 65) with 65.
    destruct (JS.Qltb 95 (60 + half)); lra.
  - change (inject_Z 95) with 95.
    destruct (JS.Qltb 95 (60 + half)) eqn:E; [lra|].
    apply Qltb_false in E. exact E.
Qed.

Lemma confidence_close_range (hw dr aw : Q) :
  1 # 10 <= dr ->
  JS.within 48 75
    (JS.round (JS.min 75%Z
                 (45%Z + JS.max3 (Fin hw) (Fin dr) (Fin aw) * 30%Z)%num)).
Proof.
  intro Hdr. unfold JS.max3.
  destruct (max_Fin_spec hw dr) as (m1 & -> & Hm1a & Hm1b & _).
  destruct (max_Fin_spec m1 aw) as (m & -> & Hma & Hmb & _).
  unfold JS.ofZ. cbn [JS.mul JS.add]. rewrite min_Fin.
  change (inject_Z 75) with 75. change (inject_Z 45) with 45.
  change (inject_Z 30) with 30.
  apply (@round_within 48 75).
  - change (inject_Z 48) with 48.
    destruct (JS.Qltb 75 (45 + m * 30)); lra.
  - change (inject_Z 75) with 75.
    destruct (JS.Qltb 75 (45 + m * 30)) eqn:E; [lra|].
    apply Qltb_false in E. lra.
Qed.

Section Every_prediction.

Variable Exp : Q -> Q.
Hypothesis Exp_pos : forall x, 0 < Exp x.

(** The confidence of a scored prediction. *)
Lemma scoreMatch_confidence (context : MatchContext) (v : num) :
  finiteContext context -> JS.within 0 100 v ->
  exists d,
    (homeScore context v - awayScore context v)%num = Fin d
    /\ JS.within 48 95 (confidence (scoreMatch Exp context v))
    /\ (10 < d \/ d < -10 ->
        JS.within 65 95 (confidence (scoreMatch Exp context v)))
    /\ (-10 <= d <= 10 ->
        JS.within 48 75 (confidence (scoreMatch Exp context v))).
Proof.
  intros Hfin Hv.
  assert (Hvf : JS.finite v) by (destruct v; try contradiction; exact I).
  destruct (@scoreDifference_finite context v Hfin Hvf) as (d & Hd).
  destruct (@calculateMLProbability_finite Exp Exp_pos context Hfin)
    as (hw & dr & aw & Hml & _ & Hdr & _).
  exists d. split; [exact Hd|]. unfold scoreMatch. rewrite Hd.
  destruct (Qlt_le_dec 10 d) as [Hhi|Hhi].
  - rewrite (decide_home _ Hhi). cbn [confidence].
    pose proof (@confidence_home_range d Hhi) as Hr.
    split; [apply (@within_weaken _ _ 48 95 _ Hr); lra|].
    split; [intros _; exact Hr | intros [_ H]; lra].
  - destruct (Qlt_le_dec d (-10)) as [Hlo|Hlo].
    + rewrite (decide_away _ Hlo). cbn [confidence].
      pose proof (@confidence_away_range d Hlo) as Hr.
      split; [apply (@within_weaken _ _ 48 95 _ Hr); lra|].
      split; [intros _; exact Hr | intros [H _]; lra].
    + rewrite (decide_close _ Hlo Hhi). cbv zeta. cbn [confidence].
      rewrite Hml. cbn [homeWin draw awayWin].
      pose proof (@confidence_close_range hw dr aw Hdr) as Hr.
      split; [apply (@within_weaken _ _ 48 95 _ Hr); lra|].
      split; [intros [H|H]; lra | intros _; exact Hr].
Qed.

(** X5.  [validatePrediction] accepts every prediction returned by
    [predictMatch]. *)
Theorem predictMatch_is_valid :
  forall (ds : DataSource) (fx : Fixture),
  exists r,
    predictMatch Exp ds fx = Ok r /\ validatePrediction r = true.
Proof.
  intros ds fx.
  destruct (predictMatch_cases Exp ds fx)
    as [(He & ->)|(context & v & Hc & Hfin & Hfd & _ & Hv & ->)];
    eexists; (split; [reflexivity|]).
  - reflexivity.
  - destruct (@scoreMatch_confidence context v Hfin Hv) as (d & _ & Hconf & _).
    destruct (@form_factors_within context Hfd) as [Hh Ha].
    unfold validatePrediction. rewrite factors_scoreMatch.
    cbn [homeFormScore awayFormScore].
    change (JS.ofZ 0) with (Fin 0). change (JS.ofZ 100) with (Fin 100).
    rewrite (@within_num_geb _ _ 0 _ Hconf) by lra.
    rewrite (@within_num_leb _ _ 100 _ Hconf) by lra.
    rewrite (@within_num_geb _ _ 0 _ Hh) by lra.
    rewrite (@within_num_geb _ _ 0 _ Ha) by lra.
    cbn [andb existsb]. rewrite andb_true_r.
    now destruct (prediction (scoreMatch Exp context v)).
Qed.

(** X6.  The confidence of a prediction against [getConfidenceLevels]:
    it always reaches the level [low] (30), and it is 30 only on the
    fallback.  A scored prediction has a confidence in [48, 95]: in
    [65, 95], hence at least [medium], when the score difference decides
    (above 10 or below -10), and in [48, 75] for a close match, which
    reaches the level [high] only at 75. *)
Theorem predictMatch_confidence_levels :
  forall (ds : DataSource) (fx : Fixture),
  exists r,
    predictMatch Exp ds fx = Ok r
    /\ num_geb (confidence r) (low getConfidenceLevels) = true
    /\ (((exists e, generateMatchContext ds fx = Err e)
         /\ confidence r = Fin 30)
        \/ exists context v d,
            generateMatchContext ds fx = Ok context
            /\ analyzeHeadToHead ds (team_id (teams_home fx))
                                 (team_id (teams_away fx)) = Ok v
            /\ (homeScore context v - awayScore context v)%num = Fin d
            /\ JS.within 48 95 (confidence r)
            /\ (10 < d \/ d < -10 ->
                JS.within 65 95 (confidence r)
                /\ num_geb (confidence r) (medium getConfidenceLevels)
                   = true)
            /\ (-10 <= d <= 10 ->
                JS.within 48 75 (confidence r)
                /\ (num_geb (confidence r) (high getConfidenceLevels) = true
                    -> (confidence r == 75%Z)%num))).
Proof.
  intros ds fx.
  destruct (predictMatch_cases Exp ds fx)
    as [(He & ->)|(context & v & Hc & Hfin & Hfd & Hh2h & Hv & ->)];
    eexists; (split; [reflexivity|]).
  - split; [reflexivity|]. left. split; [exact He | reflexivity].
  - destruct (@scoreMatch_confidence context v Hfin Hv) as (d & Hd & Hall & Hdec & Hclose).
    cbn [getConfidenceLevels low medium high].
    change (JS.ofZ 30) with (Fin 30). change (JS.ofZ 50) with (Fin 50).
    change (JS.ofZ 75) with (Fin 75).
    split; [apply (@within_num_geb _ _ 30 _ Hall); lra|].
    right. exists context, v, d.
    split; [exact Hc|]. split; [exact Hh2h|]. split; [exact Hd|].
    split; [exact Hall|]. split.
    + intro H. specialize (Hdec H). split; [exact Hdec|].
      apply (@within_num_geb _ _ 50 _ Hdec); lra.
    + intro H. specialize (Hclose H). split; [exact Hclose|].
      destruct (confidence (scoreMatch Exp context v)) as [q| | |];
        try contradiction.
      cbn [num_geb JS.eq JS.within] in *. intro Hge.
      apply Qle_bool_iff in Hge. change (inject_Z 75) with 75. lra.
Qed.

End Every_prediction.

Lemma predictMatch_is_valid_witness :
  exists r,
    predictMatch pexp (Example.source Example.oneMatchDb) Example.upcoming
    = Ok r
    /\ validatePrediction r = true.
Proof.
  exact (@predictMatch_is_valid pexp pexp_pos
           (Example.source Example.oneMatchDb) Example.upcoming).
Defined.

Lemma predictMatch_confidence_levels_witness :
  exists r,
    predictMatch pexp (Example.source Example.oneMatchDb) Example.upcoming
    = Ok r
    /\ num_geb (confidence r) (low getConfidenceLevels) = true.
Proof.
  destruct (@predictMatch_confidence_levels pexp pexp_pos
              (Example.source Example.oneMatchDb) Example.upcoming)
    as (r & Hr & Hlow & _).
  exists r. split; [exact Hr | exact Hlow].
Defined.

(** ** The client store: the confidence filters *)

Lemma confidence_scoreMatch (Exp : Q -> Q) (context : MatchContext) (v : num) :
  confidence (scoreMatch Exp context v)
  = JS.round (snd (decide (homeScore context v - awayScore context v)%num
                          (calculateMLProbability Exp context))).
Proof. unfold scoreMatch. now destruct (decide _ _). Qed.

Lemma round_integer (lo hi : Q) (x : num) :
  JS.within lo hi (JS.round x) ->
  exists z, JS.round x = Fin (inject_Z z)
            /\ lo <= inject_Z z /\ inject_Z z <= hi.
Proof.
  destruct x as [q| | |]; cbn [JS.round JS.within]; try contradiction.
  intro H. eexists. split; [reflexivity | exact H].
Qed.

Lemma integer_bins (z : Z) :
  (30 <= z <= 95)%Z ->
  let c := Fin (inject_Z z) in
  ((if num_geb c 75%Z && num_leb c 100%Z then 1 else 0)
   + (if num_geb c 50%Z && num_leb c 74%Z then 1 else 0)
   + (if num_geb c 30%Z && num_leb c 49%Z then 1 else 0) = 1)%nat.
Proof.
  intro Hz. cbv zeta. unfold num_leb, JS.ofZ. cbn [num_geb].
  assert (Hle : forall a b, Qle_bool (inject_Z a) (inject_Z b) = (a <=? b)%Z).
  { intros a b. destruct (Z.leb_spec a b) as [H|H].
    - apply Qle_bool_iff. now rewrite <- Zle_Qle.
    - destruct (Qle_bool (inject_Z a) (inject_Z b)) eqn:E; [|reflexivity].
      apply Qle_bool_iff in E. rewrite <- Zle_Qle in E. lia. }
  rewrite !Hle.
  destruct (Z.leb_spec 75 z), (Z.leb_spec z 100), (Z.leb_spec 50 z),
    (Z.leb_spec z 74), (Z.leb_spec 30 z), (Z.leb_spec z 49);
    cbn [andb]; try reflexivity; lia.
Qed.

Section Filters.

Variable Exp : Q -> Q.
Hypothesis Exp_pos : forall x, 0 < Exp x.

Lemma predictMatch_integer_confidence (ds : DataSource) (fx : Fixture) :
  exists r z,
    predictMatch Exp ds fx = Ok r
    /\ confidence r = Fin (inject_Z z) /\ (30 <= z <= 95)%Z.
Proof.
  destruct (predictMatch_cases Exp ds fx)
    as [(He & ->)|(context & v & Hc & Hfin & Hfd & _ & Hv & ->)].
  - exists fallbackPrediction, 30%Z. repeat split; lia.
  - destruct (@scoreMatch_confidence Exp Exp_pos context v Hfin Hv)
      as (d & _ & Hconf & _).
    rewrite confidence_scoreMatch in Hconf.
    destruct (@round_integer _ _ _ Hconf) as (z & Hz & Hlo & Hhi).
    exists (scoreMatch Exp context v), z. split; [reflexivity|].
    split; [now rewrite confidence_scoreMatch|].
    change 48 with (inject_Z 48) in Hlo. change 95 with (inject_Z 95) in Hhi.
    rewrite <- Zle_Qle in Hlo, Hhi. lia.
Qed.

(** X7.  [useFilteredPredictions]: the stored form of a prediction
    returned by [predictMatch] passes exactly one of the filters
    ['high'], ['medium'] and ['low'] (and the filter ['all'] keeps
    everything). *)
Theorem useFilteredPredictions_partition :
  forall (ds : DataSource) (fx : Fixture),
  exists r,
    predictMatch Exp ds fx = Ok r
    /\ forall (uuid : string) (now : Z),
        let p := toPrediction uuid now fx r in
        (List.length (useFilteredPredictions filter_high [p])
         + List.length (useFilteredPredictions filter_medium [p])
         + List.length (useFilteredPredictions filter_low [p]) = 1)%nat
        /\ useFilteredPredictions filter_all [p] = [p].
Proof.
  intros ds fx.
  destruct (predictMatch_integer_confidence ds fx) as (r & z & Hr & Hz & Hb).
  exists r. split; [exact Hr|]. intros uuid now p.
  split; [|reflexivity].
  pose proof (@integer_bins z Hb) as H. cbv zeta in H.
  unfold useFilteredPredictions. cbn [filter].
  change (pred_confidence p) with (confidence r). rewrite Hz.
  destruct (num_geb (Fin (inject_Z z)) 75%Z
            && num_leb (Fin (inject_Z z)) 100%Z),
    (num_geb (Fin (inject_Z z)) 50%Z && num_leb (Fin (inject_Z z)) 74%Z),
    (num_geb (Fin (inject_Z z)) 30%Z && num_leb (Fin (inject_Z z)) 49%Z);
    cbn [List.length] in *; lia.
Qed.

End Filters.

Lemma useFilteredPredictions_partition_witness :
  exists r,
    predictMatch pexp (Example.source Example.oneMatchDb) Example.upcoming
    = Ok r
    /\ (List.length
          (useFilteredPredictions filter_high
             [toPrediction "id" 0 Example.upcoming r])
        + List.length
            (useFilteredPredictions filter_medium
               [toPrediction "id" 0 Example.upcoming r])
        + List.length
            (useFilteredPredictions filter_low
               [toPrediction "id" 0 Example.upcoming r]) = 1)%nat.
Proof.
  destruct (@useFilteredPredictions_partition pexp pexp_pos
              (Example.source Example.oneMatchDb) Example.upcoming)
    as (r & Hr & Hp).
  exists r. split; [exact Hr|]. exact (proj1 (Hp "id"%string 0%Z)).
Defined.

(** A non-rounded confidence would escape the three filters. *)
Lemma unrounded_confidence_is_filtered_out :
  forall p : Prediction,
    pred_confidence p = lit 745 10 ->
    useFilteredPredictions filter_high [p] = []
    /\ useFilteredPredictions filter_medium [p] = []
    /\ useFilteredPredictions filter_low [p] = [].
Proof.
  intros p Hp. unfold useFilteredPredictions. cbn [filter]. rewrite Hp.
  repeat split.
Qed.

(** ** Form: the tally of the recent matches *)

Lemma formStep_points (teamId : Z) (t : Tally) (m : Fixture) :
  let t' := formStep teamId t m in
  (3 * t_wins t' + t_draws t'
   = 3 * t_wins t + t_draws t + team1Points teamId m)%Z.
Proof.
  unfold formStep, team1Points.
  destruct (team_id (teams_home m) =? teamId)%Z;
    match goal with
    | |- context [(?a ?= ?b)%Z] =>
        destruct (Z.compare_spec a b) as [H|H|H];
        [ rewrite H, Z.eqb_refl; replace (b >? b)%Z with false by lia
        | replace (a >? b)%Z with false by lia;
          replace (a =? b)%Z with false by lia
        | replace (a >? b)%Z with true by lia ]
    end; cbv zeta; cbn [t_wins t_draws]; lia.
Qed.

Lemma form_fold_points (teamId : Z) (ms : list Fixture) (t : Tally) :
  let t' := fold_left (formStep teamId) ms t in
  (3 * t_wins t' + t_draws t'
   = 3 * t_wins t + t_draws t + pointsEarned teamId ms)%Z.
Proof.
  revert t. induction ms as [|m ms IH]; intro t.
  - cbn. unfold pointsEarned. cbn. lia.
  - cbn [fold_left]. specialize (IH (formStep teamId t m)).
    pose proof (formStep_points teamId t m) as Hs.
    cbv zeta in *. unfold pointsEarned in *. cbn [map fold_right]. lia.
Qed.

(** X8.  [analyzeTeamForm] over the in-memory database: wins, draws and
    losses are not negative and add up to the number of matches the
    database returned (at most [matches]), and [points] is
    [3 * wins + draws], the points of the team under the rule of the
    head-to-head analyzer. *)
Theorem analyzeTeamForm_tally :
  forall (year month : Z) (db : MockDatabase) (teamId matches : Z),
  exists fa,
    analyzeTeamForm (mockSource year month db) teamId matches = Ok fa
    /\ (wins fa + draws fa + losses fa
        = Z.of_nat (List.length
                      (Database.getTeamRecentForm db teamId matches))
        /\ 0 <= wins fa /\ 0 <= draws fa /\ 0 <= losses fa
        /\ points fa = 3 * wins fa + draws fa
        /\ points fa
           = pointsEarned teamId
                          (Database.getTeamRecentForm db teamId matches)
        /\ (0 <= matches -> wins fa + draws fa + losses fa <= matches))%Z.
Proof.
  intros year month db teamId matches.
  unfold analyzeTeamForm. cbn [mockSource db_getTeamRecentForm bind ret
                                try_catch].
  eexists. split; [reflexivity|].
  set (recent := Database.getTeamRecentForm db teamId matches).
  pose proof (form_fold_tally teamId recent tally0) as Ht.
  pose proof (form_fold_points teamId recent tally0) as Hp.
  cbv zeta in Ht, Hp. unfold formOf. cbn [wins draws losses points].
  set (t := fold_left (formStep teamId) recent tally0) in *.
  change (t_wins tally0) with 0%Z in *. change (t_draws tally0) with 0%Z in *.
  change (t_losses tally0) with 0%Z in *.
  assert (Hlen : (0 <= matches -> Z.of_nat (List.length recent) <= matches)%Z)
    by (intro H; now apply slice0_length).
  repeat split; try lia.
Qed.

(** ** The engine over the in-memory database *)


(** ** The engine: batches *)

Section Batch_facts.

Variable Exp : Q -> Q.
Variable ds : DataSource.

Lemma predictBatch_ok (batch : list Fixture) :
  exists ps,
    predictBatch Exp ds batch = Ok ps
    /\ map fp_fixture ps = batch
    /\ predictedBy Exp ds ps.
Proof.
  induction batch as [|fx rest (ps & Hps & Hmap & Hall)].
  - exists []. repeat split. constructor.
  - destruct (predictMatch_succeeds Exp ds fx) as (r & Hr).
    exists ({| fp_fixture := fx; fp_prediction := r |} :: ps).
    cbn [predictBatch]. rewrite Hr, Hps. cbn [bind ret map fp_fixture].
    split; [reflexivity|]. split; [now rewrite Hmap|].
    constructor; [exact Hr | exact Hall].
Qed.

Lemma slice_batch {A} (l : list A) (i : nat) :
  slice l i (i + batchSize) ++ skipn (i + batchSize) l = skipn i l.
Proof.
  unfold slice. replace (i + batchSize - i)%nat with batchSize by lia.
  rewrite (Nat.add_comm i batchSize), <- skipn_skipn.
  apply firstn_skipn.
Qed.

Lemma batchLoop_ok (fuel : nat) (upcoming : list Fixture) (i : nat)
  (acc : list FixturePrediction) :
  (List.length upcoming - i <= fuel)%nat ->
  exists ps,
    batchLoop Exp ds fuel upcoming i acc = Ok (acc ++ ps)
    /\ map fp_fixture ps = skipn i upcoming
    /\ predictedBy Exp ds ps.
Proof.
  revert i acc. induction fuel as [|fuel IH]; intros i acc Hfuel.
  - exists []. cbn [batchLoop].
    replace (i <? List.length upcoming)%nat with false
      by (symmetry; apply Nat.ltb_ge; lia).
    rewrite app_nil_r. split; [reflexivity|].
    split; [|constructor]. symmetry. apply skipn_all2. lia.
  - cbn [batchLoop]. destruct (i <? List.length upcoming)%nat eqn:E.
    + destruct (predictBatch_ok (slice upcoming i (i + batchSize)))
        as (bp & Hbp & Hmap & Hall).
      rewrite Hbp. cbn [bind].
      destruct (IH (i + batchSize)%nat (acc ++ bp)) as (ps & Hps & Hm & Ha).
      { unfold batchSize. lia. }
      exists (bp ++ ps). rewrite Hps, app_assoc.
      split; [reflexivity|]. split.
      * rewrite map_app, Hmap, Hm. apply slice_batch.
      * apply Forall_app. split; assumption.
    + exists []. rewrite app_nil_r. split; [reflexivity|].
      split; [|constructor]. symmetry. apply skipn_all2.
      apply Nat.ltb_ge in E. lia.
Qed.

End Batch_facts.

(** X10.  [predictUpcomingMatches]: an empty list when the database
    throws; otherwise one entry per upcoming fixture, in the order of the
    database, each holding what [predictMatch] returns for its fixture:
    the batches of five change nothing.  Over the in-memory database the
    fixtures predicted are those dated from [now] to [days] days later. *)
Theorem predictUpcomingMatches_one_per_fixture :
  forall (Exp : Q -> Q) (ds : DataSource)
         (db_getUpcomingFixtures : Z -> Result (list Fixture)) (days : Z),
    (forall e,
        db_getUpcomingFixtures days = Err e ->
        predictUpcomingMatches Exp ds db_getUpcomingFixtures days = Ok [])
    /\ (forall upcoming,
           db_getUpcomingFixtures days = Ok upcoming ->
           exists ps,
             predictUpcomingMatches Exp ds db_getUpcomingFixtures days = Ok ps
             /\ map fp_fixture ps = upcoming
             /\ predictedBy Exp ds ps)
    /\ (forall now s,
           exists ps,
             predictUpcomingMatches
               Exp ds (fun d => Ok (Db.getUpcomingFixtures now s d)) days
             = Ok ps
             /\ map fp_fixture ps
                = filter (fun f =>
                            (now <=? fx_date f)%Z
                            && (fx_date f <=? now + days * 86400000)%Z)
                         (fixtures s)).
Proof.
  intros Exp ds getUpcoming days.
  assert (Hok : forall upcoming,
             getUpcoming days = Ok upcoming ->
             exists ps,
               predictUpcomingMatches Exp ds getUpcoming days = Ok ps
               /\ map fp_fixture ps = upcoming
               /\ predictedBy Exp ds ps).
  { intros upcoming Hup. unfold predictUpcomingMatches. rewrite Hup.
    cbn [bind].
    destruct (@batchLoop_ok Exp ds (List.length upcoming) upcoming 0 [])
      as (ps & Hps & Hmap & Hall); [lia|].
    exists ps. rewrite Hps. cbn [app try_catch].
    split; [reflexivity|]. split; [exact Hmap | exact Hall]. }
  split; [|split; [exact Hok|]].
  - intros e He. unfold predictUpcomingMatches. now rewrite He.
  - intros now s.
    unfold predictUpcomingMatches. cbn [bind].
    destruct (@batchLoop_ok Exp ds
                (List.length (Db.getUpcomingFixtures now s days))
                (Db.getUpcomingFixtures now s days) 0 [])
      as (ps & Hps & Hmap & _); [lia|].
    exists ps. rewrite Hps. cbn [app try_catch]. split; [reflexivity|].
    rewrite Hmap. cbn [skipn]. unfold Db.getUpcomingFixtures.
    apply filter_ext. intro f. rewrite Z.geb_leb.
    do 2 f_equal. lia.
Qed.

(** ** The database: recent form and head-to-head records *)

Lemma getTeamRecentForm_lastOf (db : MockDatabase) (teamId : Z) (n : nat) :
  lastOf n (isMatchOf teamId) (db_fixtures db)
         (Database.getTeamRecentForm db teamId (Z.of_nat n)).
Proof.
  unfold Database.getTeamRecentForm. rewrite slice0_firstn.
  match goal with
  | |- context [filter ?p _] => set (keep := p)
  end.
  set (sorted := Database.sortByDateDesc (filter keep (db_fixtures db))).
  assert (Hkeep : forall m, keep m = true <-> isMatchOf teamId m).
  { intro m. unfold keep, isMatchOf, Database.completed.
    rewrite andb_true_iff, orb_true_iff, !Z.eqb_eq.
    now rewrite String.eqb_eq. }
  exists (filter keep (db_fixtures db)), (skipn n sorted).
  split; [|split; [|split; [|split]]].
  - intros m Hm. apply filter_In in Hm. destruct Hm as [Hin Hk].
    split; [exact Hin | now apply Hkeep].
  - intros m Hin HP. apply filter_In. split; [exact Hin | now apply Hkeep].
  - rewrite firstn_skipn. apply sortByDateDesc_perm.
  - rewrite firstn_skipn. apply sortByDateDesc_sorted.
  - rewrite length_firstn. unfold sorted.
    now rewrite (Permutation_length (sortByDateDesc_perm _)).
Qed.



Lemma getHeadToHeadRecords_sym (db : MockDatabase) (a b limit : Z) :
  Database.getHeadToHeadRecords db a b limit
  = Database.getHeadToHeadRecords db b a limit.
Proof.
  unfold Database.getHeadToHeadRecords. do 2 f_equal.
  apply filter_ext. intro f. f_equal. apply orb_comm.
Qed.

Lemma getHeadToHeadRecords_meetings (db : MockDatabase) (a b : Z)
  (m : Fixture) :
  In m (Database.getHeadToHeadRecords db a b 10) -> isMeeting a b m.
Proof.
  intro Hin.
  destruct (getHeadToHeadRecords_last db a b)
    as (kept & rest & Hkept & _ & Hperm & _).
  apply Hkept. apply (Permutation_in m Hperm). apply in_or_app. now left.
Qed.

(** ** Head-to-head: the two sides of a meeting *)

Lemma team1Points_both_sides (a b : Z) (m : Fixture) :
  a <> b -> isMeeting a b m ->
  (team1Points a m + team1Points b m = if drawn m then 2 else 3)%Z.
Proof.
  intros Hab [[[Hh Ha]|[Hh Ha]] _]; unfold team1Points, drawn;
    rewrite Hh.
  - rewrite Z.eqb_refl. replace (a =? b)%Z with false by lia.
    destruct (Z.compare_spec (orZero (goals_home m)) (orZero (goals_away m)))
      as [E|E|E].
    + rewrite E, Z.eqb_refl, Z.compare_refl. reflexivity.
    + replace (_ =? _)%Z with false by lia.
      replace (_ ?= _)%Z with Gt by (symmetry; apply Z.compare_gt_iff; lia).
      reflexivity.
    + replace (_ =? _)%Z with false by lia.
      replace (_ ?= _)%Z with Lt by (symmetry; apply Z.compare_lt_iff; lia).
      reflexivity.
  - rewrite Z.eqb_refl. replace (b =? a)%Z with false by lia.
    destruct (Z.compare_spec (orZero (goals_home m)) (orZero (goals_away m)))
      as [E|E|E].
    + rewrite E, Z.eqb_refl, Z.compare_refl. reflexivity.
    + replace (_ =? _)%Z with false by lia.
      replace (_ ?= _)%Z with Gt by (symmetry; apply Z.compare_gt_iff; lia).
      reflexivity.
    + replace (_ =? _)%Z with false by lia.
      replace (_ ?= _)%Z with Lt by (symmetry; apply Z.compare_lt_iff; lia).
      reflexivity.
Qed.

Lemma pointsEarned_both_sides (a b : Z) (ms : list Fixture) :
  a <> b -> (forall m, In m ms -> isMeeting a b m) ->
  (pointsEarned a ms + pointsEarned b ms
   = 3 * Z.of_nat (List.length ms)
     - Z.of_nat (List.length (filter drawn ms)))%Z.
Proof.
  intros Hab Hall. induction ms as [|m ms IH]; [reflexivity|].
  assert (Hm : isMeeting a b m) by (apply Hall; now left).
  assert (IH' := IH (fun x Hx => Hall x (or_intror Hx))).
  pose proof (@team1Points_both_sides a b m Hab Hm) as Hp.
  unfold pointsEarned in *. cbn [map fold_right filter List.length].
  destruct (drawn m); cbn [List.length]; lia.
Qed.

Lemma analyzeHeadToHead_mock (year month : Z) (db : MockDatabase) (a b : Z) :
  let ms := Database.getHeadToHeadRecords db a b 10 in
  exists v,
    analyzeHeadToHead (mockSource year month db) a b = Ok (Fin v)
    /\ (ms = [] -> v = 50)
    /\ (ms <> [] -> v == headToHeadFormula a ms).
Proof.
  intro ms.
  destruct (analyzeHeadToHead_value (mockSource year month db) a b)
    as (v & Hv & Hw & Hm).
  cbn [mockSource db_getHeadToHeadRecords] in Hm. fold ms in Hm.
  destruct v as [q| | |]; try contradiction.
  exists q. split; [exact Hv|].
  destruct ms as [|m ms'].
  - split; [intros _; now injection Hm | intro H; now contradiction H].
  - split; [discriminate | intros _; exact Hm].
Qed.

Lemma filter_nil_iff {A} (p : A -> bool) (l : list A) :
  filter p l = [] <-> forall x, In x l -> p x = false.
Proof.
  induction l as [|y l IH]; cbn [filter].
  - split; [intros _ x [] | reflexivity].
  - destruct (p y) eqn:E.
    + split; [discriminate|]. intro H. specialize (H y (or_introl eq_refl)).
      congruence.
    + rewrite IH. split.
      * intros H x [<-|Hx]; [exact E | now apply H].
      * intros H x Hx. apply H. now right.
Qed.



(** ** The analysis route: the summary of the meetings *)

Lemma summaryStep_counts (team1Id : Z) (c : H2HCounters) (m : Fixture) :
  let c' := summaryStep team1Id c m in
  (team1Wins c' + team2Wins c' + h2h_draws c'
   = team1Wins c + team2Wins c + h2h_draws c + 1
   /\ 3 * team1Wins c' + h2h_draws c'
      = 3 * team1Wins c + h2h_draws c + team1Points team1Id m
   /\ team1Wins c <= team1Wins c' /\ team2Wins c <= team2Wins c'
   /\ h2h_draws c <= h2h_draws c')%Z.
Proof.
  unfold summaryStep, team1Points.
  destruct (team_id (teams_home m) =? team1Id)%Z;
    match goal with
    | |- context [(?a ?= ?b)%Z] =>
        destruct (Z.compare_spec a b) as [H|H|H];
        [ rewrite H; replace (b >? b)%Z with false by lia
        | replace (a >? b)%Z with false by lia;
          replace (b >? a)%Z with true by lia
        | replace (a >? b)%Z with true by lia ]
    end; cbv zeta; cbn [team1Wins team2Wins h2h_draws]; lia.
Qed.

Lemma summary_fold_counts (team1Id : Z) (ms : list Fixture) (c : H2HCounters) :
  let c' := fold_left (summaryStep team1Id) ms c in
  (team1Wins c' + team2Wins c' + h2h_draws c'
   = team1Wins c + team2Wins c + h2h_draws c + Z.of_nat (List.length ms)
   /\ 3 * team1Wins c' + h2h_draws c'
      = 3 * team1Wins c + h2h_draws c + pointsEarned team1Id ms
   /\ team1Wins c <= team1Wins c' /\ team2Wins c <= team2Wins c'
   /\ h2h_draws c <= h2h_draws c')%Z.
Proof.
  revert c. induction ms as [|m ms IH]; intro c.
  - cbn. unfold pointsEarned. cbn. lia.
  - cbn [fold_left]. specialize (IH (summaryStep team1Id c m)).
    pose proof (summaryStep_counts team1Id c m) as Hs.
    cbv zeta in *. unfold pointsEarned in *.
    cbn [map fold_right List.length]. lia.
Qed.

(** X13.  [analyzeHeadToHeadSummary]: the wins of the two teams and the
    draws are not negative and add up to [totalMatches];
    [3 * team1Wins + draws] is the number of points the head-to-head
    analyzer of the engine counts for team 1 on the same matches; with no
    match the average is 0 and the summary is ['balanced'], otherwise the
    average is the goals of the two teams over the number of matches. *)
Theorem analyzeHeadToHeadSummary_counts :
  forall (team1Id team2Id : Z) (matches : list Fixture),
    let summary := analyzeHeadToHeadSummary team1Id team2Id matches in
    let c := hs_counters summary in
    (team1Wins c + team2Wins c + h2h_draws c = hs_totalMatches summary
     /\ 0 <= team1Wins c /\ 0 <= team2Wins c /\ 0 <= h2h_draws c
     /\ fold_left (h2hStep team1Id) matches 0 = 3 * team1Wins c + h2h_draws c
     /\ pointsEarned team1Id matches = 3 * team1Wins c + h2h_draws c)%Z
    /\ (matches = [] ->
        hs_averageGoalsPerMatch summary = Fin 0
        /\ hs_dominant summary = balanced)
    /\ (matches <> [] ->
        (hs_averageGoalsPerMatch summary
         == Fin (inject_Z (team1Goals c + team2Goals c)
                 / inject_Z (Z.of_nat (List.length matches))))%num).
Proof.
  intros team1Id team2Id matches. cbv zeta.
  pose proof (summary_fold_counts team1Id matches counters0) as H.
  cbv zeta in H.
  unfold analyzeHeadToHeadSummary.
  cbn [hs_counters hs_totalMatches hs_averageGoalsPerMatch hs_dominant].
  set (c' := fold_left (summaryStep team1Id) matches counters0) in *.
  change (team1Wins counters0) with 0%Z in H.
  change (team2Wins counters0) with 0%Z in H.
  change (h2h_draws counters0) with 0%Z in H.
  rewrite h2h_fold_points. split; [lia|]. split.
  - intros ->. split; reflexivity.
  - intro Hne.
    assert (Hn : (0 < Z.of_nat (List.length matches))%Z)
      by (destruct matches; [contradiction | cbn [List.length]; lia]).
    rewrite (proj2 (Z.gtb_lt _ _) Hn). unfold JS.ofZ.
    rewrite div_Fin; [reflexivity|].
    intro E. apply inject_Z_pos in Hn. lra.
Qed.

Lemma summaryStep_mirror (a b : Z) (c : H2HCounters) (m : Fixture) :
  a <> b -> isMeeting a b m ->
  summaryStep b (mirror c) m = mirror (summaryStep a c m).
Proof.
  intros Hab [[[Hh Ha]|[Hh Ha]] _]; unfold summaryStep; rewrite Hh.
  - rewrite Z.eqb_refl. replace (a =? b)%Z with false by lia.
    cbn [mirror team1Wins team2Wins h2h_draws team1Goals team2Goals].
    destruct (Z.compare_spec (orZero (goals_home m)) (orZero (goals_away m)))
      as [E|E|E].
    + rewrite E. replace (_ >? _)%Z with false by lia. reflexivity.
    + replace (orZero (goals_home m) >? orZero (goals_away m))%Z
        with false by lia.
      replace (orZero (goals_away m) >? orZero (goals_home m))%Z
        with true by lia. reflexivity.
    + replace (orZero (goals_home m) >? orZero (goals_away m))%Z
        with true by lia.
      replace (orZero (goals_away m) >? orZero (goals_home m))%Z
        with false by lia. reflexivity.
  - rewrite Z.eqb_refl. replace (b =? a)%Z with false by lia.
    cbn [mirror team1Wins team2Wins h2h_draws team1Goals team2Goals].
    destruct (Z.compare_spec (orZero (goals_home m)) (orZero (goals_away m)))
      as [E|E|E].
    + rewrite E. replace (_ >? _)%Z with false by lia. reflexivity.
    + replace (orZero (goals_home m) >? orZero (goals_away m))%Z
        with false by lia.
      replace (orZero (goals_away m) >? orZero (goals_home m))%Z
        with true by lia. reflexivity.
    + replace (orZero (goals_home m) >? orZero (goals_away m))%Z
        with true by lia.
      replace (orZero (goals_away m) >? orZero (goals_home m))%Z
        with false by lia. reflexivity.
Qed.

Lemma summary_fold_mirror (a b : Z) (ms : list Fixture) (c : H2HCounters) :
  a <> b -> (forall m, In m ms -> isMeeting a b m) ->
  fold_left (summaryStep b) ms (mirror c)
  = mirror (fold_left (summaryStep a) ms c).
Proof.
  intros Hab. revert c. induction ms as [|m ms IH]; intros c Hall.
  - reflexivity.
  - cbn [fold_left]. rewrite (@summaryStep_mirror a b c m Hab);
      [|apply Hall; now left].
    apply IH. intros x Hx. apply Hall. now right.
Qed.

(** X14.  The summaries of the meetings on record of two distinct teams,
    asked from each side: wins and goals are exchanged, draws, number of
    matches and average goals are the same, and the dominant team is the
    same team. *)
Theorem analyzeHeadToHeadSummary_mirror :
  forall (db : MockDatabase) (a b : Z),
    a <> b ->
    let ab :=
      analyzeHeadToHeadSummary a b (Database.getHeadToHeadRecords db a b 10) in
    let ba :=
      analyzeHeadToHeadSummary b a (Database.getHeadToHeadRecords db b a 10) in
    hs_counters ba = mirror (hs_counters ab)
    /\ hs_totalMatches ba = hs_totalMatches ab
    /\ hs_averageGoalsPerMatch ba = hs_averageGoalsPerMatch ab
    /\ hs_dominant ba
       = match hs_dominant ab with
         | dominant_team1 => dominant_team2
         | dominant_team2 => dominant_team1
         | balanced => balanced
         end.
Proof.
  intros db a b Hab ab ba. subst ab ba.
  rewrite <- (getHeadToHeadRecords_sym db a b).
  set (ms := Database.getHeadToHeadRecords db a b 10).
  assert (Hmeet : forall m, In m ms -> isMeeting a b m)
    by (intros m Hm; now apply (getHeadToHeadRecords_meetings db a b)).
  pose proof (@summary_fold_mirror a b ms counters0 Hab Hmeet) as Hf.
  change (mirror counters0) with counters0 in Hf.
  unfold analyzeHeadToHeadSummary.
  cbn [hs_counters hs_totalMatches hs_averageGoalsPerMatch hs_dominant].
  rewrite Hf.
  set (c := fold_left (summaryStep a) ms counters0).
  cbn [mirror team1Wins team2Wins h2h_draws team1Goals team2Goals].
  split; [reflexivity|]. split; [reflexivity|]. split.
  - now rewrite (Z.add_comm (team2Goals c)).
  - destruct (Z.compare_spec (team1Wins c) (team2Wins c)) as [E|E|E].
    + rewrite E. replace (_ >? _)%Z with false by lia. reflexivity.
    + replace (team1Wins c >? team2Wins c)%Z with false by lia.
      replace (team2Wins c >? team1Wins c)%Z with true by lia. reflexivity.
    + replace (team1Wins c >? team2Wins c)%Z with true by lia.
      replace (team2Wins c >? team1Wins c)%Z with false by lia. reflexivity.
Qed.

Lemma analyzeHeadToHeadSummary_mirror_witness :
  hs_counters
    (analyzeHeadToHeadSummary
       36 33 (Database.getHeadToHeadRecords Example.oneMatchDb 36 33 10))
  = mirror
      (hs_counters
         (analyzeHeadToHeadSummary
            33 36 (Database.getHeadToHeadRecords Example.oneMatchDb 33 36 10))).
Proof.
  apply (@analyzeHeadToHeadSummary_mirror Example.oneMatchDb 33 36). lia.
Defined.

(** ** The API client: the request counter *)

Lemma canMakeRequest_same_day (r : RateLimiter) :
  canMakeRequest (lastResetDate r) r = (r, (requestCount r <? 100)%Z).
Proof. unfold canMakeRequest. now rewrite Z.eqb_refl. Qed.

Lemma makeRequest_step {T} (apiKey : string) (nowDate : Z)
  (reply : HttpReply T) (r : RateLimiter) :
  (0 <= requestCount r <= 100)%Z ->
  let r' := fst (makeRequest apiKey nowDate reply r) in
  let out := snd (makeRequest apiKey nowDate reply r) in
  (0 <= requestCount r' <= 100)%Z
  /\ (nowDate = lastResetDate r ->
      lastResetDate r' = lastResetDate r
      /\ (requestCount r' - requestCount r
          = if isOk out then 1
            else match reply with
                 | HttpBody (_ :: _) _ =>
                     if String.eqb apiKey "" then 0
                     else if (requestCount r <? 100)%Z then 1 else 0
                 | _ => 0
                 end)%Z).
Proof.
  intro Hr. unfold makeRequest.
  destruct (String.eqb apiKey "").
  { cbn [fst snd isOk]. split; [exact Hr|]. intros _. split; [reflexivity|].
    destruct reply as [|[|? ?] ?]; lia. }
  unfold canMakeRequest.
  destruct (Z.eqb_spec nowDate (lastResetDate r)) as [E|E]; cbn [negb].
  - destruct (Z.ltb_spec (requestCount r) 100) as [Hlt|Hge]; cbn [negb].
    + destruct reply as [msg|errs resp]; cbn [fst snd isOk].
      * split; [exact Hr|]. intros _. split; [reflexivity | lia].
      * destruct errs as [|e errs];
          cbn [List.length Z.of_nat Z.gtb Z.compare];
          cbn [fst snd isOk incrementRequest requestCount lastResetDate];
          (split; [lia|]); intros _; (split; [reflexivity | lia]).
    + cbn [fst snd isOk]. split; [exact Hr|]. intros _.
      split; [reflexivity|]. destruct reply as [|[|? ?] ?]; lia.
  - split; [|intro H; now contradiction E].
    cbn [requestCount]. change (0 <? 100)%Z with true. cbn [negb].
    destruct reply as [msg|errs resp]; cbn [fst snd requestCount]; [lia|].
    destruct (Z.of_nat (List.length errs) >? 0)%Z;
      cbn [fst incrementRequest requestCount]; lia.
Qed.

Lemma makeRequests_cons {T} (apiKey : string) (nowDate : Z)
  (reply : HttpReply T) (rest : list (Z * HttpReply T)) (r : RateLimiter) :
  makeRequests apiKey ((nowDate, reply) :: rest) r
  = (fst (makeRequests apiKey rest
                       (fst (makeRequest apiKey nowDate reply r))),
     snd (makeRequest apiKey nowDate reply r)
     :: snd (makeRequests apiKey rest
                          (fst (makeRequest apiKey nowDate reply r)))).
Proof.
  cbn [makeRequests].
  destruct (makeRequest apiKey nowDate reply r) as [r1 out]. cbn [fst snd].
  now destruct (makeRequests apiKey rest r1).
Qed.



(** X16.  [makeRequest]: without a key it throws and leaves the counter
    alone; with 100 requests counted on the day of the last reset it
    throws without looking at the network; on another day of the month
    the counter restarts, and a call answered without errors returns the
    answer with one request counted; a call the network fails is not
    counted and returns nothing. *)
Theorem makeRequest_refuses :
  forall (T : Type) (apiKey : string) (nowDate : Z) (reply : HttpReply T)
         (r : RateLimiter),
    (apiKey = ""%string ->
     makeRequest apiKey nowDate reply r
     = (r, Err "API_FOOTBALL_KEY not configured"))
    /\ (apiKey <> ""%string -> nowDate = lastResetDate r ->
        (100 <= requestCount r)%Z ->
        makeRequest apiKey nowDate reply r
        = (r, Err "Daily API limit reached"))
    /\ (apiKey <> ""%string -> nowDate <> lastResetDate r ->
        forall response,
          reply = HttpBody [] response ->
          makeRequest apiKey nowDate reply r
          = ({| requestCount := 1; lastResetDate := nowDate |}, Ok response))
    /\ (forall message,
           reply = HttpFailure message ->
           requestCount (fst (makeRequest apiKey nowDate reply r))
           = (if String.eqb apiKey "" then requestCount r
              else if (nowDate =? lastResetDate r)%Z then requestCount r
                   else 0%Z)
           /\ isOk (snd (makeRequest apiKey nowDate reply r)) = false).
Proof.
  intros T apiKey nowDate reply r. unfold makeRequest, canMakeRequest.
  split; [intros ->; reflexivity|]. split; [|split].
  - intros Hk -> Hfull. apply String.eqb_neq in Hk. rewrite Hk.
    rewrite Z.eqb_refl. cbn [negb].
    now replace (requestCount r <? 100)%Z with false by lia.
  - intros Hk Hd response ->. apply String.eqb_neq in Hk. rewrite Hk.
    replace (nowDate =? lastResetDate r)%Z with false by lia.
    reflexivity.
  - intros message ->. destruct (String.eqb apiKey ""); [now split|].
    destruct (nowDate =? lastResetDate r)%Z; cbn [negb requestCount].
    + destruct (requestCount r <? 100)%Z; now split.
    + now split.
Qed.

(** ** The API client: seasons *)

(** X17.  [getCurrentSeason] for a month from 1 to 12: the season is the
    one year [s] such that the date lies from August of [s] to July of
    [s + 1]; [getAnalysisSeasons] lists that season and the two before
    it. *)
Theorem getCurrentSeason_spans :
  forall currentYear currentMonth : Z,
    (1 <= currentMonth <= 12)%Z ->
    let season := getCurrentSeason currentYear currentMonth in
    (12 * season + 8 <= 12 * currentYear + currentMonth <= 12 * season + 19)%Z
    /\ (forall s,
           (12 * s + 8 <= 12 * currentYear + currentMonth
            <= 12 * s + 19)%Z ->
           s = season)
    /\ map sw_season (getAnalysisSeasons currentYear currentMonth)
       = [season; (season - 1)%Z; (season - 2)%Z].
Proof.
  intros y m Hm. unfold getAnalysisSeasons, getCurrentSeason.
  destruct (Z.geb_spec m 8); cbn [map sw_season]; repeat split; intros; lia.
Qed.

Lemma getCurrentSeason_spans_witness :
  (12 * getCurrentSeason 2026 3 + 8 <= 12 * 2026 + 3
   <= 12 * getCurrentSeason 2026 3 + 19)%Z.
Proof.
  apply (@getCurrentSeason_spans 2026 3). lia.
Defined.

(** ** Statistics: three seasons on record *)

Lemma mock_three_seasons (year month : Z) (db : MockDatabase) (teamId : Z)
  (s0 s1 s2 : TeamStatistics) :
  let season := getCurrentSeason year month in
  Database.getTeamStatistics db teamId season = Some s0 ->
  Database.getTeamStatistics db teamId (season - 1) = Some s1 ->
  Database.getTeamStatistics db teamId (season - 2) = Some s2 ->
  multiSeasonData (mockSource year month db) teamId
  = [ {| sd_season := season; sd_stats := Some (asRecord s0);
         sd_weight := lit 5 10 |};
      {| sd_season := (season - 1)%Z; sd_stats := Some (asRecord s1);
         sd_weight := lit 3 10 |};
      {| sd_season := (season - 2)%Z; sd_stats := Some (asRecord s2);
         sd_weight := lit 2 10 |} ].
Proof.
  intros season H0 H1 H2. subst season. unfold multiSeasonData.
  cbn [mockSource api_hasApiKey try_catch ret nowYear nowMonth].
  unfold getAnalysisSeasons.
  cbn [dbSeasonData db_getTeamStatistics mockSource sw_season sw_weight].
  now rewrite H0, H1, H2.
Qed.



(** ** The reports of the prediction generator *)

Section Accuracy_facts.

Variable Exp : Q -> Q.
Variable ds : DataSource.

Lemma accuracy_fold (fs : list Fixture) (c : AccuracyCount) :
  let c' := fold_left (accuracyStep Exp ds) fs c in
  (total c' = total c + Z.of_nat (List.length fs)
   /\ correct c'
      = correct c
        + Z.of_nat (List.length (filter (predictedRight Exp ds) fs)))%Z.
Proof.
  revert c. induction fs as [|fx fs IH]; intro c.
  - cbn. lia.
  - cbn [fold_left]. specialize (IH (accuracyStep Exp ds c fx)).
    cbv zeta in IH. destruct IH as [Ht Hc]. cbv zeta. rewrite Ht, Hc.
    unfold accuracyStep, predictedRight. cbn [filter].
    destruct (predictMatch_succeeds Exp ds fx) as (p & ->).
    cbn [total correct].
    destruct (Outcome_eqb (prediction p) (actualResult fx));
      cbn [List.length]; lia.
Qed.

End Accuracy_facts.

(** X19.  [testPredictionAccuracy]: it stops without a report exactly when
    no fixture is replayed; otherwise every replayed fixture is tested
    (the [catch] in the loop is never taken), the correct predictions
    are the fixtures whose prediction is the actual result, there are at
    most as many as tested, at most [matches] fixtures are tested, and
    the accuracy is [correct / tested * 100], in [0, 100]. *)
Theorem testPredictionAccuracy_report :
  forall (Exp : Q -> Q) (ds : DataSource) (allFixtures : list Fixture)
         (matches : Z),
    let replayed := completedFixtures allFixtures matches in
    match testPredictionAccuracy Exp ds allFixtures matches with
    | None => replayed = []
    | Some report =>
        replayed <> []
        /\ matchesTested report = Z.of_nat (List.length replayed)
        /\ correctPredictions report
           = Z.of_nat (List.length (filter (predictedRight Exp ds) replayed))
        /\ (0 <= correctPredictions report <= matchesTested report)%Z
        /\ (0 <= matches -> matchesTested report <= matches)%Z
        /\ JS.within 0 100 (accuracy report)
        /\ (accuracy report
            == Fin (inject_Z (correctPredictions report)
                    / inject_Z (matchesTested report) * 100))%num
    end.
Proof.
  intros Exp ds allFixtures matches replayed.
  unfold testPredictionAccuracy. fold replayed.
  destruct (Z.eqb_spec (Z.of_nat (List.length replayed)) 0) as [E|E].
  { destruct replayed; [reflexivity | cbn [List.length] in E; lia]. }
  destruct (accuracy_fold Exp ds replayed {| correct := 0; total := 0 |})
    as [Ht Hc].
  set (c := fold_left (accuracyStep Exp ds) replayed
                      {| correct := 0; total := 0 |}) in *.
  cbn [total correct] in Ht, Hc.
  cbn [matchesTested correctPredictions accuracy].
  pose proof (filter_length_le (predictedRight Exp ds) replayed) as Hle.
  assert (Hpos : (0 < total c)%Z) by lia.
  split; [intros ->; now apply E|].
  split; [lia|]. split; [lia|]. split; [lia|]. split.
  - intro Hm. rewrite Ht. cbn [Z.add]. unfold replayed, completedFixtures.
    now apply slice0_length.
  - rewrite (proj2 (Z.gtb_lt _ _) Hpos).
    destruct (@percentage_within (correct c) (total c)) as (q & Hq & Hv & Hr);
      [lia | lia |].
    rewrite Hq. split; [exact Hr | exact Hv].
Qed.

Lemma confidenceStep_counts (c : ConfidenceSummary) (fp : FixturePrediction) :
  let c' := confidenceStep c fp in
  (highConfidence c' + mediumConfidence c' + lowConfidence c'
   = highConfidence c + mediumConfidence c + lowConfidence c + 1
   /\ highConfidence c <= highConfidence c'
   /\ mediumConfidence c <= mediumConfidence c'
   /\ lowConfidence c <= lowConfidence c')%Z.
Proof.
  unfold confidenceStep.
  destruct (num_geb _ 75%Z); [|destruct (num_geb _ 50%Z)];
    cbn [highConfidence mediumConfidence lowConfidence]; lia.
Qed.

Lemma confidence_fold (ps : list FixturePrediction) (c : ConfidenceSummary) :
  let c' := fold_left confidenceStep ps c in
  (highConfidence c' + mediumConfidence c' + lowConfidence c'
   = highConfidence c + mediumConfidence c + lowConfidence c
     + Z.of_nat (List.length ps)
   /\ highConfidence c <= highConfidence c'
   /\ mediumConfidence c <= mediumConfidence c'
   /\ lowConfidence c <= lowConfidence c')%Z.
Proof.
  revert c. induction ps as [|fp ps IH]; intro c.
  - cbn. lia.
  - cbn [fold_left]. specialize (IH (confidenceStep c fp)).
    pose proof (confidenceStep_counts c fp) as Hs.
    cbv zeta in *. cbn [List.length]. lia.
Qed.

Lemma statsCountStep_counts (c : OutcomeCount) (p : Prediction) :
  let c' := statsCountStep c p in
  (homeWins c' + drawCount c' + awayWins c'
   = homeWins c + drawCount c + awayWins c + 1
   /\ homeWins c <= homeWins c' /\ drawCount c <= drawCount c'
   /\ awayWins c <= awayWins c')%Z.
Proof.
  unfold statsCountStep.
  destruct (pred_outcome p); cbn [homeWins drawCount awayWins]; lia.
Qed.

Lemma stats_count_fold (ps : list Prediction) (c : OutcomeCount) :
  let c' := fold_left statsCountStep ps c in
  (homeWins c' + drawCount c' + awayWins c'
   = homeWins c + drawCount c + awayWins c + Z.of_nat (List.length ps)
   /\ homeWins c <= homeWins c' /\ drawCount c <= drawCount c'
   /\ awayWins c <= awayWins c')%Z.
Proof.
  revert c. induction ps as [|p ps IH]; intro c.
  - cbn. lia.
  - cbn [fold_left]. specialize (IH (statsCountStep c p)).
    pose proof (statsCountStep_counts c p) as Hs.
    cbv zeta in *. cbn [List.length]. lia.
Qed.

(** X20.  The counters of the two reports: the three confidence counters
    of [generateUpcomingPredictions] are not negative and add up to the
    number of predictions, and so do the three outcome counters of
    [getPredictionStats], which stops without a report exactly when there
    is no prediction. *)
Theorem report_counters_partition :
  (forall predictions : list FixturePrediction,
      let c := confidenceSummary predictions in
      (highConfidence c + mediumConfidence c + lowConfidence c
       = Z.of_nat (List.length predictions)
       /\ 0 <= highConfidence c /\ 0 <= mediumConfidence c
       /\ 0 <= lowConfidence c)%Z)
  /\ (forall predictions : list Prediction,
         match getPredictionStats predictions with
         | None => predictions = []
         | Some (c, _) =>
             (homeWins c + drawCount c + awayWins c
              = Z.of_nat (List.length predictions)
              /\ 0 <= homeWins c /\ 0 <= drawCount c /\ 0 <= awayWins c)%Z
         end).
Proof.
  split.
  - intro ps. pose proof (confidence_fold ps
                {| highConfidence := 0; mediumConfidence := 0;
                   lowConfidence := 0 |}) as H.
    cbv zeta in *. unfold confidenceSummary.
    cbn [highConfidence mediumConfidence lowConfidence] in H. lia.
  - intro ps. unfold getPredictionStats.
    destruct (Z.eqb_spec (Z.of_nat (List.length ps)) 0) as [E|E].
    { destruct ps; [reflexivity | cbn [List.length] in E; lia]. }
    pose proof (stats_count_fold ps
                {| homeWins := 0; drawCount := 0; awayWins := 0;
                   totalConfidence := 0%Z |}) as H.
    cbv zeta in H. cbn [homeWins drawCount awayWins] in H. lia.
Qed.

(** ** The database: one prediction per fixture *)

Lemma savePrediction_keeps_one (s : MockDB) (p : Prediction) :
  onePredictionPerFixture s -> onePredictionPerFixture (Db.savePrediction s p).
Proof.
  unfold onePredictionPerFixture, Db.savePrediction. cbn [predictions].
  apply NoDup_key_upsert.
Qed.

(** X21.  [savePrediction] and [getPredictionByFixtureId]: when no two
    stored predictions are for the same fixture, this still holds after
    any sequence of saves; a saved prediction is the one found for its
    fixture, it replaces the one stored for that fixture (the number of
    predictions grows by one only when there was none), and the
    predictions of the other fixtures are found as before. *)
Theorem savePrediction_one_per_fixture :
  forall (s : MockDB) (ps : list Prediction),
    onePredictionPerFixture s ->
    onePredictionPerFixture (fold_left Db.savePrediction ps s)
    /\ (forall p,
           Db.getPredictionByFixtureId (Db.savePrediction s p) (fixture_id p)
           = Some p
           /\ List.length (predictions (Db.savePrediction s p))
              = (if notNull (Db.getPredictionByFixtureId s (fixture_id p))
                 then List.length (predictions s)
                 else S (List.length (predictions s)))
           /\ forall fixtureId,
               fixtureId <> fixture_id p ->
               Db.getPredictionByFixtureId (Db.savePrediction s p) fixtureId
               = Db.getPredictionByFixtureId s fixtureId).
Proof.
  intros s ps Hs. split.
  - revert s Hs. induction ps as [|p ps IH]; intros s Hs; [exact Hs|].
    cbn [fold_left]. apply IH. now apply savePrediction_keeps_one.
  - intro p. split; [|split].
    + rewrite getPredictionByFixtureId_savePrediction. now rewrite Z.eqb_refl.
    + unfold Db.savePrediction, Db.getPredictionByFixtureId.
      cbn [predictions]. rewrite length_upsert. now rewrite find_some_existsb.
    + intros fixtureId Hne. rewrite getPredictionByFixtureId_savePrediction.
      now replace (fixture_id p =? fixtureId)%Z with false by lia.
Qed.

Lemma savePrediction_one_per_fixture_witness :
  onePredictionPerFixture
    (fold_left Db.savePrediction
       [toPrediction "a" 1 Example.upcoming fallbackPrediction;
        toPrediction "b" 2 Example.upcoming fallbackPrediction]
       Sample.emptyStore).
Proof.
  apply savePrediction_one_per_fixture. constructor.
Defined.

(** ** The predictions route *)

Lemma getFixtureById_id (s : MockDB) (id : Z) (fixture : Fixture) :
  Db.getFixtureById s id = Some fixture ->
  fx_id fixture = id /\ In fixture (fixtures s).
Proof.
  unfold Db.getFixtureById. intro H. apply find_some in H.
  destruct H as [Hin E]. apply Z.eqb_eq in E. now split.
Qed.

Section Routes_facts.

Variable Exp : Q -> Q.
Variable engine : MockDatabase -> DataSource.
Variable fresh : nat -> string * Z.

(** X22.  [GET /api/predictions?fixture_id=...]: it never answers 500.  A
    stored prediction is answered as it is, without a write, unless
    [generate] is set; an unknown fixture is answered 404 without a
    write; otherwise the prediction of [predictMatch] is stored for the
    fixture asked, the fixtures and statistics are unchanged, and the
    same request without [generate] then answers that prediction from
    the store. *)
Theorem GET_fixture_generates_then_caches :
  forall (generate : bool) (fixtureId : Z) (s : MockDB),
    match GET_fixture Exp engine fresh generate fixtureId s with
    | (s', Cached p) =>
        s' = s /\ generate = false
        /\ Db.getPredictionByFixtureId s fixtureId = Some p
    | (s', Generated p) =>
        (generate = true \/ Db.getPredictionByFixtureId s fixtureId = None)
        /\ (exists fixture r,
               Db.getFixtureById s fixtureId = Some fixture
               /\ predictMatch Exp (engine (engineView s)) fixture = Ok r
               /\ p = toPrediction (fst (fresh 0%nat)) (snd (fresh 0%nat))
                                   fixture r)
        /\ fixture_id p = fixtureId
        /\ Db.getPredictionByFixtureId s' fixtureId = Some p
        /\ engineView s' = engineView s
        /\ GET_fixture Exp engine fresh false fixtureId s' = (s', Cached p)
    | (s', FixtureNotFound) =>
        s' = s /\ Db.getFixtureById s fixtureId = None
    | (_, Failed _) => False
    end.
Proof.
  intros generate fixtureId s. unfold GET_fixture.
  assert (Hgen :
    match
      match Db.getFixtureById s fixtureId with
      | Some fixture =>
          match predictMatch Exp (engine (engineView s)) fixture with
          | Ok predictionResult =>
              (Db.savePrediction s
                 (toPrediction (fst (fresh 0%nat)) (snd (fresh 0%nat)) fixture
                               predictionResult),
               Generated
                 (toPrediction (fst (fresh 0%nat)) (snd (fresh 0%nat)) fixture
                               predictionResult))
          | Err e => (s, Failed e)
          end
      | None => (s, FixtureNotFound)
      end
    with
    | (s', Cached p) => False
    | (s', Generated p) =>
        (exists fixture r,
            Db.getFixtureById s fixtureId = Some fixture
            /\ predictMatch Exp (engine (engineView s)) fixture = Ok r
            /\ p = toPrediction (fst (fresh 0%nat)) (snd (fresh 0%nat))
                                fixture r)
        /\ fixture_id p = fixtureId
        /\ Db.getPredictionByFixtureId s' fixtureId = Some p
        /\ engineView s' = engineView s
        /\ GET_fixture Exp engine fresh false fixtureId s' = (s', Cached p)
    | (s', FixtureNotFound) =>
        s' = s /\ Db.getFixtureById s fixtureId = None
    | (_, Failed _) => False
    end).
  { destruct (Db.getFixtureById s fixtureId) as [fixture|] eqn:Hf;
      [|cbv iota; now split].
    destruct (predictMatch_succeeds Exp (engine (engineView s)) fixture)
      as (r & Hr).
    rewrite Hr. cbv iota beta.
    destruct (@getFixtureById_id s fixtureId fixture Hf) as [Hid _].
    set (p := toPrediction _ _ fixture r).
    assert (Hp : fixture_id p = fixtureId) by exact Hid.
    assert (Hlook : Db.getPredictionByFixtureId (Db.savePrediction s p)
                                                fixtureId = Some p).
    { rewrite getPredictionByFixtureId_savePrediction, Hp.
      now rewrite Z.eqb_refl. }
    split; [exists fixture, r; repeat split; assumption|].
    split; [exact Hp|]. split; [exact Hlook|]. split; [reflexivity|].
    unfold GET_fixture. now rewrite Hlook. }
  destruct (Db.getPredictionByFixtureId s fixtureId) as [existing|] eqn:He.
  - destruct generate.
    + destruct (match Db.getFixtureById s fixtureId with
                | Some _ => _ | None => _ end) as [s' [p|p| |e]];
        try exact Hgen; try contradiction. split; [now left | exact Hgen].
    + repeat split.
  - destruct (match Db.getFixtureById s fixtureId with
              | Some _ => _ | None => _ end) as [s' [p|p| |e]];
      try exact Hgen; try contradiction. split; [now right | exact Hgen].
Qed.

Lemma getFixtureById_view (s s0 : MockDB) (id : Z) :
  engineView s = engineView s0 ->
  Db.getFixtureById s id = Db.getFixtureById s0 id.
Proof.
  intro H. unfold Db.getFixtureById.
  change (fixtures s) with (db_fixtures (engineView s)).
  now rewrite H.
Qed.

Lemma getPredictionByFixtureId_id (s : MockDB) (id : Z) (p : Prediction) :
  Db.getPredictionByFixtureId s id = Some p -> fixture_id p = id.
Proof.
  unfold Db.getPredictionByFixtureId. intro H. apply find_some in H.
  now apply Z.eqb_eq.
Qed.

Lemma Permutation_snoc_left {A} (l1 l2 l : list A) (x : A) :
  Permutation (l1 ++ l2) l -> Permutation ((l1 ++ [x]) ++ l2) (l ++ [x]).
Proof.
  intro H. rewrite <- app_assoc.
  transitivity (l1 ++ l2 ++ [x]).
  - apply Permutation_app_head. apply Permutation_app_comm.
  - rewrite app_assoc. now apply Permutation_app_tail.
Qed.

Lemma Permutation_snoc_right {A} (l1 l2 l : list A) (x : A) :
  Permutation (l1 ++ l2) l -> Permutation (l1 ++ l2 ++ [x]) (l ++ [x]).
Proof.
  intro H. rewrite app_assoc. now apply Permutation_app_tail.
Qed.

Lemma postStep_invariant (regenerate : bool) (s0 : MockDB) (done : list Z)
  (st : PostState) (fixtureId : Z) :
  postInvariant s0 done st ->
  postInvariant s0 (done ++ [fixtureId])
                (postStep Exp engine fresh regenerate st fixtureId).
Proof.
  intros (Hview & Hperm & Hres & Herr & Hone). unfold postStep.
  set (n := (List.length (results st) + List.length (errors st))%nat).
  destruct (if regenerate then None
            else Db.getPredictionByFixtureId (post_db st) fixtureId)
    as [existing|] eqn:Hex.
  - assert (Hlook : Db.getPredictionByFixtureId (post_db st) fixtureId
                    = Some existing) by (destruct regenerate; congruence).
    unfold postInvariant. cbn [post_db results errors].
    split; [exact Hview|]. split.
    { rewrite map_app. cbn [map pr_fixture_id].
      now apply Permutation_snoc_left. }
    split; [|split; assumption].
    intros r Hr. apply in_app_or in Hr. destruct Hr as [Hr|[<-|[]]].
    + now apply Hres.
    + cbn [pr_fixture_id]. exists existing. split; [exact Hlook|].
      exact (@getPredictionByFixtureId_id _ _ _ Hlook).
  - destruct (Db.getFixtureById (post_db st) fixtureId) as [fixture|] eqn:Hf.
    + destruct (predictMatch_succeeds Exp (engine (engineView (post_db st)))
                                      fixture) as (r & ->).
      set (p := toPrediction _ _ fixture r).
      assert (Hp : fixture_id p = fixtureId)
        by exact (proj1 (@getFixtureById_id _ _ _ Hf)).
      unfold postInvariant. cbn [post_db results errors].
      split; [exact Hview|]. split.
      { rewrite map_app. cbn [map pr_fixture_id].
        now apply Permutation_snoc_left. }
      split; [|split; [exact Herr|]].
      * intros r0 Hr0. rewrite getPredictionByFixtureId_savePrediction.
        destruct (Z.eqb_spec (fixture_id p) (pr_fixture_id r0)) as [E|E].
        { exists p. now split. }
        apply in_app_or in Hr0. destruct Hr0 as [Hr0|[<-|[]]].
        { now apply Hres. }
        { cbn [pr_fixture_id] in E. now contradiction E. }
      * intro H. apply savePrediction_keeps_one. now apply Hone.
    + unfold postInvariant. cbn [post_db results errors].
      split; [exact Hview|]. split.
      { rewrite map_app. cbn [map pe_fixture_id].
        now apply Permutation_snoc_right. }
      split; [exact Hres|]. split; [|exact Hone].
      intros e He. apply in_app_or in He. destruct He as [He|[<-|[]]].
      * now apply Herr.
      * cbn [pe_error pe_fixture_id]. split; [reflexivity|].
        now rewrite <- (@getFixtureById_view (post_db st) s0 fixtureId Hview).
Qed.

Lemma post_fold_invariant (regenerate : bool) (s0 : MockDB) (ids done : list Z)
  (st : PostState) :
  postInvariant s0 done st ->
  postInvariant s0 (done ++ ids)
                (fold_left (postStep Exp engine fresh regenerate) ids st).
Proof.
  revert done st. induction ids as [|id ids IH]; intros done st H.
  - now rewrite app_nil_r.
  - cbn [fold_left]. replace (done ++ id :: ids) with ((done ++ [id]) ++ ids)
      by (now rewrite <- app_assoc).
    apply IH. now apply postStep_invariant.
Qed.

(** X23.  [POST /api/predictions]: each identifier of the request gives
    one result or one error, so [processed = successful + failed]; after
    the request a prediction is stored for the identifier of every
    result; every error is ['Fixture not found'], for an identifier the
    database has no fixture for; the fixtures and statistics are
    unchanged, and no fixture gets a second prediction. *)
Theorem POST_accounts_for_every_id :
  forall (regenerate : bool) (fixture_ids : list Z) (s : MockDB),
    let st := fst (POST Exp engine fresh regenerate fixture_ids s) in
    let stats := snd (POST Exp engine fresh regenerate fixture_ids s) in
    (processed stats = successful stats + failed stats)%Z
    /\ Permutation (map pr_fixture_id (results st)
                    ++ map pe_fixture_id (errors st)) fixture_ids
    /\ (forall r, In r (results st) ->
                  exists p,
                    Db.getPredictionByFixtureId (post_db st) (pr_fixture_id r)
                    = Some p
                    /\ fixture_id p = pr_fixture_id r)
    /\ (forall e, In e (errors st) ->
                  pe_error e = "Fixture not found"%string
                  /\ Db.getFixtureById s (pe_fixture_id e) = None)
    /\ engineView (post_db st) = engineView s
    /\ (onePredictionPerFixture s -> onePredictionPerFixture (post_db st)).
Proof.
  intros regenerate fixture_ids s. unfold POST. cbn [fst snd].
  set (st0 := {| post_db := s; results := []; errors := [] |}).
  assert (H0 : postInvariant s [] st0).
  { unfold postInvariant, st0. cbn [post_db results errors map app].
    split; [reflexivity|]. split; [constructor|].
    split; [intros r []|]. split; [intros e []|]. exact (fun H => H). }
  pose proof (@post_fold_invariant regenerate s fixture_ids [] st0 H0) as H.
  cbn [app] in H. destruct H as (Hview & Hperm & Hres & Herr & Hone).
  cbn [processed successful failed].
  split.
  - apply Permutation_length in Hperm.
    rewrite length_app, !length_map in Hperm. lia.
  - split; [exact Hperm|]. split; [exact Hres|]. split; [exact Herr|].
    split; [exact Hview | exact Hone].
Qed.

End Routes_facts.

(** ** The teams and standings routes *)

Lemma length_zero_iff_nil {A} (l : list A) :
  (Z.of_nat (List.length l) =? 0)%Z = true <-> l = [].
Proof.
  destruct l; cbn [List.length]; split; intro H; try reflexivity;
    discriminate.
Qed.

Lemma length_zero_false {A} (l : list A) :
  l <> [] -> (Z.of_nat (List.length l) =? 0)%Z = false.
Proof.
  intro H. destruct (Z.of_nat (List.length l) =? 0)%Z eqn:E; [|reflexivity].
  apply length_zero_iff_nil in E. contradiction.
Qed.

Lemma getTeams_fallback (hasApiKey : bool) (apiTeams : Result (list Team))
  (s : MockDB) :
  hasApiKey = false \/ (exists e, apiTeams = Err e) ->
  Db.getTeams hasApiKey apiTeams s
  = (s, if (Z.of_nat (List.length (teams s)) >? 0)%Z
        then teams s else Db.getMockTeams)
  /\ (if (Z.of_nat (List.length (teams s)) >? 0)%Z
      then teams s else Db.getMockTeams) <> [].
Proof.
  intro H. split.
  - unfold Db.getTeams. destruct H as [->|(e & ->)]; [reflexivity|].
    now destruct hasApiKey.
  - destruct (teams s) as [|t l]; cbn; discriminate.
Qed.

(** X24.  [GET /api/teams]: the answer is a failure only when the key is
    configured, the API first answered with no team and then threw.
    Without a key, or when the first call throws, the answer lists the
    cached teams, or the built-in teams when there is none, and the
    database is unchanged. *)
Theorem GET_teams_failure_needs_the_api :
  forall (hasApiKey : bool) (apiTeams apiTeamsAgain : Result (list Team))
         (s : MockDB),
    (forall e,
        snd (GET_teams hasApiKey apiTeams apiTeamsAgain s) = ListFailed e ->
        hasApiKey = true /\ apiTeams = Ok [] /\ apiTeamsAgain = Err e)
    /\ (hasApiKey = false \/ (exists e, apiTeams = Err e) ->
        exists listed,
          GET_teams hasApiKey apiTeams apiTeamsAgain s = (s, Listed listed)
          /\ listed <> []
          /\ (teams s = [] -> listed = Db.getMockTeams)
          /\ (teams s <> [] -> listed = teams s)).
Proof.
  intros hasApiKey apiTeams apiTeamsAgain s.
  assert (Hfb : hasApiKey = false \/ (exists e, apiTeams = Err e) ->
                exists listed,
                  GET_teams hasApiKey apiTeams apiTeamsAgain s
                  = (s, Listed listed)
                  /\ listed <> []
                  /\ (teams s = [] -> listed = Db.getMockTeams)
                  /\ (teams s <> [] -> listed = teams s)).
  { intro H. destruct (@getTeams_fallback hasApiKey apiTeams s H) as [E Hne].
    unfold GET_teams. rewrite E. rewrite (@length_zero_false _ _ Hne).
    eexists. split; [reflexivity|]. split; [exact Hne|].
    destruct (teams s) as [|t l]; cbn [List.length].
    - split; [reflexivity | intro C; now contradiction C].
    - change (Z.of_nat (S (List.length l)) >? 0)%Z with true.
      split; [discriminate | reflexivity]. }
  split; [|exact Hfb].
  intros e He. destruct hasApiKey.
  2:{ destruct Hfb as (listed & E & _); [now left|].
      rewrite E in He. discriminate. }
  destruct apiTeams as [ts|e'].
  2:{ destruct Hfb as (listed & E & _); [right; eauto|].
      rewrite E in He. discriminate. }
  unfold GET_teams in He. cbn [Db.getTeams] in He.
  destruct ts as [|t ts].
  - cbn [List.length Z.of_nat Z.eqb] in He.
    destruct apiTeamsAgain as [fetched|e2]; cbn [snd] in He;
      [discriminate|]. injection He as ->. repeat split.
  - rewrite length_zero_false in He by discriminate. discriminate.
Qed.

(** X25.  [GET /api/standings]: rows held by the database (with a team
    identifier other than 0) are answered without the API; with none,
    the rows of the API are answered and replace the table, and the next
    request answers the rows with a team identifier from the table,
    whatever the API does, when there is one; with none and a failing
    API the answer is the failure and nothing is written. *)
Theorem GET_standings_fetches_once :
  forall (apiStandings : Result (list Standing)) (s : MockDB),
    (Db.getStandings s <> [] ->
     GET_standings apiStandings s = (s, Listed (Db.getStandings s)))
    /\ (Db.getStandings s = [] ->
        forall fetched,
          apiStandings = Ok fetched ->
          exists s',
            GET_standings apiStandings s = (s', Listed fetched)
            /\ standings s' = fetched
            /\ Db.getStandings s'
               = filter (fun st => negb (team_id (st_team st) =? 0)%Z) fetched
            /\ (Db.getStandings s' <> [] ->
                forall again,
                  GET_standings again s'
                  = (s', Listed (Db.getStandings s'))))
    /\ (Db.getStandings s = [] ->
        forall e,
          apiStandings = Err e ->
          GET_standings apiStandings s = (s, ListFailed e)).
Proof.
  intros apiStandings s.
  assert (Hhit : forall api s0,
             Db.getStandings s0 <> [] ->
             GET_standings api s0 = (s0, Listed (Db.getStandings s0))).
  { intros api s0 H. unfold GET_standings. now rewrite (@length_zero_false _ _ H). }
  split; [apply Hhit|]. split.
  - intros Hnone fetched ->. unfold GET_standings at 1. rewrite Hnone.
    cbn [List.length Z.of_nat Z.eqb].
    exists (Db.saveStandings s fetched). split; [reflexivity|].
    split; [reflexivity|]. split; [reflexivity|].
    intros Hne again. now apply Hhit.
  - intros Hnone e ->. unfold GET_standings. now rewrite Hnone.
Qed.

(** ** The standings page: the league statistics *)

Lemma fold_greatest {A} (key : A -> Z) (l : list A) (x : A) :
  let b := fold_left (fun top t => if (key t >? key top)%Z then t else top)
                     l x in
  In b (x :: l) /\ forall t, In t (x :: l) -> (key t <= key b)%Z.
Proof.
  revert x. induction l as [|y l IH]; intro x; cbn [fold_left].
  - split; [now left|]. intros t [<-|[]]. lia.
  - specialize (IH (if (key y >? key x)%Z then y else x)). cbv zeta in *.
    destruct IH as [Hin Hmax]. split.
    + destruct Hin as [<-|Hin]; [|now right; right].
      destruct (key y >? key x)%Z; [right|]; now left.
    + assert (H := Hmax _ (or_introl eq_refl)).
      intros t [E|[E|Ht]]; [subst t|subst t|apply Hmax; now right];
        destruct (Z.gtb_spec (key y) (key x)); lia.
Qed.

Lemma fold_least {A} (key : A -> Z) (l : list A) (x : A) :
  let b := fold_left (fun best t => if (key t <? key best)%Z then t else best)
                     l x in
  In b (x :: l) /\ forall t, In t (x :: l) -> (key b <= key t)%Z.
Proof.
  revert x. induction l as [|y l IH]; intro x; cbn [fold_left].
  - split; [now left|]. intros t [<-|[]]. lia.
  - specialize (IH (if (key y <? key x)%Z then y else x)). cbv zeta in *.
    destruct IH as [Hin Hmin]. split.
    + destruct Hin as [<-|Hin]; [|now right; right].
      destruct (key y <? key x)%Z; [right|]; now left.
    + assert (H := Hmin _ (or_introl eq_refl)).
      intros t [E|[E|Ht]]; [subst t|subst t|apply Hmin; now right];
        destruct (Z.ltb_spec (key y) (key x)); lia.
Qed.

Lemma fold_sum {A} (f : A -> Z) (l : list A) (z : Z) :
  fold_left (fun sum t => (sum + f t)%Z) l z
  = (z + fold_right Z.add 0%Z (map f l))%Z.
Proof.
  revert z. induction l as [|x l IH]; intro z; cbn [fold_left map fold_right].
  - lia.
  - rewrite IH. lia.
Qed.

(** X26.  [getLeagueStats]: it never throws, and gives no statistics
    exactly for an empty table; otherwise [totalGoals] is the sum of the
    goals scored, and [topScorer], [bestDefense] and [mostWins] are rows
    of the table with the most goals scored, the fewest goals conceded
    and the most wins. *)
Theorem getLeagueStats_extremes :
  forall standings : list Standing,
    match getLeagueStats standings with
    | Err _ => False
    | Ok None => standings = []
    | Ok (Some stats) =>
        standings <> []
        /\ totalGoals stats = fold_right Z.add 0%Z (map st_goals_for standings)
        /\ In (topScorer stats) standings
        /\ In (bestDefense stats) standings
        /\ In (mostWins stats) standings
        /\ forall team, In team standings ->
             (st_goals_for team <= st_goals_for (topScorer stats)
              /\ st_goals_against (bestDefense stats) <= st_goals_against team
              /\ st_win team <= st_win (mostWins stats))%Z
    end.
Proof.
  intros [|x l]; [reflexivity|]. unfold getLeagueStats.
  destruct (Z.eqb_spec (Z.of_nat (List.length (x :: l))) 0) as [E|_];
    [cbn [List.length] in E; lia|].
  cbn [reduce1 bind ret totalGoals topScorer bestDefense mostWins].
  destruct (fold_greatest st_goals_for l x) as [H1 H2].
  destruct (fold_least st_goals_against l x) as [H3 H4].
  destruct (fold_greatest st_win l x) as [H5 H6].
  split; [discriminate|]. split; [now rewrite fold_sum|].
  split; [exact H1|]. split; [exact H3|]. split; [exact H5|].
  intros team Ht. split; [now apply H2|]. split; [now apply H4 | now apply H6].
Qed.
